(** * SOFUN Tracker: the spreadsheet ingestion pipeline

    A shallow embedding of [SofunDataProcessor] (data processor) and of the
    utilities it calls (utilities file), followed by the properties of the
    ingestion that the specification states.

    Conventions of the embedding.
    - A JavaScript string is a [string]; the text handled is ASCII: case
      mapping acts on the letters a-z / A-Z and white space is the ASCII
      white space (TAB, LF, VT, FF, CR, SPACE).
    - A sheet is the array of arrays that [XLSX.utils.sheet_to_json] with
      [header: 1] returns: a list of rows, a row a list of cells.  Reading a
      row past its end gives [undefined].
    - A [Date] is its time value, an integer number of milliseconds since
      1970-01-01T00:00:00Z; only valid dates are stored by the code.
    - A numeric cell carries an integer (of magnitude below 10^21, so that
      [toString] prints plain decimal digits).
    - An exception is the [Throw] branch of [result].
    - [new Date()] and [Math.random()] are readings of an environment [Env];
      what [Date.parse] does outside the ISO date-only format, and the local
      time zone, belong to the [Engine].
    - A draw of [Math.random()] is a rational and its product with an
      integer is exact, where the code rounds the product to a double: at a
      draw within one rounding step below k/n the code can select the next
      element.  No property below depends on which element or month is
      drawn.
    - Properties of case mapping and of lengths of text are stated for
      ASCII text ([asciiText]): outside ASCII the case mappings of
      JavaScript can lengthen a string, which the byte-wise mappings here
      do not. *)

From Stdlib Require Import String Ascii List ZArith Lia Bool DecimalString.
From Stdlib Require Import QArith Qround.
Import ListNotations.

#[local] Open Scope string_scope.
#[local] Open Scope Z_scope.

(* ================================================================= *)
(** ** JavaScript primitives used by the processor *)

Module JS.

Definition dquote : ascii := Eval cbv in ascii_of_nat 34.
Definition squote : ascii := Eval cbv in ascii_of_nat 39.
Definition DQ : string := String dquote EmptyString.

(** White space of [String.prototype.trim] and of the regex class [\s]. *)
Definition isWhiteSpace (c : ascii) : bool :=
  let n := nat_of_ascii c in
  ((9 <=? n) && (n <=? 13))%nat || (n =? 32)%nat.

(** The regex class [\d]. *)
Definition isDigit (c : ascii) : bool :=
  let n := nat_of_ascii c in ((48 <=? n) && (n <=? 57))%nat.

Definition upperChar (c : ascii) : ascii :=
  let n := nat_of_ascii c in
  if ((97 <=? n) && (n <=? 122))%nat then ascii_of_nat (n - 32) else c.

Definition lowerChar (c : ascii) : ascii :=
  let n := nat_of_ascii c in
  if ((65 <=? n) && (n <=? 90))%nat then ascii_of_nat (n + 32) else c.

Fixpoint mapString (f : ascii -> ascii) (s : string) : string :=
  match s with
  | EmptyString => EmptyString
  | String c r => String (f c) (mapString f r)
  end.

Definition toUpperCase : string -> string := mapString upperChar.
Definition toLowerCase : string -> string := mapString lowerChar.

Fixpoint filterString (f : ascii -> bool) (s : string) : string :=
  match s with
  | EmptyString => EmptyString
  | String c r => if f c then String c (filterString f r) else filterString f r
  end.

Fixpoint trimStart (s : string) : string :=
  match s with
  | EmptyString => EmptyString
  | String c r => if isWhiteSpace c then trimStart r else s
  end.

Fixpoint trimEnd (s : string) : string :=
  match s with
  | EmptyString => EmptyString
  | String c r =>
      match trimEnd r with
      | EmptyString => if isWhiteSpace c then EmptyString else String c EmptyString
      | r' => String c r'
      end
  end.

Definition trim (s : string) : string := trimEnd (trimStart s).

(** [s.includes(sub)] *)
Fixpoint includes (s sub : string) : bool :=
  String.prefix sub s ||
  match s with
  | EmptyString => false
  | String _ r => includes r sub
  end.

(** [s.replace(/\s+/g, '')] *)
Definition stripSpaces : string -> string :=
  filterString (fun c => negb (isWhiteSpace c)).

(** [s.substring(0, n)] *)
Definition substring0 (n : nat) (s : string) : string := String.substring 0 n s.

(** [s.padStart(2, '0')] *)
Definition padStart2 (s : string) : string :=
  match String.length s with
  | O => "00"
  | S O => "0" ++ s
  | _ => s
  end.

Definition allDigits (s : string) : bool :=
  forallb isDigit (list_ascii_of_string s).

(** Value of a string of decimal digits ([parseInt(s, 10)] on digits). *)
Definition digitsValue (s : string) : Z :=
  fold_left (fun acc c => 10 * acc + (Z.of_nat (nat_of_ascii c) - 48))
            (list_ascii_of_string s) 0.

(** [String(n)] for an integer. *)
Definition showZ (z : Z) : string := NilZero.string_of_int (Z.to_int z).
Definition showNat (n : nat) : string := showZ (Z.of_nat n).

(** [array.push(x)] *)
Definition push {A} (l : list A) (x : A) : list A := app l [x].

(** *** Cells *)

Inductive cell : Type :=
| Undefined                 (* undefined, null, or a hole of the array *)
| Str (s : string)
| Num (z : Z)
| Bool (b : bool)
| Obj (rendering : string). (* any other object (a Date, ...) with its toString() *)

(** [row[i]] *)
Definition at_ (row : list cell) (i : nat) : cell := nth i row Undefined.

(** Truthiness: [if (cell)]. *)
Definition truthy (c : cell) : bool :=
  match c with
  | Undefined => false
  | Str s => negb (s =? "")%string
  | Num z => negb (z =? 0)
  | Bool b => b
  | Obj _ => true
  end.

Definition toString (c : cell) : string :=
  match c with
  | Undefined => "undefined"
  | Str s => s
  | Num z => showZ z
  | Bool true => "true"
  | Bool false => "false"
  | Obj r => r
  end.

(** [cell?.toString().trim()]: [None] is [undefined]. *)
Definition text (c : cell) : option string :=
  match c with
  | Undefined => None
  | _ => Some (trim (toString c))
  end.

(** Truthiness of an optional string: [if (s)]. *)
Definition nonEmpty (o : option string) : bool :=
  match o with
  | Some s => negb (s =? "")%string
  | None => false
  end.

(** [(s || '')] *)
Definition orEmpty (o : option string) : string :=
  match o with Some s => s | None => "" end.

(** *** Dates *)

Definition msPerDay : Z := 86400000.

(** Day number (days since 1970-01-01) of a civil date, month in 1..12. *)
Definition daysFromCivil (y m d : Z) : Z :=
  let y' := if m <=? 2 then y - 1 else y in
  let era := y' / 400 in
  let yoe := y' - era * 400 in
  let mp := if 2 <? m then m - 3 else m + 9 in
  let doy := (153 * mp + 2) / 5 + d - 1 in
  let doe := yoe * 365 + yoe / 4 - yoe / 100 + doy in
  era * 146097 + doe - 719468.

(** Civil date (year, month 1..12, day) of a day number. *)
Definition civilFromDays (z : Z) : Z * Z * Z :=
  let z := z + 719468 in
  let era := z / 146097 in
  let doe := z - era * 146097 in
  let yoe := (doe - doe / 1460 + doe / 36524 - doe / 146096) / 365 in
  let doy := doe - (365 * yoe + yoe / 4 - yoe / 100) in
  let mp := (5 * doy + 2) / 153 in
  let d := doy - (153 * mp + 2) / 5 + 1 in
  let m := if mp <? 10 then mp + 3 else mp - 9 in
  let y := yoe + era * 400 in
  (if m <=? 2 then y + 1 else y, m, d).

(** [MakeDay(year, month, date)] of ECMAScript, [month] counted from 0 and
    normalised into the year. *)
Definition MakeDay (year month date : Z) : Z :=
  let ym := year + month / 12 in
  let mn := month mod 12 in
  daysFromCivil ym (mn + 1) 1 + date - 1.

Definition isLeap (y : Z) : bool :=
  ((y mod 4 =? 0) && negb (y mod 100 =? 0)) || (y mod 400 =? 0).

Definition daysInMonth (y m : Z) : Z :=
  if m =? 2 then (if isLeap y then 29 else 28)
  else if (m =? 4) || (m =? 6) || (m =? 9) || (m =? 11) then 30 else 31.

(** The date-only form [YYYY-MM-DD] of the ECMAScript date-time string
    format: UTC midnight of a legal date. *)
Definition parseIsoDateOnly (s : string) : option Z :=
  if (String.length s =? 10)%nat then
    let ys := String.substring 0 4 s in
    let ms := String.substring 5 2 s in
    let ds := String.substring 8 2 s in
    if allDigits ys && allDigits ms && allDigits ds
       && (String.substring 4 1 s =? "-")%string
       && (String.substring 7 1 s =? "-")%string
    then
      let y := digitsValue ys in
      let m := digitsValue ms in
      let d := digitsValue ds in
      if (1 <=? m) && (m <=? 12) && (1 <=? d) && (d <=? daysInMonth y m)
      then Some (daysFromCivil y m d * msPerDay)
      else None
    else None
  else None.

(** What the processor needs of the JavaScript engine besides the above:
    the implementation-defined part of [Date.parse] (any string that is not
    a legal ISO date-only string), and the local time zone adjustment. *)
Record Engine : Type := {
  legacyDateParse : string -> option Z;
  LocalTZA : Z
}.

(** [new Date(string)]: [None] is an invalid date (NaN time value). *)
Definition DateParse (js : Engine) (s : string) : option Z :=
  match parseIsoDateOnly s with
  | Some t => Some t
  | None => legacyDateParse js s
  end.

(** [new Date(year, monthIndex, day)], local time. *)
Definition DateLocal (js : Engine) (year monthIndex day : Z) : Z :=
  MakeDay year monthIndex day * msPerDay - LocalTZA js.

Definition pad (width : nat) (z : Z) : string :=
  let s := showZ z in
  String.concat "" (repeat "0" (width - String.length s)) ++ s.

(** [d.toISOString().split('T')[0]] *)
Definition isoDatePart (t : Z) : string :=
  let '(y, m, d) := civilFromDays (t / msPerDay) in
  let ystr := if (0 <=? y) && (y <=? 9999) then pad 4 y
              else if y <? 0 then "-" ++ pad 6 (- y) else "+" ++ pad 6 y in
  ystr ++ "-" ++ pad 2 m ++ "-" ++ pad 2 d.

(** [d.setMonth(d.getMonth() + n)] on a time value, in local time. *)
Definition addMonths (js : Engine) (t n : Z) : Z :=
  let lt := t + LocalTZA js in
  let '(y, m, d) := civilFromDays (lt / msPerDay) in
  MakeDay y (m - 1 + n) d * msPerDay + lt mod msPerDay - LocalTZA js.

(** Readings of the outside world during one run: the clock at each
    [new Date()] and the draw of each [Math.random()], indexed by the
    program point that reads them (the row being merged, the position of
    the record in the post-pass). *)
Record Env : Type := {
  rowClock : nat -> Z;
  postClock : nat -> Z;
  random : nat -> Q
}.

(** *** Exceptions *)

Inductive exn : Type :=
| TypeError (property : string) (* writing a property of undefined *)
| Error (message : string).

Definition message (e : exn) : string :=
  match e with
  | TypeError p =>
      "Cannot set properties of undefined (setting '" ++ p ++ "')"
  | Error m => m
  end.

Inductive result (A : Type) : Type :=
| Ok (a : A)
| Throw (e : exn).
Arguments Ok {A} a.
Arguments Throw {A} e.

Definition bind {A B} (r : result A) (k : A -> result B) : result B :=
  match r with
  | Ok a => k a
  | Throw e => Throw e
  end.

Definition fmap {A B} (f : A -> B) (r : result A) : result B :=
  match r with
  | Ok a => Ok (f a)
  | Throw e => Throw e
  end.

End JS.

Notation "x <- c1 ;; c2" := (JS.bind c1 (fun x => c2))
  (at level 61, c1 at next level, right associativity).

(* ================================================================= *)
(** ** Data model: the personnel record *)

Inductive Category : Type := NSF | Regular.

Definition Category_eqb (a b : Category) : bool :=
  match a, b with
  | NSF, NSF | Regular, Regular => true
  | _, _ => false
  end.

(** A date-valued property: [null] (or absent), a [Date], or a string. *)
Inductive dateval : Type :=
| DNull
| DDate (t : Z)
| DString (s : string).

Definition ofParsed (o : option Z) : dateval :=
  match o with Some t => DDate t | None => DNull end.

(** [if (d)] on a date-valued property. *)
Definition datevalTruthy (d : dateval) : bool :=
  match d with
  | DNull => false
  | DDate _ => true
  | DString s => negb (s =? "")%string
  end.

(** The [y1] block of an NSF record. *)
Module Y1.
Record t : Type := mk {
  ippt : string; ipptDate : dateval;
  voc : string; vocDate : dateval;
  atp : string; atpDate : dateval
}.
Definition empty : t := mk "" DNull "" DNull "" DNull.
Definition set_ippt (v : string) (b : t) : t :=
  mk v (ipptDate b) (voc b) (vocDate b) (atp b) (atpDate b).
Definition set_voc (v : string) (b : t) : t :=
  mk (ippt b) (ipptDate b) v (vocDate b) (atp b) (atpDate b).
Definition set_atp (v : string) (b : t) : t :=
  mk (ippt b) (ipptDate b) (voc b) (vocDate b) v (atpDate b).
End Y1.

(** The [y2] block of an NSF record. *)
Module Y2.
Record t : Type := mk {
  ippt : string; ipptDate : dateval;
  voc : string; vocDate : dateval;
  range : string; rangeDate : dateval
}.
Definition empty : t := mk "" DNull "" DNull "" DNull.
Definition set_ippt (v : string) (b : t) : t :=
  mk v (ipptDate b) (voc b) (vocDate b) (range b) (rangeDate b).
Definition set_voc (v : string) (b : t) : t :=
  mk (ippt b) (ipptDate b) v (vocDate b) (range b) (rangeDate b).
Definition set_range (v : string) (b : t) : t :=
  mk (ippt b) (ipptDate b) (voc b) (vocDate b) v (rangeDate b).
End Y2.

(** The [workYear] block of a Regular record. *)
Module WorkYear.
Record t : Type := mk {
  ippt : string; ipptDate : dateval;
  voc : string; vocDate : dateval;
  atp : string; atpDate : dateval;
  cs : string; csDate : dateval
}.
Definition empty : t := mk "" DNull "" DNull "" DNull "" DNull.
Definition set_ippt (v : string) (b : t) : t :=
  mk v (ipptDate b) (voc b) (vocDate b) (atp b) (atpDate b) (cs b) (csDate b).
Definition set_voc (v : string) (b : t) : t :=
  mk (ippt b) (ipptDate b) v (vocDate b) (atp b) (atpDate b) (cs b) (csDate b).
Definition set_atp (v : string) (b : t) : t :=
  mk (ippt b) (ipptDate b) (voc b) (vocDate b) v (atpDate b) (cs b) (csDate b).
Definition set_cs (v : string) (b : t) : t :=
  mk (ippt b) (ipptDate b) (voc b) (vocDate b) (atp b) (atpDate b) v (csDate b).
End WorkYear.

(** The record built by [processExcelFile].  A block that the object does
    not have ([person.workYear] of a record created as NSF, [person.y1] of
    one created as Regular) is [None]. *)
Module Person.
Record t : Type := mk {
  name : string;
  category : Category;
  platoon : string;
  unit : string;
  rank : string;
  pes : option string;
  lastUpdated : Z;
  ordDate : dateval;
  isORD : bool;
  medicalStatus : string;
  remedialTraining : list string;
  y1 : option Y1.t;
  y2 : option Y2.t;
  workYear : option WorkYear.t;
  y1WindowEndDate : dateval;
  y2WindowEndDate : dateval
}.

Definition set_category (v : Category) (p : t) : t :=
  mk (name p) v (platoon p) (unit p) (rank p) (pes p) (lastUpdated p)
     (ordDate p) (isORD p) (medicalStatus p) (remedialTraining p)
     (y1 p) (y2 p) (workYear p) (y1WindowEndDate p) (y2WindowEndDate p).
Definition set_platoon (v : string) (p : t) : t :=
  mk (name p) (category p) v (unit p) (rank p) (pes p) (lastUpdated p)
     (ordDate p) (isORD p) (medicalStatus p) (remedialTraining p)
     (y1 p) (y2 p) (workYear p) (y1WindowEndDate p) (y2WindowEndDate p).
Definition set_rank (v : string) (p : t) : t :=
  mk (name p) (category p) (platoon p) (unit p) v (pes p) (lastUpdated p)
     (ordDate p) (isORD p) (medicalStatus p) (remedialTraining p)
     (y1 p) (y2 p) (workYear p) (y1WindowEndDate p) (y2WindowEndDate p).
Definition set_pes (v : option string) (p : t) : t :=
  mk (name p) (category p) (platoon p) (unit p) (rank p) v (lastUpdated p)
     (ordDate p) (isORD p) (medicalStatus p) (remedialTraining p)
     (y1 p) (y2 p) (workYear p) (y1WindowEndDate p) (y2WindowEndDate p).
Definition set_lastUpdated (v : Z) (p : t) : t :=
  mk (name p) (category p) (platoon p) (unit p) (rank p) (pes p) v
     (ordDate p) (isORD p) (medicalStatus p) (remedialTraining p)
     (y1 p) (y2 p) (workYear p) (y1WindowEndDate p) (y2WindowEndDate p).
Definition set_ordDate (v : dateval) (p : t) : t :=
  mk (name p) (category p) (platoon p) (unit p) (rank p) (pes p) (lastUpdated p)
     v (isORD p) (medicalStatus p) (remedialTraining p)
     (y1 p) (y2 p) (workYear p) (y1WindowEndDate p) (y2WindowEndDate p).
Definition set_medicalStatus (v : string) (p : t) : t :=
  mk (name p) (category p) (platoon p) (unit p) (rank p) (pes p) (lastUpdated p)
     (ordDate p) (isORD p) v (remedialTraining p)
     (y1 p) (y2 p) (workYear p) (y1WindowEndDate p) (y2WindowEndDate p).
Definition set_y1 (v : option Y1.t) (p : t) : t :=
  mk (name p) (category p) (platoon p) (unit p) (rank p) (pes p) (lastUpdated p)
     (ordDate p) (isORD p) (medicalStatus p) (remedialTraining p)
     v (y2 p) (workYear p) (y1WindowEndDate p) (y2WindowEndDate p).
Definition set_y2 (v : option Y2.t) (p : t) : t :=
  mk (name p) (category p) (platoon p) (unit p) (rank p) (pes p) (lastUpdated p)
     (ordDate p) (isORD p) (medicalStatus p) (remedialTraining p)
     (y1 p) v (workYear p) (y1WindowEndDate p) (y2WindowEndDate p).
Definition set_workYear (v : option WorkYear.t) (p : t) : t :=
  mk (name p) (category p) (platoon p) (unit p) (rank p) (pes p) (lastUpdated p)
     (ordDate p) (isORD p) (medicalStatus p) (remedialTraining p)
     (y1 p) (y2 p) v (y1WindowEndDate p) (y2WindowEndDate p).
Definition set_y1WindowEndDate (v : dateval) (p : t) : t :=
  mk (name p) (category p) (platoon p) (unit p) (rank p) (pes p) (lastUpdated p)
     (ordDate p) (isORD p) (medicalStatus p) (remedialTraining p)
     (y1 p) (y2 p) (workYear p) v (y2WindowEndDate p).
Definition set_y2WindowEndDate (v : dateval) (p : t) : t :=
  mk (name p) (category p) (platoon p) (unit p) (rank p) (pes p) (lastUpdated p)
     (ordDate p) (isORD p) (medicalStatus p) (remedialTraining p)
     (y1 p) (y2 p) (workYear p) (y1WindowEndDate p) v.
End Person.

(** A JavaScript [Map] keyed by strings: entries in insertion order, at most
    one entry per key. *)
Module SMap.
Section WithValue.
Context {V : Type}.

Definition t : Type := list (string * V).

Fixpoint get (k : string) (m : t) : option V :=
  match m with
  | [] => None
  | (k', v) :: r => if (k' =? k)%string then Some v else get k r
  end.

Definition has (k : string) (m : t) : bool :=
  match get k m with Some _ => true | None => false end.

Fixpoint set (k : string) (v : V) (m : t) : t :=
  match m with
  | [] => [(k, v)]
  | (k', v') :: r =>
      if (k' =? k)%string then (k, v) :: r else (k', v') :: set k v r
  end.

Definition values (m : t) : list V := map snd m.
End WithValue.
Arguments t V : clear implicits.
End SMap.

(* ================================================================= *)
(** ** Utilities (constants and helper functions) *)

Module Util.
Import JS.

Definition VALID_PLATOONS : list string :=
  ["COY HQ"; "Platoon 1"; "Platoon 2"; "Platoon 3"; "Platoon 4";
   "Support Platoon"; "Admin"; "Medical"; "Signals"; "Transport"].

Definition MEDICAL_STATUS_OPTIONS : list string :=
  ["Fit"; "Light Duty"; "Excused IPPT"; "Medical Board"].

(** [array.includes(s)] on an array of strings. *)
Definition arrayIncludes (l : list string) (s : string) : bool :=
  existsb (fun x => (x =? s)%string) l.

Definition isValidPlatoon (platoonName : string) : bool :=
  arrayIncludes VALID_PLATOONS platoonName.

(** Trim, remove the characters <, >, double quote and single quote,
    keep the first 100 characters, upper-case. *)
Definition sanitizePersonnelName (name : string) : string :=
  if (name =? "")%string then ""
  else
    toUpperCase
      (substring0 100
         (filterString
            (fun c => negb ((c =? "<")%char || (c =? ">")%char
                            || (c =? dquote)%char || (c =? squote)%char))
            (trim name))).

(** [s.split(sep)] for a one-character separator. *)
Fixpoint split (sep : ascii) (s : string) : list string :=
  match s with
  | EmptyString => [EmptyString]
  | String c r =>
      if (c =? sep)%char then EmptyString :: split sep r
      else match split sep r with
           | [] => [String c EmptyString]
           | h :: t => String c h :: t
           end
  end.

Definition digitsBetween (lo hi : nat) (s : string) : bool :=
  allDigits s && (lo <=? String.length s)%nat && (String.length s <=? hi)%nat.

(** [/^\d{1,2}-\d{1,2}-\d{2}$/] with its three groups. *)
Definition matchDayMonthYear2 (s : string) : option (string * string * string) :=
  match split "-" s with
  | [d; m; y] =>
      if digitsBetween 1 2 d && digitsBetween 1 2 m && digitsBetween 2 2 y
      then Some (d, m, y) else None
  | _ => None
  end.

Definition minDate : Z := Eval cbv in
  match parseIsoDateOnly "2020-01-01" with Some t => t | None => 0 end.

(** [validateDateInput(dateString, allowFuture)]; [now] is the clock read
    by [new Date()]. [None] is the [null] result. *)
Definition validateDateInput (js : Engine) (now : Z)
           (dateString : dateval) (allowFuture : bool) : option Z :=
  if negb (datevalTruthy dateString) then None
  else
    let date : option Z :=
      match dateString with
      | DString s =>
          match matchDayMonthYear2 s with
          | Some (day, month, year) =>
              let fullYear :=
                if digitsValue year <? 30 then 2000 + digitsValue year
                else 1900 + digitsValue year in
              Some (DateLocal js fullYear (digitsValue month - 1) (digitsValue day))
          | None => DateParse js s
          end
      | DDate t => Some t
      | DNull => None
      end in
    match date with
    | None => None                                  (* Invalid date format *)
    | Some d =>
        if negb allowFuture && (now <? d) then None (* in the future *)
        else if d <? minDate then None              (* too far in the past *)
        else Some d
    end.

(** [generateRandomOrdDate()]: [today] is the clock, [r] the draw of
    [Math.random()]. *)
Definition generateRandomOrdDate (js : Engine) (today : Z) (r : Q) : string :=
  let monthsToAdd := Qfloor (r * 9) + 3 in
  isoDatePart (addMonths js today monthsToAdd).

End Util.

(* ================================================================= *)
(** ** The data processor *)

Module Processor.
Import JS Util.

(** *** validatePlatoon *)

Definition validPlatoons : list string :=
  ["Platoon 1"; "Platoon 2"; "Platoon 3"; "Platoon 4";
   "COY HQ"; "Support Platoon"; "Admin"; "Medical";
   "Signals"; "Transport"; "Unassigned"].

Definition validatePlatoon (platoon : string) : string :=
  if (platoon =? "")%string || (trim platoon =? "")%string then "Unassigned"
  else
    let normalizedPlatoon := trim platoon in
    (* exact match *)
    if arrayIncludes validPlatoons normalizedPlatoon then normalizedPlatoon
    else
      let lowerPlatoon := toLowerCase normalizedPlatoon in
      (* COY HQ variations *)
      if includes lowerPlatoon "coy" || includes lowerPlatoon "hq"
         || includes lowerPlatoon "headquarters"
      then "COY HQ"
      (* Platoon variations *)
      else if includes lowerPlatoon "platoon" || includes lowerPlatoon "plt" then
        if includes lowerPlatoon "1" || includes lowerPlatoon "one" then "Platoon 1"
        else if includes lowerPlatoon "2" || includes lowerPlatoon "two" then "Platoon 2"
        else if includes lowerPlatoon "3" || includes lowerPlatoon "three" then "Platoon 3"
        else if includes lowerPlatoon "4" || includes lowerPlatoon "four" then "Platoon 4"
        else "Platoon 1"
      (* support unit variations *)
      else if includes lowerPlatoon "support" then "Support Platoon"
      else if includes lowerPlatoon "admin" then "Admin"
      else if includes lowerPlatoon "medical" || includes lowerPlatoon "med" then "Medical"
      else if includes lowerPlatoon "signal" then "Signals"
      else if includes lowerPlatoon "transport" || includes lowerPlatoon "trans"
      then "Transport"
      else
        (* partial matches, then the default fallback *)
        match
          find (fun valid => includes (toLowerCase valid) lowerPlatoon
                             || includes lowerPlatoon (toLowerCase valid))
               validPlatoons
        with
        | Some valid => valid
        | None => "Unassigned"
        end.

(** *** parseDate *)

Definition isString (c : cell) : bool :=
  match c with Str _ => true | _ => false end.

(** [new Date(Date.UTC(1899, 11, 30)).getTime()] *)
Definition excelEpoch : Z := Eval cbv in MakeDay 1899 11 30 * msPerDay.

(** The three groups of a date written with separator [sep], each a run
    of digits within the given lengths. *)
Definition matchThree (sep : ascii) (l1 h1 l2 h2 l3 h3 : nat) (s : string)
  : option (string * string * string) :=
  match split sep s with
  | [a; b; c] =>
      if digitsBetween l1 h1 a && digitsBetween l2 h2 b && digitsBetween l3 h3 c
      then Some (a, b, c) else None
  | _ => None
  end.

(** The branch taken for [DD-MM-YY] and [DD/MM/YY]. *)
Definition dayMonthYear (js : Engine) (m : option (string * string * string))
  : option Z :=
  match m with
  | Some (day, month, year) =>
      let fullYear := if (String.length year =? 2)%nat then "20" ++ year else year in
      DateParse js (fullYear ++ "-" ++ padStart2 month ++ "-" ++ padStart2 day)
  | None => None
  end.

Definition orElse {A} (o : option A) (k : option A) : option A :=
  match o with Some a => Some a | None => k end.

Definition parseDate (js : Engine) (dateStr : cell) : option Z :=
  if negb (truthy dateStr) || negb (isString dateStr) then None
  else
    let cleanDate := trim (toString dateStr) in
    if (cleanDate =? "")%string then None
    else
      (* "If input is a number" *)
      let serial : option Z :=
        match dateStr with
        | Num n =>
            if (100000 <=? n) && (n <=? 999999) then None (* goes on as a string *)
            else Some (excelEpoch + n * 86400000)
        | _ => None
        end in
      orElse serial
      (* DD-MM-YY *)
      (orElse (dayMonthYear js (matchThree "-" 1 2 1 2 2 4 cleanDate))
      (* DD/MM/YY *)
      (orElse (dayMonthYear js (matchThree "/" 1 2 1 2 2 4 cleanDate))
      (* YYYY-MM-DD *)
      (orElse
         match matchThree "-" 4 4 1 2 1 2 cleanDate with
         | Some (year, month, day) =>
             DateParse js (year ++ "-" ++ padStart2 month ++ "-" ++ padStart2 day)
         | None => None
         end
      (* compact DDMMYY *)
      (orElse
         (if digitsBetween 6 6 cleanDate then
            let day := String.substring 0 2 cleanDate in
            let month := String.substring 2 2 cleanDate in
            let year := String.substring 4 2 cleanDate in
            let fullYear := if digitsValue year <? 50 then "20" ++ year
                            else "19" ++ year in
            DateParse js (fullYear ++ "-" ++ month ++ "-" ++ day)
          else None)
      (* direct Date constructor *)
         (DateParse js cleanDate))))).

(** *** The scan for the first data row *)

(** The test of the scan: rank in column B and name in column C. *)
Definition looksLikeData (row : list cell) : bool :=
  (2 <? length row)%nat &&
  (let rank := text (at_ row 1) in
   let name := text (at_ row 2) in
   nonEmpty rank && nonEmpty name
   && (0 <? String.length (orEmpty rank))%nat
   && (2 <? String.length (orEmpty name))%nat
   && negb (includes (toUpperCase (orEmpty rank)) "RANK")
   && negb (includes (toUpperCase (orEmpty name)) "NAME")).

Fixpoint firstIndex (f : list cell -> bool) (rows : list (list cell)) (i : nat)
  : option nat :=
  match rows with
  | [] => None
  | row :: rest => if f row then Some i else firstIndex f rest (S i)
  end.

(** [dataStartRow]: the first of the ten leading rows that looks like
    data, 4 when none does. *)
Definition dataStartRow (rawData : list (list cell)) : nat :=
  match firstIndex looksLikeData (firstn 10 rawData) 0 with
  | Some i => i
  | None => 4%nat
  end.

(** *** The VOC sheet: ORD and window dates by name *)

Record DateMaps : Type := {
  ordDateMap : SMap.t (option Z);
  y1WindowMap : SMap.t (option Z);
  y2WindowMap : SMap.t (option Z)
}.

Definition noDates : DateMaps :=
  {| ordDateMap := []; y1WindowMap := []; y2WindowMap := [] |}.

Definition vocRow (js : Engine) (maps : DateMaps) (row : list cell) : DateMaps :=
  let name := text (at_ row 2) in
  let y1WindowRaw := at_ row 5 in
  let ordRaw := at_ row 6 in
  let y2WindowRaw := at_ row 6 in
  if nonEmpty name then
    let nameKey := sanitizePersonnelName (orEmpty name) in
    {| y1WindowMap :=
         if truthy y1WindowRaw
         then SMap.set nameKey (parseDate js y1WindowRaw) (y1WindowMap maps)
         else y1WindowMap maps;
       ordDateMap :=
         if truthy ordRaw
         then SMap.set nameKey (parseDate js ordRaw) (ordDateMap maps)
         else ordDateMap maps;
       y2WindowMap :=
         if truthy y2WindowRaw
         then SMap.set nameKey (parseDate js y2WindowRaw) (y2WindowMap maps)
         else y2WindowMap maps |}
  else maps.

Definition vocDates (js : Engine) (vocData : list (list cell)) : DateMaps :=
  fold_left (vocRow js) (skipn (dataStartRow vocData) vocData) noDates.

(** *** The row loop of processExcelFile *)

Record LoopState : Type := {
  personnelMap : SMap.t Person.t;
  warnings : list string;
  currentPlatoon : string
}.

Definition initialState : LoopState :=
  {| personnelMap := []; warnings := []; currentPlatoon := "" |}.

Definition warn (w : string) (st : LoopState) : LoopState :=
  {| personnelMap := personnelMap st;
     warnings := push (warnings st) w;
     currentPlatoon := currentPlatoon st |}.

Definition supportUnits : list string :=
  ["COY HQ"; "Support Platoon"; "Admin"; "Medical"; "Signals"; "Transport"].

(** The regex PLATOON, any white space, one digit, anchored at both ends
    and case-insensitive; the result is the digit captured. *)
Definition platoonMatch (s : string) : option ascii :=
  if (toUpperCase (String.substring 0 7 s) =? "PLATOON")%string then
    match trimStart (String.substring 7 (String.length s - 7) s) with
    | String d EmptyString => if isDigit d then Some d else None
    | _ => None
    end
  else None.

(** White space removed, upper-cased: the two sides of the support-unit
    comparison. *)
Definition squash (s : string) : string := toUpperCase (stripSpaces s).

(** The value of [platoonHeader] computed from [platoonHeaderRaw]; the
    empty string when the cell is no header. *)
Definition platoonHeaderOf (platoonHeaderRaw : option string) : string :=
  if nonEmpty platoonHeaderRaw then
    let raw := orEmpty platoonHeaderRaw in
    match platoonMatch raw with
    | Some d => "Platoon " ++ String d EmptyString
    | None =>
        match find (fun unit => (squash raw =? squash unit)%string) supportUnits with
        | Some unit => unit
        | None => ""
        end
    end
  else "".

(** The keyword test of the ambiguous-header branch. *)
Definition hasUnitKeyword (platoonHeaderRaw : option string) : bool :=
  nonEmpty platoonHeaderRaw
  && (0 <? String.length (orEmpty platoonHeaderRaw))%nat
  && (includes (toUpperCase (orEmpty platoonHeaderRaw)) "PLATOON"
      || includes (toUpperCase (orEmpty platoonHeaderRaw)) "COY"
      || includes (toUpperCase (orEmpty platoonHeaderRaw)) "HQ").

Definition ambiguousHeaderWarning (i : nat) (raw : string) : string :=
  "Row " ++ showNat (i + 1) ++ ": Ambiguous or unrecognized platoon header: "
  ++ DQ ++ raw ++ DQ ++ ". Skipping header.".

Definition missingWarning (i : nat) : string :=
  "Row " ++ showNat (i + 1) ++ ": Missing name or rank, skipping".

(** [row.every(cell => !cell || cell.toString().trim() === '')] *)
Definition isBlankRow (row : list cell) : bool :=
  forallb (fun c => negb (truthy c) || (trim (toString c) =? "")%string) row.

(** The guard of every result assignment: a value that is present and is
    neither MISSING nor NA, whatever its case. *)
Definition storable (v : option string) : bool :=
  nonEmpty v
  && negb (toUpperCase (orEmpty v) =? "MISSING")%string
  && negb (toUpperCase (orEmpty v) =? "NA")%string.

Definition orUnassigned (currentPlatoon : string) : string :=
  if (currentPlatoon =? "")%string then "Unassigned" else currentPlatoon.

(** The record of a name seen for the first time. *)
Definition baseRecord (now : Z) (key : string) (personnelCategory : Category)
           (currentPlatoon rank : string) (pes : option string) : Person.t :=
  {| Person.name := key;
     Person.category := personnelCategory;
     Person.platoon := orUnassigned currentPlatoon;
     Person.unit := orUnassigned currentPlatoon;
     Person.rank := rank;
     Person.pes := pes;
     Person.lastUpdated := now;
     Person.ordDate := DNull;
     Person.isORD := false;
     Person.medicalStatus := "Fit";
     Person.remedialTraining := [];
     Person.y1 := match personnelCategory with
                  | Regular => None | NSF => Some Y1.empty end;
     Person.y2 := match personnelCategory with
                  | Regular => None | NSF => Some Y2.empty end;
     Person.workYear := match personnelCategory with
                        | Regular => Some WorkYear.empty | NSF => None end;
     Person.y1WindowEndDate := DNull;
     Person.y2WindowEndDate := DNull |}.

Definition optEqb (a b : option string) : bool :=
  match a, b with
  | Some x, Some y => (x =? y)%string
  | None, None => true
  | _, _ => false
  end.

(** "Always update platoon, rank, pes, service". *)
Definition updateAdmin (currentPlatoon rank : string) (pes service : option string)
           (personnelCategory : Category) (person : Person.t) : Person.t :=
  let person :=
    if negb (currentPlatoon =? "")%string
       && negb (Person.platoon person =? currentPlatoon)%string
    then Person.set_platoon currentPlatoon person else person in
  let person :=
    if negb (rank =? "")%string && negb (Person.rank person =? rank)%string
    then Person.set_rank rank person else person in
  let person :=
    if nonEmpty pes && negb (optEqb (Person.pes person) pes)
    then Person.set_pes pes person else person in
  if nonEmpty service && negb (Category_eqb (Person.category person) personnelCategory)
  then Person.set_category personnelCategory person else person.

(** ORD date and window dates from the VOC sheet, for an NSF record. *)
Definition joinDates (maps : DateMaps) (key : string) (person : Person.t) : Person.t :=
  match Person.category person with
  | Regular => person
  | NSF =>
      let person :=
        match SMap.get key (ordDateMap maps) with
        | Some d => Person.set_ordDate (ofParsed d) person
        | None => person
        end in
      let person :=
        match SMap.get key (y1WindowMap maps) with
        | Some d => Person.set_y1WindowEndDate (ofParsed d) person
        | None => person
        end in
      match SMap.get key (y2WindowMap maps) with
      | Some d => Person.set_y2WindowEndDate (ofParsed d) person
      | None =>
          if negb (datevalTruthy (Person.y2WindowEndDate person))
             && datevalTruthy (Person.ordDate person)
          then Person.set_y2WindowEndDate (Person.ordDate person) person
          else person
      end
  end.

(** One guarded assignment [person.y1.prop = v]; writing through a block
    the object does not have raises a TypeError. *)
Definition writeY1 (prop : string) (set : string -> Y1.t -> Y1.t)
           (v : option string) (person : Person.t) : result Person.t :=
  if storable v then
    match Person.y1 person with
    | Some b => Ok (Person.set_y1 (Some (set (orEmpty v) b)) person)
    | None => Throw (TypeError prop)
    end
  else Ok person.

Definition writeY2 (prop : string) (set : string -> Y2.t -> Y2.t)
           (v : option string) (person : Person.t) : result Person.t :=
  if storable v then
    match Person.y2 person with
    | Some b => Ok (Person.set_y2 (Some (set (orEmpty v) b)) person)
    | None => Throw (TypeError prop)
    end
  else Ok person.

Definition writeWorkYear (prop : string) (set : string -> WorkYear.t -> WorkYear.t)
           (v : option string) (person : Person.t) : result Person.t :=
  if storable v then
    match Person.workYear person with
    | Some b => Ok (Person.set_workYear (Some (set (orEmpty v) b)) person)
    | None => Throw (TypeError prop)
    end
  else Ok person.

(** "Assign results based on personnel category": columns L-O for a
    Regular record, columns F-K otherwise. *)
Definition assignResults (row : list cell) (person : Person.t) : result Person.t :=
  match Person.category person with
  | Regular =>
      person <- writeWorkYear "ippt" WorkYear.set_ippt (text (at_ row 11)) person ;;
      person <- writeWorkYear "voc" WorkYear.set_voc (text (at_ row 12)) person ;;
      person <- writeWorkYear "atp" WorkYear.set_atp (text (at_ row 13)) person ;;
      writeWorkYear "cs" WorkYear.set_cs (text (at_ row 14)) person
  | NSF =>
      person <- writeY1 "ippt" Y1.set_ippt (text (at_ row 5)) person ;;
      person <- writeY1 "voc" Y1.set_voc (text (at_ row 6)) person ;;
      person <- writeY1 "atp" Y1.set_atp (text (at_ row 7)) person ;;
      person <- writeY2 "ippt" Y2.set_ippt (text (at_ row 8)) person ;;
      person <- writeY2 "voc" Y2.set_voc (text (at_ row 9)) person ;;
      writeY2 "range" Y2.set_range (text (at_ row 10)) person
  end.

Definition categoryOf (service : option string) : Category :=
  if includes (toUpperCase (orEmpty service)) "REG" then Regular else NSF.

(** "Build/merge personnel record": the part of the loop body that
    follows the rank and name test. *)
Definition mergeRow (maps : DateMaps) (now : Z) (currentPlatoon rank name : string)
           (row : list cell) (personnelMap : SMap.t Person.t)
  : result (SMap.t Person.t) :=
  let pes := text (at_ row 3) in
  let service := text (at_ row 4) in
  let key := sanitizePersonnelName name in
  let personnelCategory := categoryOf service in
  let person :=
    match SMap.get key personnelMap with
    | Some person => person
    | None => baseRecord now key personnelCategory currentPlatoon rank pes
    end in
  let person := updateAdmin currentPlatoon rank pes service personnelCategory person in
  let person := joinDates maps key person in
  person <- assignResults row person ;;
  Ok (SMap.set key person personnelMap).

(** The body of the loop for row [i]. *)
Definition processRow (maps : DateMaps) (env : Env) (i : nat)
           (st : LoopState) (row : list cell) : result LoopState :=
  if isBlankRow row then Ok st
  else
    let platoonHeaderRaw := text (at_ row 0) in
    let platoonHeader := platoonHeaderOf platoonHeaderRaw in
    if negb (platoonHeader =? "")%string then
      Ok {| personnelMap := personnelMap st;
            warnings := warnings st;
            currentPlatoon := platoonHeader |}
    else if hasUnitKeyword platoonHeaderRaw then
      Ok (warn (ambiguousHeaderWarning i (orEmpty platoonHeaderRaw)) st)
    else
      let rank := text (at_ row 1) in
      let name := text (at_ row 2) in
      if negb (nonEmpty rank) || negb (nonEmpty name) then
        Ok (warn (missingWarning i) st)
      else
        m <- mergeRow maps (rowClock env i) (currentPlatoon st)
                      (orEmpty rank) (orEmpty name) row (personnelMap st) ;;
        Ok {| personnelMap := m;
              warnings := warnings st;
              currentPlatoon := currentPlatoon st |}.

Fixpoint processRows (maps : DateMaps) (env : Env) (i : nat)
         (st : LoopState) (rows : list (list cell)) : result LoopState :=
  match rows with
  | [] => Ok st
  | row :: rest =>
      st <- processRow maps env i st row ;;
      processRows maps env (S i) st rest
  end.

(** *** The post-pass *)

Definition defaultPlatoon (c : Category) : string :=
  match c with NSF => "Platoon 1" | Regular => "COY HQ" end.

Definition isNull (o : option Z) : bool :=
  match o with Some _ => false | None => true end.

(** [validateAndCleanPersonnelRecord(person, warnings)], called for the
    record at position [j]. *)
Definition validateAndCleanPersonnelRecord (js : Engine) (env : Env) (j : nat)
           (person : Person.t) (warnings : list string)
  : Person.t * list string :=
  let '(person, warnings) :=
    if negb (isValidPlatoon (Person.platoon person)) then
      (Person.set_platoon (defaultPlatoon (Person.category person)) person,
       push warnings
            (Person.name person ++ ": Invalid platoon " ++ DQ
             ++ Person.platoon person ++ DQ ++ ", assigned to "
             ++ defaultPlatoon (Person.category person)))
    else (person, warnings) in
  let person :=
    if negb (arrayIncludes MEDICAL_STATUS_OPTIONS (Person.medicalStatus person))
    then Person.set_medicalStatus "Fit" person else person in
  if datevalTruthy (Person.ordDate person)
     && isNull (validateDateInput js (postClock env j) (Person.ordDate person) true)
  then
    (Person.set_ordDate
       match Person.category person with
       | NSF => DString (generateRandomOrdDate js (postClock env j) (random env j))
       | Regular => DNull
       end person,
     push warnings (Person.name person ++ ": Invalid ORD date, using generated date"))
  else (person, warnings).

(** [personnel.forEach(person => validateAndCleanPersonnelRecord(...))] *)
Fixpoint postPass (js : Engine) (env : Env) (j : nat)
         (personnel : list Person.t) (warnings : list string)
  : list Person.t * list string :=
  match personnel with
  | [] => ([], warnings)
  | person :: rest =>
      let '(person', warnings') :=
        validateAndCleanPersonnelRecord js env j person warnings in
      let '(rest', warnings'') := postPass js env (S j) rest warnings' in
      (person' :: rest', warnings'')
  end.

(** *** processExcelFile *)

Module Outcome.
Record t : Type := mk {
  success : bool;
  data : list Person.t;
  recordCount : nat;
  errors : list string;
  warnings : list string
}.
End Outcome.

(** The workbook after decoding: the sheets in the order of
    [Object.keys(workbook.Sheets)], each with its rows. *)
Definition Workbook : Type := list (string * list (list cell)).

(** [availableSheets.find(name => name.trim().toLowerCase() === target)] *)
Definition findSheet (target : string) (wb : Workbook) : option (list (list cell)) :=
  option_map snd
    (find (fun e => (toLowerCase (trim (fst e)) =? target)%string) wb).

Definition missingSheetMessage : string :=
  "Missing required sheet: " ++ DQ ++ "All in one view" ++ DQ
  ++ ". Please ensure your Excel file has a sheet named "
  ++ DQ ++ "All in one view" ++ DQ ++ ".".

(** The [try] block, from the lookup of the sheet on. *)
Definition processExcelFile_try (js : Engine) (env : Env) (wb : Workbook)
  : result Outcome.t :=
  match findSheet "all in one view" wb with
  | None => Throw (Error missingSheetMessage)
  | Some rawData =>
      let maps :=
        match findSheet "voc" wb with
        | Some vocData => vocDates js vocData
        | None => noDates
        end in
      let start := dataStartRow rawData in
      st <- processRows maps env start initialState (skipn start rawData) ;;
      let '(personnel, warnings) :=
        postPass js env 0 (SMap.values (personnelMap st)) (warnings st) in
      Ok (Outcome.mk true personnel (length personnel) [] warnings)
  end.

(** [processExcelFile], with its [catch]. *)
Definition processExcelFile (js : Engine) (env : Env) (wb : Workbook) : Outcome.t :=
  match processExcelFile_try js env wb with
  | Ok r => r
  | Throw error => Outcome.mk false [] 0 [message error] []
  end.

End Processor.

(* ================================================================= *)
(** ** Definitions used to state the properties *)

Module Props.
Import JS Util Processor.

(** The ten result slots of a record and the sheet column of each. *)
Inductive Slot : Type :=
| Y1_ippt | Y1_voc | Y1_atp
| Y2_ippt | Y2_voc | Y2_range
| WY_ippt | WY_voc | WY_atp | WY_cs.

Definition slotColumn (s : Slot) : nat :=
  match s with
  | Y1_ippt => 5 | Y1_voc => 6 | Y1_atp => 7
  | Y2_ippt => 8 | Y2_voc => 9 | Y2_range => 10
  | WY_ippt => 11 | WY_voc => 12 | WY_atp => 13 | WY_cs => 14
  end%nat.

(** The category whose rows feed the slot. *)
Definition slotCategory (s : Slot) : Category :=
  match s with
  | WY_ippt | WY_voc | WY_atp | WY_cs => Regular
  | _ => NSF
  end.

(** The stored value of a slot; [None] when the record has no such block. *)
Definition slotOf (s : Slot) (p : Person.t) : option string :=
  match s with
  | Y1_ippt => option_map Y1.ippt (Person.y1 p)
  | Y1_voc => option_map Y1.voc (Person.y1 p)
  | Y1_atp => option_map Y1.atp (Person.y1 p)
  | Y2_ippt => option_map Y2.ippt (Person.y2 p)
  | Y2_voc => option_map Y2.voc (Person.y2 p)
  | Y2_range => option_map Y2.range (Person.y2 p)
  | WY_ippt => option_map WorkYear.ippt (Person.workYear p)
  | WY_voc => option_map WorkYear.voc (Person.workYear p)
  | WY_atp => option_map WorkYear.atp (Person.workYear p)
  | WY_cs => option_map WorkYear.cs (Person.workYear p)
  end.

(** The value of a slot before a row is merged: what the map holds for
    the name, the empty string for a name not seen yet. *)
Definition slotBefore (s : Slot) (k : string) (m : SMap.t Person.t) : string :=
  match SMap.get k m with
  | Some p => orEmpty (slotOf s p)
  | None => ""
  end.

Definition Slot_eqb (a b : Slot) : bool :=
  (slotColumn a =? slotColumn b)%nat.

(** Everything in a record but its assessment blocks. *)
Definition adminOf (p : Person.t) :=
  (Person.name p, Person.category p, Person.platoon p, Person.unit p,
   Person.rank p, Person.pes p, Person.lastUpdated p, Person.ordDate p,
   Person.isORD p, Person.medicalStatus p, Person.remedialTraining p,
   Person.y1WindowEndDate p, Person.y2WindowEndDate p).

(** The assessment blocks of a record. *)
Definition blocksOf (p : Person.t) :=
  (Person.y1 p, Person.y2 p, Person.workYear p).

(** The effect of one guarded assignment on all the slots. *)
Definition writes (target : Slot) (v : option string) (p p' : Person.t) : Prop :=
  forall s,
    slotOf s p' =
    if Slot_eqb s target && storable v
    then option_map (fun _ => orEmpty v) (slotOf s p)
    else slotOf s p.

(** A value that is one of the two placeholder tokens, whatever its case. *)
Definition isSentinel (v : string) : bool :=
  (toUpperCase v =? "MISSING")%string || (toUpperCase v =? "NA")%string.

(** The shape of the assessment blocks a category calls for. *)
Definition shapeMatches (p : Person.t) : bool :=
  match Person.category p, Person.y1 p, Person.y2 p, Person.workYear p with
  | NSF, Some _, Some _, None => true
  | Regular, None, None, Some _ => true
  | _, _, _, _ => false
  end.

(** The blocks of a record are those of one of the two shapes. *)
Definition oneShape (p : Person.t) : bool :=
  match Person.y1 p, Person.y2 p, Person.workYear p with
  | Some _, Some _, None => true
  | None, None, Some _ => true
  | _, _, _ => false
  end.

(** A section header in the strict sense, as the specification words it:
    PLATOON, optional white space and one digit, in any case; or a support
    unit, compared without white space and case. *)
Inductive strictHeader : string -> string -> Prop :=
| header_platoon (word spaces : string) (d : ascii) :
    toUpperCase word = "PLATOON" ->
    forallb isWhiteSpace (list_ascii_of_string spaces) = true ->
    isDigit d = true ->
    strictHeader (word ++ spaces ++ String d EmptyString)
                 ("Platoon " ++ String d EmptyString)
| header_support (raw unit : string) :
    In unit supportUnits ->
    squash raw = squash unit ->
    strictHeader raw unit.

(** A row with no rank in column B or no name in column C. *)
Definition lacksRankOrName (row : list cell) : bool :=
  negb (nonEmpty (text (at_ row 1))) || negb (nonEmpty (text (at_ row 2))).

(** A record with its time stamp erased. *)
Definition content (p : Person.t) : Person.t := Person.set_lastUpdated 0 p.

Definition contentMap (m : SMap.t Person.t) : SMap.t Person.t :=
  map (fun e => (fst e, content (snd e))) m.

Definition contentState (st : LoopState) : LoopState :=
  {| personnelMap := contentMap (personnelMap st);
     warnings := warnings st;
     currentPlatoon := currentPlatoon st |}.

(** The environment whose clock always reads 0 and whose draws are 0. *)
Definition zeroEnv : Env :=
  {| rowClock := fun _ => 0; postClock := fun _ => 0; random := fun _ => 0%Q |}.

(** An ORD date of a record that the post-pass leaves alone: null, or a
    Date not before the minimum date. *)
Definition ordDateValid (d : dateval) : bool :=
  match d with
  | DNull => true
  | DDate t => minDate <=? t
  | DString _ => false
  end.

(** An ORD date that passes the date-validity check of the post-pass. *)
Definition ordDateOk (d : option Z) : bool :=
  match d with
  | Some t => minDate <=? t
  | None => true
  end.

(** The date lookup that [processExcelFile] builds from a workbook. *)
Definition datesOf (js : Engine) (wb : Workbook) : DateMaps :=
  match findSheet "voc" wb with
  | Some vocData => vocDates js vocData
  | None => noDates
  end.

(** The keyword rules of validatePlatoon, on the lower-cased label. *)
Definition hqKeyword (l : string) : bool :=
  includes l "coy" || includes l "hq" || includes l "headquarters".

Definition platoonKeyword (l : string) : bool :=
  includes l "platoon" || includes l "plt".

Definition supportKeyword (l : string) : bool :=
  includes l "support" || includes l "admin" || includes l "medical"
  || includes l "med" || includes l "signal" || includes l "transport"
  || includes l "trans".

Definition partialMatch (l : string) : bool :=
  existsb (fun valid => includes (toLowerCase valid) l
                        || includes l (toLowerCase valid))
          validPlatoons.

(** No rule of validatePlatoon applies to the label. *)
Definition noRuleMatches (platoon : string) : bool :=
  let l := toLowerCase (trim platoon) in
  negb (arrayIncludes validPlatoons (trim platoon))
  && negb (hqKeyword l) && negb (platoonKeyword l)
  && negb (supportKeyword l) && negb (partialMatch l).

(** The numbered platoons with the numeral and the word that select them,
    in the order in which validatePlatoon tries them. *)
Definition numbered : list (string * string * string) :=
  [("1", "one", "Platoon 1"); ("2", "two", "Platoon 2");
   ("3", "three", "Platoon 3"); ("4", "four", "Platoon 4")].

Definition mentions (l : string) (e : string * string * string) : bool :=
  includes l (fst (fst e)) || includes l (snd (fst e)).

(** *** Concrete engines, environments and workbooks *)

(** An engine whose [Date.parse] accepts the ISO date-only format alone,
    in the UTC time zone. *)
Definition isoEngine : Engine :=
  {| legacyDateParse := fun _ => None; LocalTZA := 0 |}.

(** A run at 2025-11-14T00:00:00Z in which [Math.random()] returns [r]. *)
Definition envWith (r : Q) : Env :=
  {| rowClock := fun _ => 1763078400000;
     postClock := fun _ => 1763078400000;
     random := fun _ => r |}.

Definition primary : string := "All in one view".

Definition rowNSF : list cell :=
  [Str ""; Str "SGT"; Str "TAN WEI"; Str "A1"; Str "NSF"; Str "Gold"].

(** The same name again, now marked Regular, with a work-year result. *)
Definition rowREG_result : list cell :=
  [Str ""; Str "SGT"; Str "TAN WEI"; Str "A1"; Str "REG";
   Str ""; Str ""; Str ""; Str ""; Str ""; Str ""; Str "Gold"].

(** The same name again, now marked Regular, with no result. *)
Definition rowREG_plain : list cell :=
  [Str ""; Str "SGT"; Str "TAN WEI"; Str "A1"; Str "REG"].

Definition rowREG_missing : list cell :=
  [Str ""; Str "SGT"; Str "TAN WEI"; Str "A1"; Str "REG";
   Str ""; Str ""; Str ""; Str ""; Str ""; Str ""; Str "MISSING"].

(** A Regular record that holds Gold as its work-year fitness result. *)
Definition goldRecord : Person.t :=
  Person.set_workYear (Some (WorkYear.set_ippt "Gold" WorkYear.empty))
    (baseRecord 0 "TAN WEI" Regular "" "SGT" (Some "A1")).

(** One NSF row with rank, name, PES and service only. *)
Definition wbOneBare : Workbook :=
  [(primary, [[Str ""; Str "SGT"; Str "TAN WEI"; Str "A1"; Str "NSF"]])].

Definition wbServiceChange : Workbook := [(primary, [rowNSF; rowREG_result])].
Definition wbShape : Workbook := [(primary, [rowNSF; rowREG_plain])].
Definition wbOne : Workbook := [(primary, [rowNSF])].
Definition wbMissing : Workbook := [(primary, [rowREG_missing])].
Definition wbTitleOnly : Workbook := [(primary, [[Str "SOFUN TRACKER"]])].

(** One NSF row, and a VOC sheet giving the ORD date 01-06-26. *)
Definition wbGoodOrd : Workbook :=
  [(primary, [rowNSF]);
   ("VOC", [[Str ""; Str "SGT"; Str "TAN WEI"; Str ""; Str ""; Str "";
             Str "01-06-26"]])].

(** One NSF row, and a VOC sheet giving the ORD date 01-01-19. *)
Definition wbOldOrd : Workbook :=
  [(primary, [rowNSF]);
   ("VOC", [[Str ""; Str "SGT"; Str "TAN WEI"; Str ""; Str ""; Str "";
             Str "01-01-19"]])].

End Props.

(* ================================================================= *)
(** ** Further functions of the processor and of the utilities

    The functions around the ingestion: the summary of the dashboard
    export, the platoon fix, the search, status and overdue helpers, the
    export into the original workbook and the scan of the legacy sheet
    reader.  The XLSX codec is not modelled: a sheet is its array of arrays
    on both sides of it. *)

Module Further.
Import JS Util Processor Props.

(** *** The dashboard summary of the export *)

(** Reading a property of [undefined]. *)
Definition readError (prop : string) : exn :=
  Error ("Cannot read properties of undefined (reading '" ++ prop ++ "')").

(** [p.y1.prop] and [p.y2.prop], up to the read of the block. *)
Definition y1Of (prop : string) (p : Person.t) : result Y1.t :=
  match Person.y1 p with
  | Some b => Ok b
  | None => Throw (readError prop)
  end.

Definition y2Of (prop : string) (p : Person.t) : result Y2.t :=
  match Person.y2 p with
  | Some b => Ok b
  | None => Throw (readError prop)
  end.

(** [array.filter(f)] for a callback that may throw. *)
Fixpoint filterM {A} (f : A -> result bool) (l : list A) : result (list A) :=
  match l with
  | [] => Ok []
  | a :: rest =>
      b <- f a ;;
      rest' <- filterM f rest ;;
      Ok (if b then a :: rest' else rest')
  end.

Definition categoryName (c : Category) : string :=
  match c with NSF => "NSF" | Regular => "Regular" end.

(** The row of one category: its label and its seven counts. *)
Definition summaryRow (cat : Category) (activePersonnel : list Person.t)
  : result (string * list nat) :=
  let catPersonnel :=
    filter (fun p => Category_eqb (Person.category p) cat) activePersonnel in
  gold <- filterM (fun p => b <- y2Of "ippt" p ;;
                            Ok (Y2.ippt b =? "Gold")%string) catPersonnel ;;
  silver <- filterM (fun p => b <- y2Of "ippt" p ;;
                              Ok (Y2.ippt b =? "Silver")%string) catPersonnel ;;
  vocPass <- filterM (fun p => b <- y2Of "voc" p ;;
                               Ok (Y2.voc b =? "Pass")%string) catPersonnel ;;
  qualified <- filterM (fun p => b <- y2Of "range" p ;;
                                 Ok ((Y2.range b =? "Marksman")%string
                                     || (Y2.range b =? "Sharpshooter")%string))
                       catPersonnel ;;
  y1Complete <- filterM (fun p => b <- y1Of "ippt" p ;;
                                  Ok (negb (Y1.ippt b =? "")%string
                                      && negb (Y1.voc b =? "")%string
                                      && negb (Y1.atp b =? "")%string))
                        catPersonnel ;;
  y2Complete <- filterM (fun p => b <- y2Of "ippt" p ;;
                                  Ok (negb (Y2.ippt b =? "")%string
                                      && negb (Y2.voc b =? "")%string
                                      && negb (Y2.range b =? "")%string))
                        catPersonnel ;;
  Ok (categoryName cat ++ " Personnel",
      [length catPersonnel; length gold; length silver; length vocPass;
       length qualified; length y1Complete; length y2Complete]).

(** [generateCategorySummary(activePersonnel)]: the two categories in the
    order NSF, Regular. *)
Definition generateCategorySummary (activePersonnel : list Person.t)
  : result (list (string * list nat)) :=
  nsf <- summaryRow NSF activePersonnel ;;
  regular <- summaryRow Regular activePersonnel ;;
  Ok [nsf; regular].

(** The summary rows that [createMainDashboardSheet] spreads under its
    five heading rows: the summary of the records that are not ORD. *)
Definition mainDashboardSummary (personnelData : list Person.t)
  : result (list (string * list nat)) :=
  generateCategorySummary (filter (fun p => negb (Person.isORD p)) personnelData).

(** The blocks that the summary reads. *)
Definition hasY1 (p : Person.t) : bool :=
  match Person.y1 p with Some _ => true | None => false end.

Definition hasY2 (p : Person.t) : bool :=
  match Person.y2 p with Some _ => true | None => false end.

Definition hasY1Y2 (p : Person.t) : bool := hasY2 p && hasY1 p.

(** *** fixExistingPlatoonNames *)

(** [array[Math.floor(Math.random() * array.length)]] for the draw [r];
    [None] is [undefined].  The product is exact here and a double in the
    code, which can select the next element at a draw within one rounding
    step below k/n; for a draw in [0, 1) both select an element of the
    array. *)
Definition getRandomElement {A} (r : Q) (array : list A) : option A :=
  let i := Qfloor (r * inject_Z (Z.of_nat (length array))) in
  if i <? 0 then None else nth_error array (Z.to_nat i).

(** The strings of the list [invalidPlatoons]; its last two elements,
    null and undefined, are no strings. *)
Definition invalidPlatoons : list string :=
  ["Retry"; "First Attempt"; "retry"; "first attempt"; "-"; ""].

Definition set_unit (v : string) (p : Person.t) : Person.t :=
  Person.mk (Person.name p) (Person.category p) (Person.platoon p) v
    (Person.rank p) (Person.pes p) (Person.lastUpdated p) (Person.ordDate p)
    (Person.isORD p) (Person.medicalStatus p) (Person.remedialTraining p)
    (Person.y1 p) (Person.y2 p) (Person.workYear p)
    (Person.y1WindowEndDate p) (Person.y2WindowEndDate p).

Definition needsFix (person : Person.t) : bool :=
  (Person.platoon person =? "")%string
  || arrayIncludes invalidPlatoons (Person.platoon person)
  || negb (isValidPlatoon (Person.platoon person)).

Definition nsfPlatoons : list string := ["Platoon 1"; "Platoon 2"; "Platoon 3"].

(** The platoon assigned to a record that needs a fix; [None] when the
    draw selects no element, which a draw of [Math.random()], in [0, 1),
    never does. *)
Definition fixedPlatoon (r : Q) (person : Person.t) : option string :=
  match Person.category person with
  | NSF => getRandomElement r nsfPlatoons
  | Regular => Some "COY HQ"
  end.

(** The loop of fixExistingPlatoonNames from position [j] on; [random j]
    is the draw made for the record at position [j]. The result is the
    records after the loop and [fixedCount]. *)
Fixpoint fixLoop (random : nat -> Q) (j : nat) (personnelData : list Person.t)
         (fixedCount : nat) : option (list Person.t * nat) :=
  match personnelData with
  | [] => Some ([], fixedCount)
  | person :: rest =>
      if needsFix person then
        match fixedPlatoon (random j) person with
        | Some platoon =>
            let person := Person.set_platoon platoon person in
            let person := set_unit (Person.platoon person) person in
            match fixLoop random (S j) rest (S fixedCount) with
            | Some (rest', n) => Some (person :: rest', n)
            | None => None
            end
        | None => None
        end
      else
        match fixLoop random (S j) rest fixedCount with
        | Some (rest', n) => Some (person :: rest', n)
        | None => None
        end
  end.

Record FixResult : Type := {
  fixedCount : nat;
  totalPersonnel : nat
}.

(** [fixExistingPlatoonNames(personnelData)]: the records as the loop
    leaves them, and the object returned. *)
Definition fixExistingPlatoonNames (random : nat -> Q)
           (personnelData : list Person.t) : option (list Person.t * FixResult) :=
  match fixLoop random 0 personnelData 0 with
  | Some (fixed, n) =>
      Some (fixed, {| fixedCount := n; totalPersonnel := length personnelData |})
  | None => None
  end.

(** Draws of [Math.random()]: rationals in [0, 1). *)
Definition unitDraws (random : nat -> Q) : Prop :=
  forall j, (0 <= random j)%Q /\ (random j < 1)%Q.

(** What the fix does to one record: nothing when its platoon is valid;
    otherwise a valid platoon with the [unit] mirror in sync, the name and
    the category as they were. *)
Definition fixedFrom (p p' : Person.t) : Prop :=
  if isValidPlatoon (Person.platoon p) then p' = p
  else isValidPlatoon (Person.platoon p') = true
       /\ Person.unit p' = Person.platoon p'
       /\ Person.name p' = Person.name p
       /\ Person.category p' = Person.category p
       /\ (Person.category p = Regular -> Person.platoon p' = "COY HQ").

(** *** Search and status *)

(** [matchesSearchTerm(person, searchTerm)] *)
Definition matchesSearchTerm (person : Person.t) (searchTerm : string) : bool :=
  if (searchTerm =? "")%string then true
  else
    let searchableText :=
      toLowerCase (Person.name person ++ " " ++ Person.platoon person ++ " "
                   ++ Person.unit person ++ " " ++ Person.medicalStatus person) in
    includes searchableText (toLowerCase searchTerm).

(** [test && test !== 'Pending'] *)
Definition isCompleted (test : option string) : bool :=
  nonEmpty test && negb (optEqb test (Some "Pending")).

(** [getPersonStatus(person)] for a record: the text and the class. *)
Definition getPersonStatus (person : Person.t) : string * string :=
  let y1ippt := option_map Y1.ippt (Person.y1 person) in
  let y1voc := option_map Y1.voc (Person.y1 person) in
  let y1atp := option_map Y1.atp (Person.y1 person) in
  let y1Complete := nonEmpty y1ippt && nonEmpty y1voc && nonEmpty y1atp in
  let y2Tests := [option_map Y2.ippt (Person.y2 person);
                  option_map Y2.voc (Person.y2 person);
                  option_map Y2.range (Person.y2 person)] in
  let y2Completed := length (filter isCompleted y2Tests) in
  let isRegular := Category_eqb (Person.category person) Regular in
  if (y2Completed =? 3)%nat then ("Y2 Completed", "status-pass")
  else if (0 <? y2Completed)%nat then ("Y2 In progress", "status-pending")
  else if isRegular then ("Y2 Not started", "status-silver")
  else if y1Complete || (nonEmpty y1ippt || nonEmpty y1voc || nonEmpty y1atp)
  then ("Y2 Not started", "status-silver")
  else ("Y1 In progress", "status-exempt").

(** *** The export into the original workbook *)

(** [row.some(cell => cell && cell.toString().toLowerCase().includes('name'))] *)
Definition mentionsName (row : list cell) : bool :=
  existsb (fun cell =>
             truthy cell && includes (toLowerCase (toString cell)) "name") row.

(** The object [columnMap]: [None] is a property that was never set. *)
Record ColumnMap : Type := {
  nameColumn : option nat;
  platoonColumn : option nat;
  pesColumn : option nat;
  ordDateColumn : option nat;
  medicalStatusColumn : option nat
}.

Definition noColumns : ColumnMap :=
  {| nameColumn := None; platoonColumn := None; pesColumn := None;
     ordDateColumn := None; medicalStatusColumn := None |}.

(** The callback of [headers.forEach((header, index) => ...)]. *)
Definition mapHeader (columnMap : ColumnMap) (index : nat) (header : cell)
  : ColumnMap :=
  if truthy header then
    let headerStr := trim (toLowerCase (toString header)) in
    {| nameColumn :=
         if includes headerStr "name" then Some index else nameColumn columnMap;
       platoonColumn :=
         if includes headerStr "platoon" then Some index
         else platoonColumn columnMap;
       pesColumn :=
         if includes headerStr "pes" then Some index else pesColumn columnMap;
       ordDateColumn :=
         if includes headerStr "ord" then Some index
         else ordDateColumn columnMap;
       medicalStatusColumn :=
         if includes headerStr "medical" then Some index
         else medicalStatusColumn columnMap |}
  else columnMap.

Fixpoint mapHeaders (headers : list cell) (index : nat) (columnMap : ColumnMap)
  : ColumnMap :=
  match headers with
  | [] => columnMap
  | header :: rest => mapHeaders rest (S index) (mapHeader columnMap index header)
  end.

(** [row[i] = v]; an index past the end extends the array with holes. *)
Fixpoint setAt (i : nat) (v : cell) (row : list cell) : list cell :=
  match i, row with
  | O, [] => [v]
  | O, _ :: rest => v :: rest
  | S i, [] => Undefined :: setAt i v []
  | S i, c :: rest => c :: setAt i v rest
  end.

(** [if (column !== undefined) row[column] = v] *)
Definition setColumn (column : option nat) (v : cell) (row : list cell)
  : list cell :=
  match column with
  | Some i => setAt i v row
  | None => row
  end.

(** [date || ''] as a cell; a Date object is the cell that prints as
    [renderDate] says. *)
Definition dateCell (renderDate : Z -> string) (d : dateval) : cell :=
  match d with
  | DNull => Str ""
  | DDate t => Obj (renderDate t)
  | DString s => Str s
  end.

(** The row written for one record. *)
Definition exportRow (renderDate : Z -> string) (columnMap : ColumnMap)
           (width : nat) (person : Person.t) : list cell :=
  let row := repeat (Str "") width in
  let row := setColumn (nameColumn columnMap) (Str (Person.name person)) row in
  let row := setColumn (platoonColumn columnMap)
                       (Str (Person.platoon person)) row in
  let row := setColumn (pesColumn columnMap)
                       (Str (orEmpty (Person.pes person))) row in
  let row := setColumn (ordDateColumn columnMap)
                       (dateCell renderDate (Person.ordDate person)) row in
  setColumn (medicalStatusColumn columnMap)
            (Str (if (Person.medicalStatus person =? "")%string then "Fit"
                  else Person.medicalStatus person)) row.

(** The rows of the primary sheet after the update: the rows up to the
    header row, then one row for each record; the sheet is left as it is
    when no row mentions a name. *)
Definition updatedRows (renderDate : Z -> string) (personnelData : list Person.t)
           (data : list (list cell)) : list (list cell) :=
  match firstIndex mentionsName data 0 with
  | None => data
  | Some headerRowIndex =>
      let headers := nth headerRowIndex data [] in
      let columnMap := mapHeaders headers 0 noColumns in
      (firstn (S headerRowIndex) data
       ++ map (exportRow renderDate columnMap (length headers)) personnelData)%list
  end.

(** [wb.Sheets[sheetName] = ...] for the first sheet whose name is
    [target] up to case and outer white space; a workbook without such a
    sheet is left as it is. *)
Fixpoint updateSheet (target : string)
         (update : list (list cell) -> list (list cell)) (wb : Workbook)
  : Workbook :=
  match wb with
  | [] => []
  | (name, data) :: rest =>
      if (toLowerCase (trim name) =? target)%string
      then (name, update data) :: rest
      else (name, data) :: updateSheet target update rest
  end.

(** [updateAllInOneViewSheet(wb, personnelData)] *)
Definition updateAllInOneViewSheet (renderDate : Z -> string) (wb : Workbook)
           (personnelData : list Person.t) : Workbook :=
  updateSheet "all in one view" (updatedRows renderDate personnelData) wb.

(** No property of the column map is the index [i]. *)
Definition unmapped (i : nat) (columnMap : ColumnMap) : bool :=
  negb (existsb (fun c => match c with Some j => (j =? i)%nat | None => false end)
                [nameColumn columnMap; platoonColumn columnMap;
                 pesColumn columnMap; ordDateColumn columnMap;
                 medicalStatusColumn columnMap]).

(** *** The assessment sheets of the export *)

Inductive AssessmentType : Type := IpptSheet | VocSheet | RangeSheet.

Definition assessmentName (assessmentType : AssessmentType) : string :=
  match assessmentType with
  | IpptSheet => "ippt"
  | VocSheet => "voc"
  | RangeSheet => "range"
  end.

(** [block?.result || ''] and [block?.date || ''] as cells. *)
Definition resultCell (r : option string) : cell := Str (orEmpty r).

Definition optDateCell (renderDate : Z -> string) (d : option dateval) : cell :=
  match d with
  | Some d => dateCell renderDate d
  | None => Str ""
  end.

(** The callback of [headers.forEach((header, columnIndex) => ...)] in
    updateAssessmentRowData. *)
Definition updateCell (renderDate : Z -> string) (person : Person.t)
           (assessmentType : AssessmentType) (row : list cell)
           (columnIndex : nat) (header : cell) : list cell :=
  if negb (truthy header) then row
  else
    let headerStr := trim (toLowerCase (toString header)) in
    let has := includes headerStr in
    let y1 {A} (f : Y1.t -> A) := option_map f (Person.y1 person) in
    let y2 {A} (f : Y2.t -> A) := option_map f (Person.y2 person) in
    let row :=
      match assessmentType with
      | IpptSheet =>
          if has "y1" && has "result"
          then setAt columnIndex (resultCell (y1 Y1.ippt)) row
          else if has "y2" && has "result"
          then setAt columnIndex (resultCell (y2 Y2.ippt)) row
          else if has "y1" && has "date"
          then setAt columnIndex (optDateCell renderDate (y1 Y1.ipptDate)) row
          else if has "y2" && has "date"
          then setAt columnIndex (optDateCell renderDate (y2 Y2.ipptDate)) row
          else row
      | VocSheet =>
          if has "y1" && has "result"
          then setAt columnIndex (resultCell (y1 Y1.voc)) row
          else if has "y2" && has "result"
          then setAt columnIndex (resultCell (y2 Y2.voc)) row
          else if has "y1" && has "date"
          then setAt columnIndex (optDateCell renderDate (y1 Y1.vocDate)) row
          else if has "y2" && has "date"
          then setAt columnIndex (optDateCell renderDate (y2 Y2.vocDate)) row
          else row
      | RangeSheet =>
          if has "y2" && has "result"
          then setAt columnIndex (resultCell (y2 Y2.range)) row
          else if has "y2" && has "date"
          then setAt columnIndex (optDateCell renderDate (y2 Y2.rangeDate)) row
          else row
      end in
    if has "platoon" then setAt columnIndex (Str (Person.platoon person)) row
    else if has "pes"
    then setAt columnIndex (Str (orEmpty (Person.pes person))) row
    else if has "medical"
    then setAt columnIndex
               (Str (if (Person.medicalStatus person =? "")%string then "Fit"
                     else Person.medicalStatus person)) row
    else row.

(** [updateAssessmentRowData(row, headers, person, assessmentType)], from
    the header at [columnIndex] on. *)
Fixpoint updateAssessmentRowData (renderDate : Z -> string) (row headers : list cell)
         (columnIndex : nat) (person : Person.t)
         (assessmentType : AssessmentType) : list cell :=
  match headers with
  | [] => row
  | header :: rest =>
      updateAssessmentRowData renderDate
        (updateCell renderDate person assessmentType row columnIndex header)
        rest (S columnIndex) person assessmentType
  end.

(** [header && header.toString().toLowerCase().includes('name')] *)
Definition isNameHeader (header : cell) : bool :=
  truthy header && includes (toLowerCase (toString header)) "name".

(** [headers.findIndex(f)]; [None] is -1. *)
Fixpoint findCell (f : cell -> bool) (cells : list cell) (i : nat) : option nat :=
  match cells with
  | [] => None
  | c :: rest => if f c then Some i else findCell f rest (S i)
  end.

(** The body of the loop over the rows below the header row. *)
Definition updateAssessmentRow (renderDate : Z -> string)
           (assessmentType : AssessmentType) (personnelData : list Person.t)
           (headers : list cell) (nameColumnIndex : nat) (row : list cell)
  : list cell :=
  if negb (truthy (at_ row nameColumnIndex)) then row
  else
    let personName := trim (toString (at_ row nameColumnIndex)) in
    match find (fun p => (Person.name p =? personName)%string) personnelData with
    | Some person =>
        updateAssessmentRowData renderDate row headers 0 person assessmentType
    | None => row
    end.

(** [updateAssessmentSheet]: the rows of the sheet after the update. *)
Definition updateAssessmentSheet (renderDate : Z -> string)
           (assessmentType : AssessmentType) (personnelData : list Person.t)
           (data : list (list cell)) : list (list cell) :=
  match firstIndex mentionsName data 0 with
  | None => data
  | Some headerRowIndex =>
      let headers := nth headerRowIndex data [] in
      match findCell isNameHeader headers 0 with
      | None => data
      | Some nameColumnIndex =>
          (firstn (S headerRowIndex) data
           ++ map (updateAssessmentRow renderDate assessmentType personnelData
                     headers nameColumnIndex)
                  (skipn (S headerRowIndex) data))%list
      end
  end.

(** [updateAssessmentSheets(wb, personnelData)]: the sheets ippt, voc and
    range, in this order. *)
Definition updateAssessmentSheets (renderDate : Z -> string) (wb : Workbook)
           (personnelData : list Person.t) : Workbook :=
  fold_left
    (fun wb assessmentType =>
       updateSheet (assessmentName assessmentType)
                   (updateAssessmentSheet renderDate assessmentType personnelData)
                   wb)
    [IpptSheet; VocSheet; RangeSheet] wb.

(** The workbook that downloadModifiedExcel writes: the copy of the
    original with the primary sheet and the assessment sheets updated. *)
Definition modifiedWorkbook (renderDate : Z -> string) (personnelData : list Person.t)
           (originalWorkbook : Workbook) : Workbook :=
  updateAssessmentSheets renderDate
    (updateAllInOneViewSheet renderDate originalWorkbook personnelData)
    personnelData.

(** The names that updateAssessmentSheet looks up among the records: the
    name cells, trimmed, of the rows below the header row. *)
Definition lookedUpNames (data : list (list cell)) : list string :=
  match firstIndex mentionsName data 0 with
  | None => []
  | Some headerRowIndex =>
      match findCell isNameHeader (nth headerRowIndex data []) 0 with
      | None => []
      | Some nameColumnIndex =>
          map (fun row => trim (toString (at_ row nameColumnIndex)))
              (filter (fun row => truthy (at_ row nameColumnIndex))
                      (skipn (S headerRowIndex) data))
      end
  end.

(** *** The scan of the legacy sheet reader *)

(** [findDataStartRow(rawData, sheetName)]: the scan of processExcelFile
    started at the fourth row. *)
Definition findDataStartRow (rawData : list (list cell)) : nat :=
  match firstIndex looksLikeData (skipn 3 (firstn 10 rawData)) 3 with
  | Some i => i
  | None => 4%nat
  end.

(** *** Overdue assessments *)

(** [isDateOverdue(dateStr)]: [today] is the clock read by [new Date()]. *)
Definition isDateOverdue (js : Engine) (today : Z) (dateStr : dateval) : bool :=
  if negb (datevalTruthy dateStr) then true (* No date means overdue *)
  else
    let date : option Z :=
      match dateStr with
      | DDate t => Some t
      | DString s => DateParse js s
      | DNull => None
      end in
    let threeMonthsAgo := addMonths js today (-3) in
    match date with
    | Some d => d <? threeMonthsAgo
    | None => false (* a comparison with an invalid date *)
    end.

(** [isOverdue(person)] for a record; [clock k] is the clock read by the
    call of isDateOverdue number [k]. *)
Definition isOverdue (js : Engine) (clock : nat -> Z) (person : Person.t) : bool :=
  match Person.y2 person with
  | None => false
  | Some y2 =>
      isDateOverdue js (clock 0%nat) (Y2.ipptDate y2)
      || isDateOverdue js (clock 1%nat) (Y2.vocDate y2)
      || isDateOverdue js (clock 2%nat) (Y2.rangeDate y2)
  end.

(** The date slots of the blocks of a record. *)
Definition y1Dates (b : Y1.t) : list dateval :=
  [Y1.ipptDate b; Y1.vocDate b; Y1.atpDate b].

Definition y2Dates (b : Y2.t) : list dateval :=
  [Y2.ipptDate b; Y2.vocDate b; Y2.rangeDate b].

Definition workYearDates (b : WorkYear.t) : list dateval :=
  [WorkYear.ipptDate b; WorkYear.vocDate b; WorkYear.atpDate b;
   WorkYear.csDate b].

Definition blockDates (p : Person.t) : list dateval :=
  (match Person.y1 p with Some b => y1Dates b | None => [] end
   ++ match Person.y2 p with Some b => y2Dates b | None => [] end
   ++ match Person.workYear p with Some b => workYearDates b | None => [] end)%list.

(** *** Definitions used to state the further properties *)

(** A character of ASCII, and a text of such characters: the text on
    which the case mappings and the lengths of this model are those of
    JavaScript. *)
Definition isAsciiChar (c : ascii) : bool := (nat_of_ascii c <? 128)%nat.

Definition asciiText (s : string) : Prop :=
  forallb isAsciiChar (list_ascii_of_string s) = true.

(** A record whose searchable fields are ASCII text. *)
Definition asciiRecord (p : Person.t) : Prop :=
  asciiText (Person.name p) /\ asciiText (Person.platoon p)
  /\ asciiText (Person.unit p) /\ asciiText (Person.medicalStatus p).

(** The characters that sanitizePersonnelName removes. *)
Definition isMarkupChar (c : ascii) : bool :=
  (c =? "<")%char || (c =? ">")%char || (c =? dquote)%char || (c =? squote)%char.

(** The keys of a map, in insertion order. *)
Definition keysOf {V} (m : SMap.t V) : list string := map fst m.

(** Every record of the map is stored under its own name, and no name
    occurs twice. *)
Definition wellKeyed (m : SMap.t Person.t) : Prop :=
  NoDup (keysOf m) /\ Forall (fun e => Person.name (snd e) = fst e) m.

(** A row that the loop merges when it reaches it as a personnel row: it has
    a rank in column B and a name in column C. *)
Definition hasRankAndName (row : list cell) : bool :=
  nonEmpty (text (at_ row 1)) && nonEmpty (text (at_ row 2)).

(** The key under which a personnel row is merged. *)
Definition rowKey (row : list cell) : string :=
  sanitizePersonnelName (orEmpty (text (at_ row 2))).

(** What the post-pass guarantees of an ORD date. *)
Definition ordDateChecked (p : Person.t) : Prop :=
  match Person.ordDate p with
  | DNull => True
  | DDate t => minDate <= t
  | DString _ => Person.category p = NSF
  end.

(** An ORD date as the row loop leaves it: null or a Date. *)
Definition ordDateRaw (p : Person.t) : Prop :=
  match Person.ordDate p with
  | DString _ => False
  | _ => True
  end.

(** The Y2 window end date of a record mirrors its ORD date; when the
    post-pass rejected the ORD date, the window still holds the rejected
    date. *)
Definition y2WindowMirrorsOrd (p : Person.t) : Prop :=
  Person.y2WindowEndDate p = Person.ordDate p
  \/ (ordDateValid (Person.y2WindowEndDate p) = false
      /\ match Person.ordDate p with DDate _ => False | _ => True end).

(** A run of exactly two decimal digits. *)
Definition twoDigits (s : string) : Prop := digitsBetween 2 2 s = true.

End Further.

Import JS Util Processor Props.
Import Further.

(* ================================================================= *)
(** ** Properties *)

(** *** Examples of the primitives *)

Example trim_example : trim "  3 PLT  " = "3 PLT".
Proof. reflexivity. Qed.

Example isoDate_example : parseIsoDateOnly "2025-11-14" = Some 1763078400000.
Proof. reflexivity. Qed.

Example isoDatePart_example : isoDatePart 1763078400000 = "2025-11-14".
Proof. reflexivity. Qed.

Example sanitize_example : sanitizePersonnelName " tan <wei> " = "TAN WEI".
Proof. reflexivity. Qed.

Example minDate_example : isoDatePart minDate = "2020-01-01".
Proof. reflexivity. Qed.

Example excelEpoch_example : isoDatePart excelEpoch = "1899-12-30".
Proof. reflexivity. Qed.

(** *** parseDate *)

(** C2: parseDate is meant to read a number as a date serial, or as DDMMYY
    when it has six digits, but its first test sends every value that is
    not a string to null: the number 141125 gives no date, while the string
    14-11-25 gives 2025-11-14. *)
Theorem parseDate_number_is_null :
  forall js : Engine,
    (forall n : Z, parseDate js (Num n) = None)
    /\ parseDate js (Num 141125) = None
    /\ parseDate js (Str "14-11-25") = Some 1763078400000
    /\ isoDatePart 1763078400000 = "2025-11-14".
Proof.
  intro js.
  assert (Hnum : forall n : Z, parseDate js (Num n) = None).
  { intro n. unfold parseDate. simpl isString. now rewrite orb_true_r. }
  split; [exact Hnum | split; [apply Hnum | split; reflexivity]].
Qed.

(** *** validatePlatoon *)

(** Every value that validatePlatoon returns is in its own list. *)
Lemma validatePlatoon_in_list (platoon : string) :
  In (validatePlatoon platoon) validPlatoons.
Proof.
  unfold validatePlatoon.
  repeat match goal with
         | |- context [if ?c then _ else _] => destruct c eqn:?
         end;
    try (simpl; tauto).
  - unfold arrayIncludes in *.
    match goal with H : existsb _ _ = true |- _ =>
      apply existsb_exists in H; destruct H as [x [Hin Hx]] end.
    apply String.eqb_eq in Hx. now subst.
  - destruct (find _ validPlatoons) eqn:Hf.
    + apply find_some in Hf. tauto.
    + simpl; tauto.
Qed.

(** Numbered platoons: a label that is no exact match and has no
    headquarters keyword, but has the platoon keyword, resolves to the first
    numbered platoon whose numeral or word it mentions. *)
Lemma validatePlatoon_numbered (platoon : string) pre e post :
  numbered = (pre ++ e :: post)%list ->
  (platoon =? "")%string = false ->
  arrayIncludes validPlatoons (trim platoon) = false ->
  hqKeyword (toLowerCase (trim platoon)) = false ->
  platoonKeyword (toLowerCase (trim platoon)) = true ->
  forallb (fun e' => negb (mentions (toLowerCase (trim platoon)) e')) pre = true ->
  mentions (toLowerCase (trim platoon)) e = true ->
  validatePlatoon platoon = snd e.
Proof.
  intros Htab Hne Hex Hhq Hplt Hpre He.
  assert (Htrim : (trim platoon =? "")%string = false).
  { destruct (trim platoon) eqn:Ht; [|reflexivity].
    unfold platoonKeyword in Hplt. simpl in Hplt. discriminate. }
  unfold validatePlatoon, hqKeyword, platoonKeyword in *.
  rewrite Hne, Htrim, Hex. simpl orb. cbv iota.
  rewrite Hhq, Hplt.
  unfold numbered in Htab.
  destruct pre as [|e1 [|e2 [|e3 [|e4 pre]]]]; simpl in Htab;
    injection Htab as <-; intros; subst;
    unfold mentions in *; simpl fst in *; simpl snd in *;
    simpl forallb in Hpre;
    repeat match type of Hpre with
           | (_ && _)%bool = true => apply andb_prop in Hpre as [? Hpre]
           end;
    repeat match goal with
           | H : negb ?c = true |- _ => apply negb_true_iff in H; rewrite H
           end;
    try rewrite He; try reflexivity.
  destruct pre; discriminate.
Qed.

(** C7 (amended): validatePlatoon has no category argument.  It returns an
    exact match of its list as it is; resolves a label with the platoon
    keyword to the first numbered platoon it mentions (3 PLT gives Platoon
    3); and when no rule matches returns Unassigned, not a default that
    depends on the category.  Its result is always in its own list. *)
Theorem validatePlatoon_resolution :
  forall platoon : string,
    In (validatePlatoon platoon) validPlatoons
    /\ ((platoon =? "")%string = false ->
        arrayIncludes validPlatoons (trim platoon) = true ->
        validatePlatoon platoon = trim platoon)
    /\ (forall pre e post,
          numbered = (pre ++ e :: post)%list ->
          (platoon =? "")%string = false ->
          arrayIncludes validPlatoons (trim platoon) = false ->
          hqKeyword (toLowerCase (trim platoon)) = false ->
          platoonKeyword (toLowerCase (trim platoon)) = true ->
          forallb (fun e' => negb (mentions (toLowerCase (trim platoon)) e')) pre = true ->
          mentions (toLowerCase (trim platoon)) e = true ->
          validatePlatoon platoon = snd e)
    /\ (noRuleMatches platoon = true -> validatePlatoon platoon = "Unassigned")
    /\ validatePlatoon "3 PLT" = "Platoon 3"
    /\ validatePlatoon "xyz" = "Unassigned".
Proof.
  intro platoon.
  split; [apply validatePlatoon_in_list|].
  split.
  { intros Hne Hex. unfold validatePlatoon. rewrite Hne, Hex.
    destruct (trim platoon =? "")%string eqn:Ht; [|reflexivity].
    apply String.eqb_eq in Ht. rewrite Ht in Hex. discriminate. }
  split; [intros; eapply validatePlatoon_numbered; eauto|].
  split; [|split; reflexivity].
  unfold noRuleMatches, hqKeyword, platoonKeyword, supportKeyword, partialMatch.
  intro H.
  repeat match type of H with
         | (_ && _)%bool = true => apply andb_prop in H as [H ?]
         end.
  repeat match goal with
         | H : negb _ = true |- _ => apply negb_true_iff in H
         end.
  repeat match goal with
         | H : (_ || _)%bool = false |- _ => apply orb_false_elim in H as [? ?]
         end.
  unfold validatePlatoon.
  destruct (platoon =? "")%string; [reflexivity|].
  destruct (trim platoon =? "")%string; [reflexivity|].
  simpl orb. cbv iota.
  repeat match goal with
         | H : _ = false |- _ => rewrite H
         end.
  simpl orb. cbv iota.
  match goal with
  | H : existsb ?f ?l = false |- _ =>
      destruct (find f l) eqn:Hf; [|reflexivity];
      apply find_some in Hf; destruct Hf as [Hin Hs];
      assert (existsb f l = true) by (apply existsb_exists; eauto);
      congruence
  end.
Qed.

(** The amended C7 at the label xyz: no rule matches, the result is
    Unassigned. *)
Lemma validatePlatoon_resolution_witness :
  noRuleMatches "xyz" = true /\ validatePlatoon "xyz" = "Unassigned".
Proof.
  split; [reflexivity|].
  apply (proj1 (proj2 (proj2 (proj2 (validatePlatoon_resolution "xyz"))))).
  reflexivity.
Defined.

(** C7 as stated fails: for the label xyz of an NSF record the result is
    not the default platoon of the category, and is not a valid platoon. *)
Lemma validatePlatoon_xyz_not_default :
  validatePlatoon "xyz" <> defaultPlatoon NSF
  /\ validatePlatoon "xyz" = "Unassigned"
  /\ isValidPlatoon (validatePlatoon "xyz") = false.
Proof.
  split; [|split; reflexivity].
  vm_compute. discriminate.
Qed.

(** *** The ingestion at concrete workbooks *)

(** C1: the primary sheet is present, and yet a row that marks as Regular
    a name first seen as NSF, with a work-year result, makes the whole
    ingestion fail: the record has no workYear block, the assignment
    raises a TypeError, and the catch returns no records and one error. *)
Theorem ingestion_rejects_on_service_change :
  forall (js : Engine) (env : Env),
    findSheet "all in one view" wbServiceChange = Some [rowNSF; rowREG_result]
    /\ processExcelFile_try js env wbServiceChange = Throw (TypeError "ippt")
    /\ processExcelFile js env wbServiceChange
       = Outcome.mk false [] 0
           ["Cannot set properties of undefined (setting 'ippt')"] [].
Proof.
  intros js env. repeat split.
Qed.

(** C3: a name first seen as NSF and later marked Regular ends as a record
    of category Regular that still has the y1 and y2 blocks and no
    workYear block. *)
Theorem shape_mismatch_after_service_change :
  forall (js : Engine) (env : Env),
    exists p,
      Outcome.data (processExcelFile js env wbShape) = [p]
      /\ Person.category p = Regular
      /\ Person.y1 p = Some (Y1.set_ippt "Gold" Y1.empty)
      /\ Person.y2 p = Some Y2.empty
      /\ Person.workYear p = None
      /\ shapeMatches p = false.
Proof.
  intros js env. eexists. split; [vm_compute; reflexivity|].
  repeat split.
Qed.

(** C5 as stated fails: a primary sheet with a title row only gives no
    records and no error at all. *)
Lemma title_only_sheet_no_error :
  let r := processExcelFile isoEngine (envWith 0) wbTitleOnly in
  Outcome.success r = true
  /\ Outcome.data r = []
  /\ Outcome.errors r = []
  /\ length (Outcome.errors r) <> 1%nat.
Proof.
  vm_compute. repeat split. discriminate.
Qed.

(** C9 as stated fails: two runs over the same workbook, which differ in
    the draw of Math.random alone, give records that differ in the ORD
    date generated for the record whose ORD date is before 2020. *)
Lemma reingestion_differs :
  let r1 := processExcelFile isoEngine (envWith 0) wbOldOrd in
  let r2 := processExcelFile isoEngine (envWith (1 # 2)) wbOldOrd in
  map Person.ordDate (Outcome.data r1) = [DString "2026-02-14"]
  /\ map Person.ordDate (Outcome.data r2) = [DString "2026-06-14"]
  /\ map content (Outcome.data r1) <> map content (Outcome.data r2).
Proof.
  vm_compute. repeat split. discriminate.
Qed.

(** *** Maps, results and the loop: general facts *)

Section SMapFacts.
Context {V : Type}.
Implicit Types (m : SMap.t V) (k : string) (v : V).

Lemma get_set_same k v m : SMap.get k (SMap.set k v m) = Some v.
Proof.
  induction m as [|[k' v'] m IH]; simpl.
  - now rewrite String.eqb_refl.
  - destruct (k' =? k)%string eqn:E; simpl.
    + now rewrite String.eqb_refl.
    + now rewrite E.
Qed.

Lemma get_set_other k k' v m :
  k <> k' -> SMap.get k' (SMap.set k v m) = SMap.get k' m.
Proof.
  intro Hne. induction m as [|[k0 v0] m IH]; simpl.
  - destruct (k =? k')%string eqn:E; [apply String.eqb_eq in E; contradiction|reflexivity].
  - destruct (k0 =? k)%string eqn:E; simpl.
    + apply String.eqb_eq in E; subst k0.
      destruct (k =? k')%string eqn:E'; [apply String.eqb_eq in E'; contradiction|reflexivity].
    + now rewrite IH.
Qed.

Lemma get_In k v m : SMap.get k m = Some v -> In v (SMap.values m).
Proof.
  induction m as [|[k' v'] m IH]; simpl; [discriminate|].
  destruct (k' =? k)%string; [intros [= ->]; now left|auto].
Qed.

Lemma values_set_In k v m x :
  In x (SMap.values (SMap.set k v m)) -> x = v \/ In x (SMap.values m).
Proof.
  induction m as [|[k' v'] m IH]; simpl.
  - intros [<-|[]]; now left.
  - destruct (k' =? k)%string; simpl.
    + intros [<-|H]; [now left|right; now right].
    + intros [<-|H]; [right; now left|].
      destruct (IH H); [now left|right; now right].
Qed.

End SMapFacts.

Lemma bind_Ok {A B} (r : result A) (k : A -> result B) (b : B) :
  (x <- r ;; k x) = Ok b -> exists a, r = Ok a /\ k a = Ok b.
Proof. destruct r; simpl; [eauto|discriminate]. Qed.

Ltac invert_bind H :=
  let a := fresh "a" in
  let Ha := fresh "Ha" in
  apply bind_Ok in H as [a [Ha H]].

(** A property of the map that every merge preserves holds throughout the
    loop. *)
Lemma processRows_invariant (P : SMap.t Person.t -> Prop) (maps : DateMaps) :
  (forall now cp rank name row pm pm',
      P pm -> mergeRow maps now cp rank name row pm = Ok pm' -> P pm') ->
  forall env rows i st st',
    P (personnelMap st) ->
    processRows maps env i st rows = Ok st' ->
    P (personnelMap st').
Proof.
  intros Hstep env rows.
  induction rows as [|row rows IH]; simpl; intros i st st' HP H.
  - now injection H as <-.
  - invert_bind H. eapply IH; [|exact H].
    unfold processRow in Ha.
    repeat match type of Ha with
           | (if ?c then _ else _) = _ => destruct c
           end;
      try (injection Ha as <-; exact HP).
    invert_bind Ha. injection Ha as <-. simpl. eauto.
Qed.

(** The records returned are those of the map at the end of the loop,
    each passed through the post-pass. *)
Lemma postPass_Forall (Q Q' : Person.t -> Prop) js env :
  (forall j p w, Q p -> Q' (fst (validateAndCleanPersonnelRecord js env j p w))) ->
  forall ps j w, Forall Q ps -> Forall Q' (fst (postPass js env j ps w)).
Proof.
  intros Hone ps. induction ps as [|p ps IH]; simpl; intros j w HQ.
  - constructor.
  - inversion HQ; subst.
    specialize (Hone j p w).
    destruct (validateAndCleanPersonnelRecord js env j p w) as [p' w'] eqn:E.
    specialize (IH (S j) w').
    destruct (postPass js env (S j) ps w') as [ps' w''] eqn:E'.
    simpl in *. constructor; auto.
Qed.

Lemma processExcelFile_Forall (Q Q' : Person.t -> Prop) :
  (forall maps now cp rank name row pm pm',
      Forall Q (SMap.values pm) ->
      mergeRow maps now cp rank name row pm = Ok pm' ->
      Forall Q (SMap.values pm')) ->
  (forall js env j p w,
      Q p -> Q' (fst (validateAndCleanPersonnelRecord js env j p w))) ->
  forall js env wb, Forall Q' (Outcome.data (processExcelFile js env wb)).
Proof.
  intros Hmerge Hpost js env wb.
  unfold processExcelFile, processExcelFile_try.
  destruct (findSheet "all in one view" wb) as [rawData|]; [|constructor].
  set (maps := match findSheet "voc" wb with
               | Some vocData => vocDates js vocData | None => noDates end).
  destruct (processRows maps env (dataStartRow rawData) initialState
              (skipn (dataStartRow rawData) rawData)) as [st|e] eqn:E;
    simpl; [|constructor].
  assert (HQ : Forall Q (SMap.values (personnelMap st))).
  { eapply (processRows_invariant (fun pm => Forall Q (SMap.values pm)) maps);
      [intros; eapply Hmerge; eauto| |exact E].
    constructor. }
  pose proof (postPass_Forall Q Q' js env (Hpost js env) _ 0%nat (warnings st) HQ) as HF.
  destruct (postPass js env 0 (SMap.values (personnelMap st)) (warnings st)).
  exact HF.
Qed.

(** *** What each stage of a merge leaves alone *)

Ltac simp_person :=
  cbn [content negb fst snd Person.set_lastUpdated Person.set_platoon
       Person.set_medicalStatus Person.set_ordDate Person.name
       Person.category Person.platoon Person.unit Person.rank Person.pes
       Person.lastUpdated Person.ordDate Person.isORD Person.medicalStatus
       Person.remedialTraining Person.y1 Person.y2 Person.workYear
       Person.y1WindowEndDate Person.y2WindowEndDate].


Ltac break_if :=
  match goal with
  | |- context [if ?c then _ else _] => destruct c eqn:?
  end.

Ltac break_if_in H :=
  match type of H with
  | context [if ?c then _ else _] => destruct c eqn:?
  end.

Lemma updateAdmin_blocks cp rank pes service cat p :
  blocksOf (updateAdmin cp rank pes service cat p) = blocksOf p.
Proof. unfold updateAdmin. repeat break_if; reflexivity. Qed.

Lemma updateAdmin_rest cp rank pes service cat p :
  let p' := updateAdmin cp rank pes service cat p in
  Person.name p' = Person.name p
  /\ Person.unit p' = Person.unit p
  /\ Person.medicalStatus p' = Person.medicalStatus p
  /\ Person.ordDate p' = Person.ordDate p
  /\ Person.lastUpdated p' = Person.lastUpdated p.
Proof. unfold updateAdmin. repeat break_if; repeat split. Qed.

Lemma joinDates_blocks maps key p :
  blocksOf (joinDates maps key p) = blocksOf p.
Proof.
  unfold joinDates. destruct (Person.category p); [|reflexivity].
  destruct (SMap.get key (ordDateMap maps));
    destruct (SMap.get key (y1WindowMap maps));
    destruct (SMap.get key (y2WindowMap maps));
    try break_if; reflexivity.
Qed.

Lemma joinDates_rest maps key p :
  let p' := joinDates maps key p in
  Person.name p' = Person.name p
  /\ Person.category p' = Person.category p
  /\ Person.platoon p' = Person.platoon p
  /\ Person.unit p' = Person.unit p
  /\ Person.medicalStatus p' = Person.medicalStatus p
  /\ Person.lastUpdated p' = Person.lastUpdated p.
Proof.
  unfold joinDates. cbv zeta.
  destruct (Person.category p) eqn:Ec; [|repeat split; assumption].
  destruct (SMap.get key (ordDateMap maps));
    destruct (SMap.get key (y1WindowMap maps));
    destruct (SMap.get key (y2WindowMap maps));
    try break_if; simpl; repeat split; assumption.
Qed.

Lemma writeY1_admin prop set v p p' :
  writeY1 prop set v p = Ok p' -> adminOf p' = adminOf p.
Proof.
  unfold writeY1. destruct (storable v); [|now intros [= <-]].
  destruct (Person.y1 p); [now intros [= <-]|discriminate].
Qed.

Lemma writeY2_admin prop set v p p' :
  writeY2 prop set v p = Ok p' -> adminOf p' = adminOf p.
Proof.
  unfold writeY2. destruct (storable v); [|now intros [= <-]].
  destruct (Person.y2 p); [now intros [= <-]|discriminate].
Qed.

Lemma writeWorkYear_admin prop set v p p' :
  writeWorkYear prop set v p = Ok p' -> adminOf p' = adminOf p.
Proof.
  unfold writeWorkYear. destruct (storable v); [|now intros [= <-]].
  destruct (Person.workYear p); [now intros [= <-]|discriminate].
Qed.

Lemma assignResults_admin row p p' :
  assignResults row p = Ok p' -> adminOf p' = adminOf p.
Proof.
  unfold assignResults. intro H.
  destruct (Person.category p);
    repeat invert_bind H;
    repeat match goal with
           | H : writeY1 _ _ _ _ = Ok _ |- _ => apply writeY1_admin in H
           | H : writeY2 _ _ _ _ = Ok _ |- _ => apply writeY2_admin in H
           | H : writeWorkYear _ _ _ _ = Ok _ |- _ => apply writeWorkYear_admin in H
           end;
    congruence.
Qed.

(** The stages of a merge, made explicit. *)
Lemma mergeRow_Ok maps now cp rank name row pm pm' :
  mergeRow maps now cp rank name row pm = Ok pm' ->
  exists p',
    assignResults row
      (joinDates maps (sanitizePersonnelName name)
         (updateAdmin cp rank (text (at_ row 3)) (text (at_ row 4))
            (categoryOf (text (at_ row 4)))
            match SMap.get (sanitizePersonnelName name) pm with
            | Some person => person
            | None => baseRecord now (sanitizePersonnelName name)
                        (categoryOf (text (at_ row 4))) cp rank (text (at_ row 3))
            end)) = Ok p'
    /\ pm' = SMap.set (sanitizePersonnelName name) p' pm.
Proof.
  unfold mergeRow. intro H. invert_bind H. injection H as <-. eauto.
Qed.

(** A property of records that the new record has and every stage keeps
    holds of all records after a merge. *)
Lemma mergeRow_Forall (Q : Person.t -> Prop) (maps : DateMaps) :
  (forall now key cat cp rank pes, Q (baseRecord now key cat cp rank pes)) ->
  (forall cp rank pes service cat p, Q p -> Q (updateAdmin cp rank pes service cat p)) ->
  (forall key p, Q p -> Q (joinDates maps key p)) ->
  (forall row p p', Q p -> assignResults row p = Ok p' -> Q p') ->
  forall now cp rank name row pm pm',
    Forall Q (SMap.values pm) ->
    mergeRow maps now cp rank name row pm = Ok pm' ->
    Forall Q (SMap.values pm').
Proof.
  intros Hbase Hadmin Hjoin Hassign now cp rank name row pm pm' HQ H.
  apply mergeRow_Ok in H as [p' [Hp' ->]].
  rewrite Forall_forall in *. intros x Hx.
  apply values_set_In in Hx as [->|Hx]; [|auto].
  eapply Hassign; [|exact Hp'].
  apply Hjoin, Hadmin.
  destruct (SMap.get (sanitizePersonnelName name) pm) eqn:Eg; [|apply Hbase].
  apply HQ. eapply get_In; eauto.
Qed.

(** *** Medical status *)

(** C10: every record that the ingestion returns has medicalStatus Fit.
    No cell of a sheet reaches the field: a record is created with Fit and
    no stage of a merge changes it.  The post-pass keeps a value of the
    enumeration MEDICAL_STATUS_OPTIONS and resets any other value to Fit,
    and it does so silently: the warnings it returns do not depend on the
    medical status, and a record with a valid platoon and no ORD date gets
    no warning at all, whatever its medical status was. *)
Theorem medicalStatus_always_Fit :
  (forall (js : Engine) (env : Env) (wb : Workbook),
      Forall (fun p => Person.medicalStatus p = "Fit")
             (Outcome.data (processExcelFile js env wb)))
  /\ (forall now key cat cp rank pes,
         Person.medicalStatus (baseRecord now key cat cp rank pes) = "Fit")
  /\ (forall js env j p w,
         Person.medicalStatus (fst (validateAndCleanPersonnelRecord js env j p w))
         = if arrayIncludes MEDICAL_STATUS_OPTIONS (Person.medicalStatus p)
           then Person.medicalStatus p else "Fit")
  /\ (forall js env j p w s,
         snd (validateAndCleanPersonnelRecord js env j
                (Person.set_medicalStatus s p) w)
         = snd (validateAndCleanPersonnelRecord js env j p w))
  /\ (forall js env j p w,
         isValidPlatoon (Person.platoon p) = true ->
         datevalTruthy (Person.ordDate p) = false ->
         snd (validateAndCleanPersonnelRecord js env j p w) = w).
Proof.
  split; [|split; [|split; [|split]]].
  - apply (processExcelFile_Forall (fun p => Person.medicalStatus p = "Fit")
                                   (fun p => Person.medicalStatus p = "Fit")).
    + intros maps. apply mergeRow_Forall.
      * reflexivity.
      * intros. destruct (updateAdmin_rest cp rank pes service cat p) as (_ & _ & -> & _).
        assumption.
      * intros. destruct (joinDates_rest maps key p) as (_ & _ & _ & _ & -> & _).
        assumption.
      * intros row p p' Hp H. apply assignResults_admin in H.
        unfold adminOf in H. congruence.
    + intros js env j p w Hp. unfold validateAndCleanPersonnelRecord.
      repeat break_if; simpl; try rewrite Hp; try reflexivity;
        rewrite Hp in *; discriminate.
  - reflexivity.
  - intros js env j p w. unfold validateAndCleanPersonnelRecord.
    destruct (isValidPlatoon (Person.platoon p)); simp_person;
      destruct (arrayIncludes MEDICAL_STATUS_OPTIONS (Person.medicalStatus p));
      simp_person; break_if; reflexivity.
  - intros js env j p w s. unfold validateAndCleanPersonnelRecord.
    simp_person.
    destruct (isValidPlatoon (Person.platoon p)); simp_person;
      destruct (arrayIncludes MEDICAL_STATUS_OPTIONS s); simp_person;
      destruct (arrayIncludes MEDICAL_STATUS_OPTIONS (Person.medicalStatus p));
      simp_person; break_if; reflexivity.
  - intros js env j p w Hv Hd. unfold validateAndCleanPersonnelRecord.
    rewrite Hv. simp_person.
    destruct (arrayIncludes MEDICAL_STATUS_OPTIONS (Person.medicalStatus p));
      simp_person; rewrite Hd; reflexivity.
Qed.

(** C10 at a record whose medical status is outside the enumeration: the
    post-pass returns it with Fit and pushes no warning. *)
Lemma medicalStatus_always_Fit_witness :
  Person.medicalStatus
    (fst (validateAndCleanPersonnelRecord isoEngine (envWith 0) 0
            (Person.set_medicalStatus "Sick" (Person.set_platoon "COY HQ" goldRecord))
            []))
  = "Fit"
  /\ snd (validateAndCleanPersonnelRecord isoEngine (envWith 0) 0
            (Person.set_medicalStatus "Sick" (Person.set_platoon "COY HQ" goldRecord))
            [])
     = [].
Proof.
  split.
  - exact (proj1 (proj2 (proj2 medicalStatus_always_Fit)) isoEngine (envWith 0)
             0%nat
             (Person.set_medicalStatus "Sick" (Person.set_platoon "COY HQ" goldRecord))
             []).
  - exact (proj2 (proj2 (proj2 (proj2 medicalStatus_always_Fit))) isoEngine
             (envWith 0) 0%nat
             (Person.set_medicalStatus "Sick" (Person.set_platoon "COY HQ" goldRecord))
             [] eq_refl eq_refl).
Defined.

(** Every record returned has a platoon of VALID_PLATOONS: the post-pass
    replaces any other value by the default of the category. *)
Lemma platoon_always_valid (js : Engine) (env : Env) (wb : Workbook) :
  Forall (fun p => isValidPlatoon (Person.platoon p) = true)
         (Outcome.data (processExcelFile js env wb)).
Proof.
  apply (processExcelFile_Forall (fun _ => True)).
  - intros. rewrite Forall_forall. trivial.
  - intros js' env' j p w _. unfold validateAndCleanPersonnelRecord.
    destruct (isValidPlatoon (Person.platoon p)) eqn:E; simpl.
    + repeat break_if; simpl; assumption.
    + assert (isValidPlatoon (defaultPlatoon (Person.category p)) = true)
        by (destruct (Person.category p); reflexivity).
      repeat break_if; simpl; assumption.
Qed.



(** The record carries a second property, [unit], set with [platoon] when
    the record is created.  The post-pass does not touch it: for a data row
    that no section header precedes it stays Unassigned while [platoon]
    becomes the default. *)
Lemma unit_mirror_left_unassigned :
  forall (js : Engine) (env : Env),
    exists p,
      Outcome.data (processExcelFile js env wbOne) = [p]
      /\ Person.unit p = "Unassigned"
      /\ isValidPlatoon (Person.unit p) = false
      /\ Person.platoon p = "Platoon 1".
Proof.
  intros js env. eexists. split; [vm_compute; reflexivity|].
  repeat split.
Qed.

(** The blocks themselves are never mixed: a returned record has y1 and
    y2 and no workYear, or workYear alone.  What can fail is the agreement
    of that shape with the category, which a later row may change. *)
Lemma blocks_never_mixed (js : Engine) (env : Env) (wb : Workbook) :
  Forall (fun p => oneShape p = true)
         (Outcome.data (processExcelFile js env wb)).
Proof.
  assert (Hb : forall p q, blocksOf p = blocksOf q -> oneShape p = oneShape q).
  { unfold blocksOf, oneShape. intros p q [= -> -> ->]. reflexivity. }
  apply (processExcelFile_Forall (fun p => oneShape p = true)).
  - intro maps. apply mergeRow_Forall.
    + intros now key cat cp rank pes. now destruct cat.
    + intros. now rewrite (Hb _ _ (updateAdmin_blocks _ _ _ _ _ _)).
    + intros. now rewrite (Hb _ _ (joinDates_blocks _ _ _)).
    + intros row p p' Hp H.
      assert (Hw1 : forall prop set v q q',
                 writeY1 prop set v q = Ok q' -> oneShape q' = oneShape q).
      { unfold writeY1, oneShape. intros prop set v q q'.
        destruct (storable v); [|now intros [= <-]].
        destruct (Person.y1 q) eqn:E; [|discriminate].
        intros [= <-]. simpl. rewrite ?E. reflexivity. }
      assert (Hw2 : forall prop set v q q',
                 writeY2 prop set v q = Ok q' -> oneShape q' = oneShape q).
      { unfold writeY2, oneShape. intros prop set v q q'.
        destruct (storable v); [|now intros [= <-]].
        destruct (Person.y2 q) eqn:E; [|discriminate].
        intros [= <-]. simpl. rewrite ?E. reflexivity. }
      assert (Hw3 : forall prop set v q q',
                 writeWorkYear prop set v q = Ok q' -> oneShape q' = oneShape q).
      { unfold writeWorkYear, oneShape. intros prop set v q q'.
        destruct (storable v); [|now intros [= <-]].
        destruct (Person.workYear q) eqn:E; [|discriminate].
        intros [= <-]. simpl. rewrite ?E. reflexivity. }
      unfold assignResults in H.
      destruct (Person.category p);
        repeat invert_bind H;
        repeat match goal with
               | H : writeY1 _ _ _ _ = Ok _ |- _ => apply Hw1 in H
               | H : writeY2 _ _ _ _ = Ok _ |- _ => apply Hw2 in H
               | H : writeWorkYear _ _ _ _ = Ok _ |- _ => apply Hw3 in H
               end;
        congruence.
  - intros js' env' j p w Hp.
    rewrite (Hb _ p); [exact Hp|].
    unfold validateAndCleanPersonnelRecord. repeat break_if; reflexivity.
Qed.

(** *** Result slots *)

Lemma slotOf_blocks s p q : blocksOf p = blocksOf q -> slotOf s p = slotOf s q.
Proof.
  unfold blocksOf. intros [= E1 E2 E3].
  destruct s; simpl; congruence.
Qed.

Ltac solve_write blk :=
  let E := fresh "E" in
  let s := fresh "s" in
  destruct blk eqn:E;
  [ intros [= <-] s; destruct s; simpl; rewrite ?E; reflexivity
  | discriminate ].

Lemma writeY1_ippt v p p' :
  writeY1 "ippt" Y1.set_ippt v p = Ok p' -> writes Y1_ippt v p p'.
Proof.
  unfold writeY1, writes. destruct (storable v).
  - solve_write (Person.y1 p).
  - intros [= <-] s. now rewrite andb_false_r.
Qed.

Lemma writeY1_voc v p p' :
  writeY1 "voc" Y1.set_voc v p = Ok p' -> writes Y1_voc v p p'.
Proof.
  unfold writeY1, writes. destruct (storable v).
  - solve_write (Person.y1 p).
  - intros [= <-] s. now rewrite andb_false_r.
Qed.

Lemma writeY1_atp v p p' :
  writeY1 "atp" Y1.set_atp v p = Ok p' -> writes Y1_atp v p p'.
Proof.
  unfold writeY1, writes. destruct (storable v).
  - solve_write (Person.y1 p).
  - intros [= <-] s. now rewrite andb_false_r.
Qed.

Lemma writeY2_ippt v p p' :
  writeY2 "ippt" Y2.set_ippt v p = Ok p' -> writes Y2_ippt v p p'.
Proof.
  unfold writeY2, writes. destruct (storable v).
  - solve_write (Person.y2 p).
  - intros [= <-] s. now rewrite andb_false_r.
Qed.

Lemma writeY2_voc v p p' :
  writeY2 "voc" Y2.set_voc v p = Ok p' -> writes Y2_voc v p p'.
Proof.
  unfold writeY2, writes. destruct (storable v).
  - solve_write (Person.y2 p).
  - intros [= <-] s. now rewrite andb_false_r.
Qed.

Lemma writeY2_range v p p' :
  writeY2 "range" Y2.set_range v p = Ok p' -> writes Y2_range v p p'.
Proof.
  unfold writeY2, writes. destruct (storable v).
  - solve_write (Person.y2 p).
  - intros [= <-] s. now rewrite andb_false_r.
Qed.

Lemma writeWorkYear_ippt v p p' :
  writeWorkYear "ippt" WorkYear.set_ippt v p = Ok p' -> writes WY_ippt v p p'.
Proof.
  unfold writeWorkYear, writes. destruct (storable v).
  - solve_write (Person.workYear p).
  - intros [= <-] s. now rewrite andb_false_r.
Qed.

Lemma writeWorkYear_voc v p p' :
  writeWorkYear "voc" WorkYear.set_voc v p = Ok p' -> writes WY_voc v p p'.
Proof.
  unfold writeWorkYear, writes. destruct (storable v).
  - solve_write (Person.workYear p).
  - intros [= <-] s. now rewrite andb_false_r.
Qed.

Lemma writeWorkYear_atp v p p' :
  writeWorkYear "atp" WorkYear.set_atp v p = Ok p' -> writes WY_atp v p p'.
Proof.
  unfold writeWorkYear, writes. destruct (storable v).
  - solve_write (Person.workYear p).
  - intros [= <-] s. now rewrite andb_false_r.
Qed.

Lemma writeWorkYear_cs v p p' :
  writeWorkYear "cs" WorkYear.set_cs v p = Ok p' -> writes WY_cs v p p'.
Proof.
  unfold writeWorkYear, writes. destruct (storable v).
  - solve_write (Person.workYear p).
  - intros [= <-] s. now rewrite andb_false_r.
Qed.

(** The slots after the results of a row are assigned: the slot of the
    category of the record takes the value of its column when that value
    is storable, and every other slot keeps its value. *)
Lemma assignResults_slots row p p' :
  assignResults row p = Ok p' ->
  forall s,
    slotOf s p' =
    if Category_eqb (slotCategory s) (Person.category p)
       && storable (text (at_ row (slotColumn s)))
    then option_map (fun _ => orEmpty (text (at_ row (slotColumn s)))) (slotOf s p)
    else slotOf s p.
Proof.
  unfold assignResults. intro H.
  destruct (Person.category p) eqn:Ec.
  - repeat invert_bind H.
    apply writeY1_ippt in Ha. apply writeY1_voc in Ha0. apply writeY1_atp in Ha1.
    apply writeY2_ippt in Ha2. apply writeY2_voc in Ha3. apply writeY2_range in H.
    intro s. rewrite H, Ha3, Ha2, Ha1, Ha0, Ha.
    destruct s; simpl; repeat break_if; try reflexivity;
      destruct (slotOf _ p); reflexivity.
  - repeat invert_bind H.
    apply writeWorkYear_ippt in Ha. apply writeWorkYear_voc in Ha0.
    apply writeWorkYear_atp in Ha1. apply writeWorkYear_cs in H.
    intro s. rewrite H, Ha1, Ha0, Ha.
    destruct s; simpl; repeat break_if; try reflexivity;
      destruct (slotOf _ p); reflexivity.
Qed.

Lemma storable_not_sentinel v : storable v = true -> isSentinel (orEmpty v) = false.
Proof.
  unfold storable, isSentinel. intro H.
  apply andb_prop in H as [H H2]. apply andb_prop in H as [_ H1].
  apply negb_true_iff in H1, H2. now rewrite H1, H2.
Qed.

Lemma baseRecord_slots now key cat cp rank pes s v :
  slotOf s (baseRecord now key cat cp rank pes) = Some v -> v = "".
Proof. destruct s, cat; simpl; congruence. Qed.

(** The slot of a record after a merge, in terms of the map before it. *)
Lemma mergeRow_slot maps now cp rank name row pm pm' :
  mergeRow maps now cp rank name row pm = Ok pm' ->
  forall k p' s new,
    SMap.get k pm' = Some p' ->
    slotOf s p' = Some new ->
    new = (if (k =? sanitizePersonnelName name)%string
              && Category_eqb (slotCategory s) (Person.category p')
              && storable (text (at_ row (slotColumn s)))
           then orEmpty (text (at_ row (slotColumn s)))
           else slotBefore s k pm).
Proof.
  intros H k p' s new Hget Hslot.
  apply mergeRow_Ok in H as [q [Hq ->]].
  destruct (k =? sanitizePersonnelName name)%string eqn:Ek.
  - apply String.eqb_eq in Ek. subst k.
    rewrite get_set_same in Hget. injection Hget as ->.
    pose proof (assignResults_slots _ _ _ Hq s) as Hs.
    pose proof (assignResults_admin _ _ _ Hq) as Ha.
    assert (Ec : Person.category p' =
                 Person.category
                   (joinDates maps (sanitizePersonnelName name)
                      (updateAdmin cp rank (text (at_ row 3)) (text (at_ row 4))
                         (categoryOf (text (at_ row 4)))
                         match SMap.get (sanitizePersonnelName name) pm with
                         | Some person => person
                         | None =>
                             baseRecord now (sanitizePersonnelName name)
                               (categoryOf (text (at_ row 4))) cp rank
                               (text (at_ row 3))
                         end)))
      by (unfold adminOf in Ha; congruence).
    rewrite <- Ec in Hs.
    rewrite (slotOf_blocks s _ _ (joinDates_blocks _ _ _)) in Hs.
    rewrite (slotOf_blocks s _ _ (updateAdmin_blocks _ _ _ _ _ _)) in Hs.
    rewrite Hslot in Hs. simpl andb.
    unfold slotBefore.
    destruct (SMap.get (sanitizePersonnelName name) pm) as [p0|] eqn:Eg.
    + destruct (slotOf s p0) as [old|]; simpl in Hs.
      * break_if; simpl; congruence.
      * break_if; discriminate.
    + destruct (slotOf s (baseRecord _ _ _ _ _ _)) as [old|] eqn:Eb; simpl in Hs.
      * apply baseRecord_slots in Eb. subst old. break_if; simpl; congruence.
      * break_if; discriminate.
  - assert (Hne : sanitizePersonnelName name <> k).
    { intro E. subst k. now rewrite String.eqb_refl in Ek. }
    rewrite (get_set_other _ _ _ _ Hne) in Hget.
    simpl. unfold slotBefore. now rewrite Hget, Hslot.
Qed.

(** No placeholder token is stored in a slot of a returned record. *)
Lemma no_sentinel_stored (js : Engine) (env : Env) (wb : Workbook) :
  Forall (fun p => forall s v, slotOf s p = Some v -> isSentinel v = false)
         (Outcome.data (processExcelFile js env wb)).
Proof.
  apply (processExcelFile_Forall
           (fun p => forall s v, slotOf s p = Some v -> isSentinel v = false)).
  - intro maps. apply mergeRow_Forall.
    + intros. apply baseRecord_slots in H. now subst.
    + intros cp rank pes service cat p Hp s v.
      rewrite (slotOf_blocks s _ _ (updateAdmin_blocks _ _ _ _ _ _)). apply Hp.
    + intros key p Hp s v.
      rewrite (slotOf_blocks s _ _ (joinDates_blocks _ _ _)). apply Hp.
    + intros row p p' Hp H s v. rewrite (assignResults_slots _ _ _ H s).
      destruct (Category_eqb _ _ && storable _)%bool eqn:E.
      * apply andb_prop in E as [_ E]. apply storable_not_sentinel in E.
        destruct (slotOf s p); simpl; [|discriminate]. now intros [= <-].
      * apply Hp.
  - intros js' env' j p w Hp s v.
    assert (Hb : blocksOf (fst (validateAndCleanPersonnelRecord js' env' j p w))
                 = blocksOf p).
    { unfold validateAndCleanPersonnelRecord. repeat break_if; reflexivity. }
    rewrite (slotOf_blocks s _ _ Hb). apply Hp.
Qed.

(** The stored value of a slot after a merge: what was stored, or the
    storable value of the column of the slot. *)
Lemma mergeRow_stored maps now cp rank name row pm pm' :
  mergeRow maps now cp rank name row pm = Ok pm' ->
  forall k s,
    slotBefore s k pm' = slotBefore s k pm
    \/ (storable (text (at_ row (slotColumn s))) = true
        /\ slotBefore s k pm' = orEmpty (text (at_ row (slotColumn s)))).
Proof.
  intros H k s.
  destruct (SMap.get k pm') as [p'|] eqn:Eg.
  - destruct (slotOf s p') as [new|] eqn:Es.
    + pose proof (mergeRow_slot _ _ _ _ _ _ _ _ H k p' s new Eg Es) as E.
      assert (Hn : slotBefore s k pm' = new)
        by (unfold slotBefore; now rewrite Eg, Es).
      rewrite Hn.
      destruct (storable (text (at_ row (slotColumn s)))) eqn:Est.
      * break_if_in E; [right|left]; auto.
      * left. now rewrite andb_false_r in E.
    + left. apply mergeRow_Ok in H as [q [Hq ->]].
      destruct (k =? sanitizePersonnelName name)%string eqn:Ek.
      * apply String.eqb_eq in Ek. subst k.
        rewrite get_set_same in Eg. injection Eg as ->.
        pose proof (assignResults_slots _ _ _ Hq s) as Hs.
        rewrite (slotOf_blocks s _ _ (joinDates_blocks _ _ _)) in Hs.
        rewrite (slotOf_blocks s _ _ (updateAdmin_blocks _ _ _ _ _ _)) in Hs.
        rewrite Es in Hs. unfold slotBefore at 1.
        rewrite get_set_same, Es. unfold slotBefore.
        destruct (SMap.get (sanitizePersonnelName name) pm) as [p0|]; [|reflexivity].
        destruct (slotOf s p0); [|reflexivity].
        break_if_in Hs; discriminate.
      * assert (Hne : sanitizePersonnelName name <> k).
        { intro E. subst k. now rewrite String.eqb_refl in Ek. }
        unfold slotBefore. now rewrite (get_set_other _ _ _ _ Hne).
  - left. apply mergeRow_Ok in H as [q [Hq ->]].
    destruct (k =? sanitizePersonnelName name)%string eqn:Ek.
    + apply String.eqb_eq in Ek. subst k. now rewrite get_set_same in Eg.
    + assert (Hne : sanitizePersonnelName name <> k).
      { intro E. subst k. now rewrite String.eqb_refl in Ek. }
      unfold slotBefore. now rewrite (get_set_other _ _ _ _ Hne).
Qed.

Lemma processRow_stored maps env i st row st' :
  processRow maps env i st row = Ok st' ->
  forall k s,
    slotBefore s k (personnelMap st') = slotBefore s k (personnelMap st)
    \/ (storable (text (at_ row (slotColumn s))) = true
        /\ slotBefore s k (personnelMap st')
           = orEmpty (text (at_ row (slotColumn s)))).
Proof.
  unfold processRow. intros H k s.
  repeat break_if_in H; try (injection H as <-; now left).
  invert_bind H. injection H as <-. simpl.
  eapply mergeRow_stored; eauto.
Qed.

(** Over any run of rows: a slot ends with the value it started with, or
    with a storable value that one of the rows has in its column. *)
Lemma processRows_stored maps env rows :
  forall i st st',
    processRows maps env i st rows = Ok st' ->
    forall k s,
      slotBefore s k (personnelMap st') = slotBefore s k (personnelMap st)
      \/ (exists row,
            In row rows
            /\ storable (text (at_ row (slotColumn s))) = true
            /\ slotBefore s k (personnelMap st')
               = orEmpty (text (at_ row (slotColumn s)))).
Proof.
  induction rows as [|row rows IH]; simpl; intros i st st' H k s.
  - injection H as <-. now left.
  - invert_bind H.
    destruct (IH _ _ _ H k s) as [E|[r [Hin [Hs E]]]].
    + rewrite E.
      destruct (processRow_stored _ _ _ _ _ _ Ha k s) as [E1|[Hs E1]];
        [now left|].
      right. exists row. rewrite <- E1. auto.
    + right. exists r. auto.
Qed.

(** C4: merging a row never destroys a result.  After a merge, a slot
    holds either what it held before (the empty string for a new name) or
    the value of its column in the row, and the latter only for a value
    that is not empty and is neither NA nor MISSING; such a value in the
    column of a slot of the category of the record always replaces the
    stored one; over any sequence of rows a slot ends with its first
    value or with a storable value of one of the rows; no returned record
    holds NA or MISSING in a slot; a Regular row with work-year fitness
    MISSING leaves the slot empty. *)
Theorem merge_is_nondestructive :
  (forall maps now cp rank name row pm pm',
      mergeRow maps now cp rank name row pm = Ok pm' ->
      forall k p' s new,
        SMap.get k pm' = Some p' ->
        slotOf s p' = Some new ->
        let incoming := text (at_ row (slotColumn s)) in
        (new = slotBefore s k pm
         \/ (storable incoming = true /\ new = orEmpty incoming))
        /\ (storable incoming = false -> new = slotBefore s k pm)
        /\ (k = sanitizePersonnelName name ->
            slotCategory s = Person.category p' ->
            storable incoming = true ->
            new = orEmpty incoming))
  /\ (forall maps env rows i st st',
        processRows maps env i st rows = Ok st' ->
        forall k s,
          slotBefore s k (personnelMap st') = slotBefore s k (personnelMap st)
          \/ (exists row,
                In row rows
                /\ storable (text (at_ row (slotColumn s))) = true
                /\ slotBefore s k (personnelMap st')
                   = orEmpty (text (at_ row (slotColumn s)))))
  /\ (forall js env wb p s v,
        In p (Outcome.data (processExcelFile js env wb)) ->
        slotOf s p = Some v ->
        isSentinel v = false)
  /\ (forall js env,
        exists p,
          Outcome.data (processExcelFile js env wbMissing) = [p]
          /\ Person.category p = Regular
          /\ slotOf WY_ippt p = Some "").
Proof.
  split; [|split; [exact processRows_stored|split]].
  - intros maps now cp rank name row pm pm' H k p' s new Hget Hslot incoming.
    pose proof (mergeRow_slot _ _ _ _ _ _ _ _ H k p' s new Hget Hslot) as E.
    fold incoming in E.
    split; [|split].
    + destruct (storable incoming) eqn:Es.
      * break_if_in E; [right|left]; auto.
      * left. now rewrite andb_false_r in E.
    + intro Es. now rewrite Es, andb_false_r in E.
    + intros -> Hc Es.
      rewrite String.eqb_refl, Hc, Es in E.
      destruct (Person.category p'); exact E.
  - intros js env wb p s v Hin.
    pose proof (no_sentinel_stored js env wb) as HF.
    rewrite Forall_forall in HF. apply (HF p Hin).
  - intros js env. eexists. split; [vm_compute; reflexivity|].
    split; reflexivity.
Qed.

(** C4 at a concrete merge: a stored Gold is kept when the next row of the
    same Regular name has an empty work-year fitness cell. *)
Lemma merge_is_nondestructive_witness :
  mergeRow noDates 0 "" "SGT" "TAN WEI" rowREG_plain [("TAN WEI", goldRecord)]
  = Ok [("TAN WEI", goldRecord)]
  /\ storable (text (at_ rowREG_plain (slotColumn WY_ippt))) = false
  /\ "Gold" = slotBefore WY_ippt "TAN WEI" [("TAN WEI", goldRecord)].
Proof.
  split; [reflexivity|]. split; [reflexivity|].
  exact (proj1 (proj2
    (proj1 merge_is_nondestructive noDates 0 "" "SGT" "TAN WEI" rowREG_plain
       [("TAN WEI", goldRecord)] [("TAN WEI", goldRecord)] eq_refl
       "TAN WEI" goldRecord WY_ippt "Gold" eq_refl eq_refl)) eq_refl).
Defined.

(** *** Section headers *)

Lemma mapString_length f s : String.length (mapString f s) = String.length s.
Proof. induction s; simpl; congruence. Qed.

Lemma substring_0_0 s : String.substring 0 0 s = "".
Proof. now destruct s. Qed.

Lemma substring_all s : String.substring 0 (String.length s) s = s.
Proof. induction s; simpl; congruence. Qed.

Lemma substring_split n s :
  s = String.substring 0 n s ++ String.substring n (String.length s - n) s.
Proof.
  revert s. induction n as [|n IH]; intro s.
  - rewrite Nat.sub_0_r, substring_all. now destruct s.
  - destruct s as [|c s]; simpl; [reflexivity|]. f_equal. apply IH.
Qed.

Lemma substring_append w r n :
  String.length w = n ->
  String.substring 0 n (w ++ r) = w
  /\ String.substring n (String.length (w ++ r) - n) (w ++ r) = r.
Proof.
  revert n. induction w as [|c w IH]; simpl; intros n <-.
  - rewrite Nat.sub_0_r, substring_all. split; [now destruct r|reflexivity].
  - destruct (IH _ eq_refl) as [E1 E2]. simpl. now rewrite E1, E2.
Qed.

Lemma filterString_append f a b :
  filterString f (a ++ b) = filterString f a ++ filterString f b.
Proof. induction a as [|c a IH]; simpl; [reflexivity|]. destruct (f c); simpl; congruence. Qed.

Lemma mapString_append f a b :
  mapString f (a ++ b) = mapString f a ++ mapString f b.
Proof. induction a; simpl; congruence. Qed.

Lemma digit_not_space d : isDigit d = true -> isWhiteSpace d = false.
Proof.
  unfold isDigit, isWhiteSpace. cbv zeta. intro H.
  apply andb_prop in H as [H1 H2]. apply Nat.leb_le in H1, H2.
  assert (E1 : (nat_of_ascii d <=? 13)%nat = false) by (apply Nat.leb_gt; lia).
  assert (E2 : (nat_of_ascii d =? 32)%nat = false) by (apply Nat.eqb_neq; lia).
  now rewrite E1, E2, andb_false_r.
Qed.

Lemma upper_space c : isWhiteSpace c = true -> upperChar c = c.
Proof.
  unfold isWhiteSpace, upperChar. cbv zeta. intro H.
  assert (E : (97 <=? nat_of_ascii c)%nat = false).
  { apply Nat.leb_gt. apply orb_prop in H as [H|H].
    - apply andb_prop in H as [_ H]. apply Nat.leb_le in H. lia.
    - apply Nat.eqb_eq in H. lia. }
  now rewrite E.
Qed.

Lemma trimStart_spaces ws rest :
  forallb isWhiteSpace (list_ascii_of_string ws) = true ->
  trimStart (ws ++ rest) = trimStart rest.
Proof.
  induction ws as [|c ws IH]; simpl; [reflexivity|].
  intro H. apply andb_prop in H as [Hc H]. rewrite Hc. auto.
Qed.

Lemma trimStart_split s :
  exists ws,
    s = ws ++ trimStart s
    /\ forallb isWhiteSpace (list_ascii_of_string ws) = true.
Proof.
  induction s as [|c s [ws [E H]]]; simpl.
  - exists "". now split.
  - destruct (isWhiteSpace c) eqn:Ec.
    + exists (String c ws). simpl. rewrite Ec, H.
      split; [f_equal; exact E|reflexivity].
    + exists "". now split.
Qed.

(** A string whose upper-case form has no white space has none itself. *)
Lemma stripSpaces_upper w :
  forallb (fun c => negb (isWhiteSpace c)) (list_ascii_of_string (toUpperCase w)) = true ->
  stripSpaces w = w.
Proof.
  unfold stripSpaces, toUpperCase.
  induction w as [|c w IH]; simpl; [reflexivity|].
  intro H. apply andb_prop in H as [Hc H].
  destruct (isWhiteSpace c) eqn:Ec.
  - rewrite (upper_space c Ec), Ec in Hc. discriminate.
  - simpl. f_equal. auto.
Qed.

(** The pattern of a numbered platoon, from the code to the words and back. *)
Lemma platoonMatch_sound s d :
  platoonMatch s = Some d ->
  strictHeader s ("Platoon " ++ String d EmptyString).
Proof.
  unfold platoonMatch.
  destruct (toUpperCase (String.substring 0 7 s) =? "PLATOON")%string eqn:E;
    [|discriminate].
  apply String.eqb_eq in E.
  destruct (trimStart (String.substring 7 (String.length s - 7) s))
    as [|d' [|? ?]] eqn:Et; try discriminate.
  destruct (isDigit d') eqn:Ed; [|discriminate].
  intros [= <-].
  destruct (trimStart_split (String.substring 7 (String.length s - 7) s))
    as [ws [Hr Hws]].
  rewrite Et in Hr.
  pose proof (substring_split 7 s) as Hs. rewrite Hr in Hs.
  rewrite Hs. now constructor.
Qed.

Lemma platoonMatch_complete word spaces d :
  toUpperCase word = "PLATOON" ->
  forallb isWhiteSpace (list_ascii_of_string spaces) = true ->
  isDigit d = true ->
  platoonMatch (word ++ spaces ++ String d EmptyString) = Some d.
Proof.
  intros Hw Hs Hd.
  assert (Hlen : String.length word = 7%nat).
  { rewrite <- (mapString_length upperChar). fold (toUpperCase word).
    now rewrite Hw. }
  unfold platoonMatch.
  destruct (substring_append word (spaces ++ String d EmptyString) 7 Hlen)
    as [E1 E2].
  rewrite E1, E2, Hw. simpl String.eqb. cbv iota.
  rewrite (trimStart_spaces _ _ Hs). simpl.
  now rewrite (digit_not_space d Hd), Hd.
Qed.

(** A label that matches the platoon pattern starts with PLATOON once
    squashed, which no support unit does. *)
Lemma platoonMatch_squash s d :
  platoonMatch s = Some d ->
  String.substring 0 7 (squash s) = "PLATOON".
Proof.
  unfold platoonMatch.
  destruct (toUpperCase (String.substring 0 7 s) =? "PLATOON")%string eqn:E;
    [|discriminate].
  apply String.eqb_eq in E. intros _.
  rewrite (substring_split 7 s) at 1.
  unfold squash, stripSpaces. rewrite filterString_append.
  fold (stripSpaces (String.substring 0 7 s)).
  rewrite (stripSpaces_upper (String.substring 0 7 s)) by (now rewrite E).
  unfold toUpperCase in *. rewrite mapString_append, E. simpl.
  now rewrite substring_0_0.
Qed.

Lemma support_not_platoon s d unit :
  platoonMatch s = Some d ->
  In unit supportUnits ->
  squash s = squash unit ->
  False.
Proof.
  intros Hm Hin E. apply platoonMatch_squash in Hm. rewrite E in Hm.
  simpl in Hin.
  repeat (destruct Hin as [<-|Hin]; [vm_compute in Hm; discriminate|]).
  exact Hin.
Qed.

Lemma support_find raw unit :
  In unit supportUnits ->
  squash raw = squash unit ->
  find (fun u => (squash raw =? squash u)%string) supportUnits = Some unit.
Proof.
  intros Hin E. rewrite E. simpl in Hin.
  repeat (destruct Hin as [<-|Hin]; [reflexivity|]).
  contradiction.
Qed.

Lemma strictHeader_nonempty raw u : strictHeader raw u -> raw <> "" /\ u <> "".
Proof.
  intros [word spaces d Hw Hs Hd|raw' unit Hin E].
  - split; [|discriminate].
    destruct word; [discriminate|]. discriminate.
  - split.
    + intros ->. simpl in Hin.
      repeat (destruct Hin as [<-|Hin]; [vm_compute in E; discriminate|]).
      exact Hin.
    + intros ->. simpl in Hin.
      repeat (destruct Hin as [Hin|Hin]; [discriminate|]).
      exact Hin.
Qed.

Lemma platoonHeaderOf_sound o u :
  platoonHeaderOf o = u -> u <> "" -> strictHeader (orEmpty o) u.
Proof.
  unfold platoonHeaderOf. destruct (nonEmpty o); [|congruence].
  destruct (platoonMatch (orEmpty o)) as [d|] eqn:Em.
  - intros <- _. now apply platoonMatch_sound.
  - destruct (find _ supportUnits) as [unit|] eqn:Ef; [|congruence].
    intros <- _. apply find_some in Ef as [Hin E].
    apply String.eqb_eq in E. now constructor.
Qed.

Lemma platoonHeaderOf_complete o u :
  strictHeader (orEmpty o) u -> platoonHeaderOf o = u.
Proof.
  intro H. pose proof (strictHeader_nonempty _ _ H) as [Hne _].
  unfold platoonHeaderOf.
  assert (Hn : nonEmpty o = true).
  { destruct o as [s|]; simpl in *; [|congruence].
    apply negb_true_iff. now apply String.eqb_neq. }
  rewrite Hn. clear Hn Hne.
  remember (orEmpty o) as raw eqn:Er. clear Er.
  destruct H as [word spaces d Hw Hs Hd|raw unit Hin E].
  - now rewrite (platoonMatch_complete _ _ _ Hw Hs Hd).
  - destruct (platoonMatch raw) as [d|] eqn:Em.
    + exfalso. eapply support_not_platoon; eauto.
    + now rewrite (support_find _ _ Hin E).
Qed.

(** C8: a row that is not blank is consumed as a section header, and sets
    the current platoon, exactly when its first cell is a header in the
    strict sense; a first cell that is no such header but contains
    PLATOON, COY or HQ gives a warning and the row is skipped; and no other
    row changes the current platoon. *)
Theorem section_header_is_strict :
  forall maps env i st row,
    isBlankRow row = false ->
    (forall u,
        strictHeader (orEmpty (text (at_ row 0))) u ->
        processRow maps env i st row
        = Ok {| personnelMap := personnelMap st;
                warnings := warnings st;
                currentPlatoon := u |})
    /\ ((forall u, ~ strictHeader (orEmpty (text (at_ row 0))) u) ->
        hasUnitKeyword (text (at_ row 0)) = true ->
        processRow maps env i st row
        = Ok {| personnelMap := personnelMap st;
                warnings := push (warnings st)
                  (ambiguousHeaderWarning i (orEmpty (text (at_ row 0))));
                currentPlatoon := currentPlatoon st |})
    /\ (forall st',
          processRow maps env i st row = Ok st' ->
          currentPlatoon st' <> currentPlatoon st ->
          strictHeader (orEmpty (text (at_ row 0))) (currentPlatoon st')).
Proof.
  intros maps env i st row Hnb. unfold processRow. rewrite Hnb.
  split; [|split].
  - intros u Hu. pose proof (strictHeader_nonempty _ _ Hu) as [_ Hne].
    rewrite (platoonHeaderOf_complete _ _ Hu).
    apply String.eqb_neq in Hne. now rewrite Hne.
  - intros Hno Hkw.
    destruct (platoonHeaderOf (text (at_ row 0)) =? "")%string eqn:E.
    + simpl. now rewrite Hkw.
    + exfalso. apply String.eqb_neq in E.
      exact (Hno _ (platoonHeaderOf_sound _ _ eq_refl E)).
  - intros st'.
    destruct (platoonHeaderOf (text (at_ row 0)) =? "")%string eqn:E; simpl.
    + repeat break_if; try (intros [= <-]; simpl; congruence).
      intro H. invert_bind H. injection H as <-. simpl. congruence.
    + intros [= <-] _. simpl. apply String.eqb_neq in E.
      now apply platoonHeaderOf_sound.
Qed.

(** C8 at the row whose first cell is PLATOON 2. *)
Lemma section_header_is_strict_witness :
  isBlankRow [Str "PLATOON 2"] = false
  /\ strictHeader "PLATOON 2" "Platoon 2"
  /\ processRow noDates (envWith 0) 4 initialState [Str "PLATOON 2"]
     = Ok {| personnelMap := []; warnings := []; currentPlatoon := "Platoon 2" |}.
Proof.
  assert (H : strictHeader "PLATOON 2" "Platoon 2")
    by (apply (header_platoon "PLATOON" " " "2"); reflexivity).
  split; [reflexivity|]. split; [exact H|].
  exact (proj1 (section_header_is_strict noDates (envWith 0) 4 initialState
                  [Str "PLATOON 2"] eq_refl) "Platoon 2" H).
Defined.

(** *** A sheet without data rows *)

Lemma forallb_skipn {A} (f : A -> bool) n l :
  forallb f l = true -> forallb f (skipn n l) = true.
Proof.
  revert l. induction n as [|n IH]; intros [|x l]; simpl; auto.
  intro H. apply andb_prop in H as [_ H]. auto.
Qed.

Lemma processRow_no_merge maps env i st row :
  lacksRankOrName row = true ->
  exists st',
    processRow maps env i st row = Ok st'
    /\ personnelMap st' = personnelMap st.
Proof.
  unfold lacksRankOrName, processRow. intro H.
  repeat break_if; try (eexists; split; [reflexivity|reflexivity]).
  congruence.
Qed.

Lemma processRows_no_merge maps env rows :
  forallb lacksRankOrName rows = true ->
  forall i st,
    exists st',
      processRows maps env i st rows = Ok st'
      /\ personnelMap st' = personnelMap st.
Proof.
  induction rows as [|row rows IH]; simpl; intros H i st.
  - eauto.
  - apply andb_prop in H as [Hrow H].
    destruct (processRow_no_merge maps env i st row Hrow) as [st1 [E1 M1]].
    destruct (IH H (S i) st1) as [st2 [E2 M2]].
    exists st2. rewrite E1. simpl. split; congruence.
Qed.

(** C5 (amended): when no row of the primary sheet has both a rank and a
    name, the ingestion succeeds with no records and no error; the rows
    that are not blank are only reported as warnings. *)
Theorem no_data_rows_no_records_no_error :
  forall (js : Engine) (env : Env) (wb : Workbook) (rawData : list (list cell)),
    findSheet "all in one view" wb = Some rawData ->
    forallb lacksRankOrName rawData = true ->
    Outcome.success (processExcelFile js env wb) = true
    /\ Outcome.data (processExcelFile js env wb) = []
    /\ Outcome.recordCount (processExcelFile js env wb) = 0%nat
    /\ Outcome.errors (processExcelFile js env wb) = [].
Proof.
  intros js env wb rawData Hsheet Hrows.
  unfold processExcelFile, processExcelFile_try. rewrite Hsheet.
  set (maps := match findSheet "voc" wb with
               | Some vocData => vocDates js vocData | None => noDates end).
  destruct (processRows_no_merge maps env (skipn (dataStartRow rawData) rawData)
              (forallb_skipn _ _ _ Hrows) (dataStartRow rawData) initialState)
    as [st [E M]].
  rewrite E. simpl. rewrite M. simpl. repeat split.
Qed.

(** The amended C5 at the sheet that holds a title row only. *)
Lemma no_data_rows_no_records_no_error_witness :
  Outcome.success (processExcelFile isoEngine (envWith 0) wbTitleOnly) = true
  /\ Outcome.data (processExcelFile isoEngine (envWith 0) wbTitleOnly) = []
  /\ Outcome.recordCount (processExcelFile isoEngine (envWith 0) wbTitleOnly) = 0%nat
  /\ Outcome.errors (processExcelFile isoEngine (envWith 0) wbTitleOnly) = [].
Proof.
  exact (no_data_rows_no_records_no_error isoEngine (envWith 0) wbTitleOnly
           [[Str "SOFUN TRACKER"]] eq_refl eq_refl).
Defined.

(** *** Two runs over the same workbook *)

Lemma content_baseRecord now key cat cp rank pes :
  content (baseRecord now key cat cp rank pes) = baseRecord 0 key cat cp rank pes.
Proof. reflexivity. Qed.

Lemma content_updateAdmin cp rank pes service cat p :
  content (updateAdmin cp rank pes service cat p)
  = updateAdmin cp rank pes service cat (content p).
Proof.
  unfold updateAdmin, content. destruct p. cbn.
  repeat (break_if; cbn in *); try reflexivity; congruence.
Qed.

Lemma content_joinDates maps key p :
  content (joinDates maps key p) = joinDates maps key (content p).
Proof.
  unfold joinDates, content. destruct p; simpl.
  repeat match goal with
         | |- context [match ?c with _ => _ end] =>
             match c with
             | context [match _ with _ => _ end] => fail 1
             | _ => destruct c eqn:?
             end
         end; simpl in *; try reflexivity; congruence.
Qed.

Lemma content_writeY1 prop set v p :
  fmap content (writeY1 prop set v p) = writeY1 prop set v (content p).
Proof. unfold writeY1. destruct (storable v), p as [? ? ? ? ? ? ? ? ? ? ? [?|] ? ? ? ?]; reflexivity. Qed.

Lemma content_writeY2 prop set v p :
  fmap content (writeY2 prop set v p) = writeY2 prop set v (content p).
Proof. unfold writeY2. destruct (storable v), p as [? ? ? ? ? ? ? ? ? ? ? ? [?|] ? ? ?]; reflexivity. Qed.

Lemma content_writeWorkYear prop set v p :
  fmap content (writeWorkYear prop set v p) = writeWorkYear prop set v (content p).
Proof. unfold writeWorkYear. destruct (storable v), p as [? ? ? ? ? ? ? ? ? ? ? ? ? [?|] ? ?]; reflexivity. Qed.

Lemma fmap_bind {A B A' B'} (f : A -> A') (g : B -> B')
      (r : result A) (k : A -> result B) (r' : result A') (k' : A' -> result B') :
  fmap f r = r' ->
  (forall a, fmap g (k a) = k' (f a)) ->
  fmap g (x <- r ;; k x) = (x <- r' ;; k' x).
Proof. intros <- Hk. destruct r; simpl; auto. Qed.

Lemma content_assignResults row p :
  fmap content (assignResults row p) = assignResults row (content p).
Proof.
  unfold assignResults.
  replace (Person.category (content p)) with (Person.category p) by reflexivity.
  destruct (Person.category p);
    repeat (apply fmap_bind with (f := content);
            [first [apply content_writeY1 | apply content_writeY2
                   | apply content_writeWorkYear]
            | intro ]);
    first [apply content_writeY2 | apply content_writeWorkYear].
Qed.

Lemma contentMap_get k m :
  SMap.get k (contentMap m) = option_map content (SMap.get k m).
Proof.
  induction m as [|[k' v] m IH]; simpl; [reflexivity|].
  destruct (k' =? k)%string; auto.
Qed.

Lemma contentMap_set k p m :
  SMap.set k (content p) (contentMap m) = contentMap (SMap.set k p m).
Proof.
  induction m as [|[k' v] m IH]; simpl; [reflexivity|].
  destruct (k' =? k)%string; simpl; congruence.
Qed.

Lemma contentMap_values m :
  SMap.values (contentMap m) = map content (SMap.values m).
Proof.
  unfold SMap.values, contentMap. rewrite !map_map. reflexivity.
Qed.

(** A merge commutes with the erasure of the time stamps. *)
Lemma content_mergeRow maps now cp rank name row pm :
  fmap contentMap (mergeRow maps now cp rank name row pm)
  = mergeRow maps 0 cp rank name row (contentMap pm).
Proof.
  unfold mergeRow. rewrite contentMap_get.
  apply fmap_bind with (f := content).
  - rewrite content_assignResults, content_joinDates, content_updateAdmin.
    destruct (SMap.get (sanitizePersonnelName name) pm); reflexivity.
  - intro a. simpl. now rewrite contentMap_set.
Qed.

Lemma content_processRow maps env i st row :
  fmap contentState (processRow maps env i st row)
  = processRow maps zeroEnv i (contentState st) row.
Proof.
  unfold processRow. repeat break_if; try reflexivity.
  simpl rowClock.
  apply fmap_bind with (f := contentMap); [apply content_mergeRow|].
  reflexivity.
Qed.

Lemma content_processRows maps env rows :
  forall i st,
    fmap contentState (processRows maps env i st rows)
    = processRows maps zeroEnv i (contentState st) rows.
Proof.
  induction rows as [|row rows IH]; intros i st; simpl; [reflexivity|].
  apply fmap_bind with (f := contentState); [apply content_processRow|].
  intro a. apply IH.
Qed.

(** The post-pass commutes with the erasure too. *)
Lemma content_validate js env j p w :
  validateAndCleanPersonnelRecord js env j (content p) w
  = (content (fst (validateAndCleanPersonnelRecord js env j p w)),
     snd (validateAndCleanPersonnelRecord js env j p w)).
Proof.
  unfold validateAndCleanPersonnelRecord. simp_person.
  destruct (isValidPlatoon (Person.platoon p)); simp_person;
    destruct (arrayIncludes MEDICAL_STATUS_OPTIONS (Person.medicalStatus p));
    simp_person;
    destruct (datevalTruthy (Person.ordDate p)
              && isNull (validateDateInput js (postClock env j)
                           (Person.ordDate p) true));
    simp_person; reflexivity.
Qed.

Lemma content_postPass js env ps :
  forall j w,
    postPass js env j (map content ps) w
    = (map content (fst (postPass js env j ps w)), snd (postPass js env j ps w)).
Proof.
  induction ps as [|p ps IH]; intros j w; simpl; [reflexivity|].
  rewrite content_validate.
  destruct (validateAndCleanPersonnelRecord js env j p w) as [p' w']. simpl.
  rewrite IH.
  destruct (postPass js env (S j) ps w') as [ps' w'']. reflexivity.
Qed.

(** The post-pass reads the environment for a record only when the ORD
    date of the record fails the check. *)
Lemma validate_env js envA envB j p w :
  ordDateValid (Person.ordDate p) = true ->
  validateAndCleanPersonnelRecord js envA j p w
  = validateAndCleanPersonnelRecord js envB j p w.
Proof.
  unfold validateAndCleanPersonnelRecord, ordDateValid. intro H.
  assert (E : forall now,
             datevalTruthy (Person.ordDate p)
             && isNull (validateDateInput js now (Person.ordDate p) true) = false).
  { intro now. destruct (Person.ordDate p) as [|t|s]; try discriminate.
    - reflexivity.
    - unfold validateDateInput. simpl.
      destruct (t <? minDate) eqn:Et; [|reflexivity].
      apply Z.ltb_lt in Et. apply Z.leb_le in H. lia. }
  destruct (isValidPlatoon (Person.platoon p)); simp_person;
    destruct (arrayIncludes MEDICAL_STATUS_OPTIONS (Person.medicalStatus p));
    simp_person; rewrite !E; reflexivity.
Qed.

Lemma postPass_env js envA envB ps :
  Forall (fun p => ordDateValid (Person.ordDate p) = true) ps ->
  forall j w, postPass js envA j ps w = postPass js envB j ps w.
Proof.
  induction 1 as [|p ps Hp Hps IH]; intros j w; simpl; [reflexivity|].
  rewrite (validate_env js envA envB j p w Hp).
  destruct (validateAndCleanPersonnelRecord js envB j p w) as [p' w'].
  now rewrite IH.
Qed.

(** With valid ORD dates in the lookup, every record of the loop has a
    valid ORD date. *)
Lemma ordDates_valid_in_loop maps env rows i st :
  forallb ordDateOk (SMap.values (ordDateMap maps)) = true ->
  processRows maps env i initialState rows = Ok st ->
  Forall (fun p => ordDateValid (Person.ordDate p) = true)
         (SMap.values (personnelMap st)).
Proof.
  intros Hok H.
  eapply (processRows_invariant
            (fun pm => Forall (fun p => ordDateValid (Person.ordDate p) = true)
                              (SMap.values pm)) maps);
    [| |exact H]; [|constructor].
  apply mergeRow_Forall.
  - reflexivity.
  - intros cp rank pes service cat p Hp.
    destruct (updateAdmin_rest cp rank pes service cat p) as (_ & _ & _ & -> & _).
    exact Hp.
  - intros key p Hp. unfold joinDates.
    destruct (Person.category p); [|exact Hp].
    assert (Hord : ordDateValid
                     (Person.ordDate
                        match SMap.get key (ordDateMap maps) with
                        | Some d => Person.set_ordDate (ofParsed d) p
                        | None => p
                        end) = true).
    { destruct (SMap.get key (ordDateMap maps)) as [d|] eqn:Eg; [|exact Hp].
      apply get_In in Eg. rewrite forallb_forall in Hok.
      specialize (Hok _ Eg). destruct d; exact Hok. }
    destruct (SMap.get key (ordDateMap maps));
      destruct (SMap.get key (y1WindowMap maps));
      destruct (SMap.get key (y2WindowMap maps));
      try break_if; exact Hord.
  - intros row p p' Hp Ha. apply assignResults_admin in Ha.
    unfold adminOf in Ha. injection Ha as _ _ _ _ _ _ _ E _ _ _ _ _.
    now rewrite E.
Qed.

Lemma fmap_Ok_inv {A B} (f : A -> B) (r : result A) (b : B) :
  fmap f r = Ok b -> exists a, r = Ok a /\ f a = b.
Proof. destruct r; simpl; [intros [= <-]; eauto|discriminate]. Qed.

Lemma fmap_Throw_inv {A B} (f : A -> B) (r : result A) (e : exn) :
  fmap f r = Throw e -> r = Throw e.
Proof. destruct r; simpl; [discriminate|congruence]. Qed.

(** C9 (amended): the clock and the random source are inputs of the
    ingestion.  Two runs over the same workbook return the same records up
    to the time stamp lastUpdated, and the same warnings and errors,
    provided every ORD date read from the VOC sheet passes the validity
    check; an NSF record whose ORD date fails it receives a date drawn at
    random, which need not be the same in the two runs. *)
Theorem reingestion_same_content :
  forall (js : Engine) (envA envB : Env) (wb : Workbook),
    forallb ordDateOk (SMap.values (ordDateMap (datesOf js wb))) = true ->
    map content (Outcome.data (processExcelFile js envA wb))
    = map content (Outcome.data (processExcelFile js envB wb))
    /\ Outcome.success (processExcelFile js envA wb)
       = Outcome.success (processExcelFile js envB wb)
    /\ Outcome.recordCount (processExcelFile js envA wb)
       = Outcome.recordCount (processExcelFile js envB wb)
    /\ Outcome.errors (processExcelFile js envA wb)
       = Outcome.errors (processExcelFile js envB wb)
    /\ Outcome.warnings (processExcelFile js envA wb)
       = Outcome.warnings (processExcelFile js envB wb).
Proof.
  intros js envA envB wb Hok.
  unfold processExcelFile, processExcelFile_try.
  destruct (findSheet "all in one view" wb) as [rawData|]; [|repeat split].
  fold (datesOf js wb). set (maps := datesOf js wb) in *.
  set (start := dataStartRow rawData). set (rows := skipn start rawData).
  pose proof (content_processRows maps envA rows start initialState) as HA.
  pose proof (content_processRows maps envB rows start initialState) as HB.
  destruct (processRows maps envA start initialState rows) as [stA|eA] eqn:EA.
  - simpl in HA. rewrite <- HA in HB.
    apply fmap_Ok_inv in HB as [stB [EB Hst]]. rewrite EB. simpl.
    assert (Hmap : map content (SMap.values (personnelMap stA))
                   = map content (SMap.values (personnelMap stB))).
    { rewrite <- !contentMap_values. now injection Hst as -> _ _. }
    assert (Hw : warnings stA = warnings stB) by (now injection Hst as _ -> _).
    pose proof (ordDates_valid_in_loop maps envB rows start stB Hok EB) as HvB.
    assert (HvB' : Forall (fun p => ordDateValid (Person.ordDate p) = true)
                          (map content (SMap.values (personnelMap stB)))).
    { rewrite Forall_forall in *. intros x Hx.
      apply in_map_iff in Hx as [y [<- Hy]]. exact (HvB y Hy). }
    assert (Hpair :
              (map content
                 (fst (postPass js envA 0 (SMap.values (personnelMap stA))
                         (warnings stA))),
               snd (postPass js envA 0 (SMap.values (personnelMap stA))
                      (warnings stA)))
              = (map content
                   (fst (postPass js envB 0 (SMap.values (personnelMap stB))
                           (warnings stB))),
                 snd (postPass js envB 0 (SMap.values (personnelMap stB))
                        (warnings stB)))).
    { rewrite <- !content_postPass. rewrite Hmap, Hw.
      apply postPass_env. exact HvB'. }
    destruct (postPass js envA 0 (SMap.values (personnelMap stA)) (warnings stA))
      as [psA wA].
    destruct (postPass js envB 0 (SMap.values (personnelMap stB)) (warnings stB))
      as [psB wB].
    simpl in *. injection Hpair as Hps Hws.
    split; [exact Hps|]. split; [reflexivity|].
    split; [|split; [reflexivity|exact Hws]].
    rewrite <- (length_map content psA), <- (length_map content psB).
    now rewrite Hps.
  - simpl in HA. rewrite <- HA in HB. apply fmap_Throw_inv in HB.
    rewrite HB. repeat split.
Qed.

(** The amended C9 at a workbook whose VOC sheet gives a valid ORD date,
    for two runs with different draws. *)
Lemma reingestion_same_content_witness :
  forallb ordDateOk (SMap.values (ordDateMap (datesOf isoEngine wbGoodOrd))) = true
  /\ map content (Outcome.data (processExcelFile isoEngine (envWith 0) wbGoodOrd))
     = map content (Outcome.data (processExcelFile isoEngine (envWith (1 # 2)) wbGoodOrd)).
Proof.
  split; [reflexivity|].
  exact (proj1 (reingestion_same_content isoEngine (envWith 0) (envWith (1 # 2))
                  wbGoodOrd eq_refl)).
Defined.

(** *** The exceptions of the ingestion *)

Lemma bind_Throw {A B} (r : result A) (k : A -> result B) (e : exn) :
  (x <- r ;; k x) = Throw e -> r = Throw e \/ exists a, r = Ok a /\ k a = Throw e.
Proof. destruct r; simpl; [eauto|intros [= ->]; now left]. Qed.

Lemma writeY1_Throw prop set v p e :
  writeY1 prop set v p = Throw e -> e = TypeError prop.
Proof.
  unfold writeY1. destruct (storable v); [|discriminate].
  destruct (Person.y1 p); [discriminate|congruence].
Qed.

Lemma writeY2_Throw prop set v p e :
  writeY2 prop set v p = Throw e -> e = TypeError prop.
Proof.
  unfold writeY2. destruct (storable v); [|discriminate].
  destruct (Person.y2 p); [discriminate|congruence].
Qed.

Lemma writeWorkYear_Throw prop set v p e :
  writeWorkYear prop set v p = Throw e -> e = TypeError prop.
Proof.
  unfold writeWorkYear. destruct (storable v); [|discriminate].
  destruct (Person.workYear p); [discriminate|congruence].
Qed.

Lemma assignResults_Throw row p e :
  assignResults row p = Throw e -> exists prop, e = TypeError prop.
Proof.
  unfold assignResults. intro H.
  destruct (Person.category p);
    repeat (apply bind_Throw in H as [H|[? [_ H]]];
            [first [apply writeY1_Throw in H | apply writeY2_Throw in H
                   | apply writeWorkYear_Throw in H]; eauto|]);
    first [apply writeY1_Throw in H | apply writeY2_Throw in H
          | apply writeWorkYear_Throw in H]; eauto.
Qed.

Lemma processRows_Throw maps env rows :
  forall i st e,
    processRows maps env i st rows = Throw e -> exists prop, e = TypeError prop.
Proof.
  induction rows as [|row rows IH]; simpl; intros i st e H; [discriminate|].
  apply bind_Throw in H as [H|[st1 [_ H]]]; [|eauto].
  unfold processRow in H. repeat break_if_in H; try discriminate.
  apply bind_Throw in H as [H|[? [_ H]]]; [|discriminate].
  unfold mergeRow in H.
  apply bind_Throw in H as [H|[? [_ H]]]; [|discriminate].
  eapply assignResults_Throw; eauto.
Qed.

(** The ingestion fails for two reasons only: the primary sheet is not
    found, or a result is written through a block that the record lacks. *)
Lemma processExcelFile_try_exceptions js env wb e :
  processExcelFile_try js env wb = Throw e ->
  (findSheet "all in one view" wb = None /\ e = Error missingSheetMessage)
  \/ (exists prop, e = TypeError prop).
Proof.
  unfold processExcelFile_try.
  destruct (findSheet "all in one view" wb) as [rawData|].
  - intro H. right.
    apply bind_Throw in H as [H|[st [_ H]]].
    + eapply processRows_Throw; eauto.
    + destruct (postPass _ _ _ _ _); discriminate.
  - intros [= <-]. now left.
Qed.

(* ================================================================= *)
(** ** Further properties of the code *)

(** *** The result of the ingestion, opened *)

Lemma processExcelFile_cases js env wb :
  (findSheet "all in one view" wb = None
   /\ processExcelFile js env wb
      = Outcome.mk false [] 0 [missingSheetMessage] [])
  \/ (exists rawData e,
        findSheet "all in one view" wb = Some rawData
        /\ processRows (datesOf js wb) env (dataStartRow rawData) initialState
             (skipn (dataStartRow rawData) rawData) = Throw e
        /\ processExcelFile js env wb = Outcome.mk false [] 0 [message e] [])
  \/ (exists rawData st,
        findSheet "all in one view" wb = Some rawData
        /\ processRows (datesOf js wb) env (dataStartRow rawData) initialState
             (skipn (dataStartRow rawData) rawData) = Ok st
        /\ processExcelFile js env wb
           = Outcome.mk true
               (fst (postPass js env 0 (SMap.values (personnelMap st)) (warnings st)))
               (length (fst (postPass js env 0 (SMap.values (personnelMap st))
                               (warnings st))))
               []
               (snd (postPass js env 0 (SMap.values (personnelMap st)) (warnings st)))).
Proof.
  unfold processExcelFile, processExcelFile_try.
  destruct (findSheet "all in one view" wb) as [rawData|]; [|now left].
  right. fold (datesOf js wb).
  destruct (processRows (datesOf js wb) env (dataStartRow rawData) initialState
              (skipn (dataStartRow rawData) rawData)) as [st|e] eqn:E; simpl.
  - right. exists rawData, st. split; [reflexivity|]. split; [exact E|].
    destruct (postPass js env 0 (SMap.values (personnelMap st)) (warnings st)).
    reflexivity.
  - left. exists rawData, e. auto.
Qed.

Lemma validate_name js env j p w :
  Person.name (fst (validateAndCleanPersonnelRecord js env j p w)) = Person.name p.
Proof. unfold validateAndCleanPersonnelRecord. repeat break_if; reflexivity. Qed.

Lemma postPass_names js env ps :
  forall j w,
    map Person.name (fst (postPass js env j ps w)) = map Person.name ps.
Proof.
  induction ps as [|p ps IH]; intros j w; simpl; [reflexivity|].
  pose proof (validate_name js env j p w) as Hn.
  destruct (validateAndCleanPersonnelRecord js env j p w) as [p' w'].
  specialize (IH (S j) w').
  destruct (postPass js env (S j) ps w') as [ps' w'']. simpl in *. congruence.
Qed.

(** *** Names are keys *)

Lemma get_In_pair {V} k (v : V) m : SMap.get k m = Some v -> In (k, v) m.
Proof.
  induction m as [|[k' v'] m IH]; simpl; [discriminate|].
  destruct (k' =? k)%string eqn:E.
  - apply String.eqb_eq in E. intros [= ->]. left. now subst.
  - auto.
Qed.

Lemma set_In {V} k (v : V) m e :
  In e (SMap.set k v m) -> e = (k, v) \/ In e m.
Proof.
  induction m as [|[k' v'] m IH]; simpl.
  - intros [<-|[]]. now left.
  - destruct (k' =? k)%string; simpl.
    + intros [<-|H]; [now left|right; now right].
    + intros [<-|H]; [right; now left|].
      destruct (IH H); [now left|right; now right].
Qed.

Lemma set_keys {V} k (v : V) m :
  keysOf (SMap.set k v m) = keysOf m
  \/ (~ In k (keysOf m) /\ keysOf (SMap.set k v m) = (keysOf m ++ [k])%list).
Proof.
  unfold keysOf. induction m as [|[k' v'] m IH]; simpl.
  - right. split; [tauto|reflexivity].
  - destruct (k' =? k)%string eqn:E; simpl.
    + apply String.eqb_eq in E. subst. now left.
    + apply String.eqb_neq in E.
      destruct IH as [->|[Hn ->]]; [now left|].
      right. split; [|reflexivity]. intros [H|H]; auto.
Qed.

Lemma NoDup_snoc {A} (l : list A) x : NoDup l -> ~ In x l -> NoDup (l ++ [x]).
Proof.
  induction 1 as [|y l Hy Hl IH]; simpl; intro Hx.
  - constructor; [tauto|constructor].
  - constructor.
    + rewrite in_app_iff. simpl. intros [H|[H|[]]]; [auto|subst; tauto].
    + apply IH. tauto.
Qed.

Lemma mergeRow_name maps now cp rank name row pm pm' :
  wellKeyed pm ->
  mergeRow maps now cp rank name row pm = Ok pm' ->
  exists p',
    pm' = SMap.set (sanitizePersonnelName name) p' pm
    /\ Person.name p' = sanitizePersonnelName name.
Proof.
  intros [_ Hk] H. apply mergeRow_Ok in H as [p' [Hp' ->]].
  exists p'. split; [reflexivity|].
  apply assignResults_admin in Hp'. unfold adminOf in Hp'.
  injection Hp' as -> _ _ _ _ _ _ _ _ _ _ _ _.
  destruct (joinDates_rest maps (sanitizePersonnelName name)
              (updateAdmin cp rank (text (at_ row 3)) (text (at_ row 4))
                 (categoryOf (text (at_ row 4)))
                 match SMap.get (sanitizePersonnelName name) pm with
                 | Some person => person
                 | None => baseRecord now (sanitizePersonnelName name)
                             (categoryOf (text (at_ row 4))) cp rank
                             (text (at_ row 3))
                 end)) as (-> & _).
  destruct (updateAdmin_rest cp rank (text (at_ row 3)) (text (at_ row 4))
              (categoryOf (text (at_ row 4)))
              match SMap.get (sanitizePersonnelName name) pm with
              | Some person => person
              | None => baseRecord now (sanitizePersonnelName name)
                          (categoryOf (text (at_ row 4))) cp rank
                          (text (at_ row 3))
              end) as (-> & _).
  destruct (SMap.get (sanitizePersonnelName name) pm) as [p0|] eqn:Eg; [|reflexivity].
  apply get_In_pair in Eg. rewrite Forall_forall in Hk.
  exact (Hk _ Eg).
Qed.

Lemma mergeRow_wellKeyed maps now cp rank name row pm pm' :
  wellKeyed pm ->
  mergeRow maps now cp rank name row pm = Ok pm' ->
  wellKeyed pm'.
Proof.
  intros Hw H. destruct (mergeRow_name _ _ _ _ _ _ _ _ Hw H) as [p' [-> Hn]].
  destruct Hw as [Hnd Hk]. split.
  - destruct (set_keys (sanitizePersonnelName name) p' pm) as [->|[Hnot ->]];
      [exact Hnd|now apply NoDup_snoc].
  - rewrite Forall_forall in *. intros e He.
    apply set_In in He as [->|He]; [exact Hn|auto].
Qed.

Lemma wellKeyed_names pm :
  wellKeyed pm -> map Person.name (SMap.values pm) = keysOf pm.
Proof.
  intros [_ Hk]. unfold SMap.values, keysOf. rewrite map_map.
  apply map_ext_in. rewrite Forall_forall in Hk. exact Hk.
Qed.

Lemma loop_wellKeyed maps env rows i st :
  processRows maps env i initialState rows = Ok st -> wellKeyed (personnelMap st).
Proof.
  intro H.
  eapply (processRows_invariant wellKeyed maps); [| |exact H].
  - intros. eapply mergeRow_wellKeyed; eauto.
  - split; constructor.
Qed.

(** X1: no two records that the ingestion returns have the same name. *)
Theorem returned_names_are_unique :
  forall (js : Engine) (env : Env) (wb : Workbook),
    NoDup (map Person.name (Outcome.data (processExcelFile js env wb))).
Proof.
  intros js env wb.
  destruct (processExcelFile_cases js env wb)
    as [[_ ->]|[(rawData & e & _ & _ & ->)|(rawData & st & _ & Hrows & ->)]];
    simpl; try constructor.
  rewrite postPass_names.
  pose proof (loop_wellKeyed _ _ _ _ _ Hrows) as Hw.
  rewrite (wellKeyed_names _ Hw). exact (proj1 Hw).
Qed.

(** *** Where records come from *)

Lemma processRow_keys maps env i st row st' :
  processRow maps env i st row = Ok st' ->
  forall k,
    In k (keysOf (personnelMap st')) ->
    In k (keysOf (personnelMap st))
    \/ (hasRankAndName row = true /\ k = rowKey row).
Proof.
  unfold processRow. intros H k Hk.
  repeat break_if_in H; try (injection H as <-; now left).
  invert_bind H. injection H as <-. simpl in Hk.
  unfold mergeRow in Ha. invert_bind Ha. injection Ha as <-.
  match goal with
  | H : (negb _ || negb _)%bool = false |- _ =>
      apply orb_false_elim in H as [H1 H2];
      apply negb_false_iff in H1, H2
  end.
  destruct (set_keys (sanitizePersonnelName (orEmpty (text (at_ row 2)))) a0
              (personnelMap st)) as [E|[_ E]]; rewrite E in Hk.
  - now left.
  - apply in_app_iff in Hk as [Hk|[<-|[]]]; [now left|].
    right. unfold hasRankAndName, rowKey. now rewrite H1, H2.
Qed.

Lemma processRows_keys maps env rows :
  forall i st st',
    processRows maps env i st rows = Ok st' ->
    forall k,
      In k (keysOf (personnelMap st')) ->
      In k (keysOf (personnelMap st))
      \/ (exists row, In row rows /\ hasRankAndName row = true /\ k = rowKey row).
Proof.
  induction rows as [|row rows IH]; simpl; intros i st st' H k Hk.
  - injection H as <-. now left.
  - invert_bind H.
    destruct (IH _ _ _ H k Hk) as [Hin|(r & Hr & Hd & ->)].
    + destruct (processRow_keys _ _ _ _ _ _ Ha k Hin) as [Hin'|[Hd ->]];
        [now left|].
      right. exists row. auto.
    + right. exists r. auto.
Qed.

Lemma In_skipn {A} (x : A) n l : In x (skipn n l) -> In x l.
Proof.
  revert l. induction n as [|n IH]; intros [|y l]; simpl; auto.
Qed.

Lemma records_from_data_rows js env wb p :
  In p (Outcome.data (processExcelFile js env wb)) ->
  exists rawData row,
    findSheet "all in one view" wb = Some rawData
    /\ In row (skipn (dataStartRow rawData) rawData)
    /\ hasRankAndName row = true
    /\ Person.name p = rowKey row.
Proof.
  intro Hp.
  destruct (processExcelFile_cases js env wb)
    as [[_ E]|[(rawData & e & _ & _ & E)|(rawData & st & Hs & Hrows & E)]];
    rewrite E in Hp; simpl in Hp; try contradiction.
  apply (in_map Person.name) in Hp. rewrite postPass_names in Hp.
  pose proof (loop_wellKeyed _ _ _ _ _ Hrows) as Hw.
  rewrite (wellKeyed_names _ Hw) in Hp.
  destruct (processRows_keys _ _ _ _ _ _ Hrows _ Hp) as [[]|(row & Hr & Hd & Hk)].
  exists rawData, row. repeat split; auto.
Qed.

(** X2: the ingestion invents no record.  Every record returned carries the
    sanitized name of a row of the primary sheet that has a rank and a
    name; the VOC sheet adds dates to records and never a record. *)
Theorem records_come_from_rows :
  forall (js : Engine) (env : Env) (wb : Workbook) (p : Person.t),
    In p (Outcome.data (processExcelFile js env wb)) ->
    exists rawData row,
      findSheet "all in one view" wb = Some rawData
      /\ In row rawData
      /\ hasRankAndName row = true
      /\ Person.name p = rowKey row.
Proof.
  intros js env wb p Hp.
  destruct (records_from_data_rows js env wb p Hp)
    as (rawData & row & Hs & Hr & Hd & Hk).
  exists rawData, row. repeat split; auto. eapply In_skipn; eauto.
Qed.

Lemma records_come_from_rows_witness :
  exists rawData row,
    findSheet "all in one view" wbOneBare = Some rawData
    /\ In row rawData
    /\ hasRankAndName row = true
    /\ "TAN WEI" = rowKey row.
Proof.
  exact (records_come_from_rows isoEngine (envWith 0) wbOneBare
           (Person.set_platoon "Platoon 1"
              (baseRecord 1763078400000 "TAN WEI" NSF "" "SGT" (Some "A1")))
           (or_introl eq_refl)).
Defined.

(** *** sanitizePersonnelName *)

Lemma upperChar_idem c : upperChar (upperChar c) = upperChar c.
Proof. destruct c as [[] [] [] [] [] [] [] []]; reflexivity. Qed.

Lemma upperChar_markup c : isMarkupChar (upperChar c) = isMarkupChar c.
Proof. destruct c as [[] [] [] [] [] [] [] []]; reflexivity. Qed.

Lemma toUpperCase_idem s : toUpperCase (toUpperCase s) = toUpperCase s.
Proof.
  unfold toUpperCase. induction s as [|c s IH]; simpl; [reflexivity|].
  now rewrite upperChar_idem, IH.
Qed.

Lemma filterString_chars f s c :
  In c (list_ascii_of_string (filterString f s)) -> f c = true.
Proof.
  induction s as [|a s IH]; simpl; [tauto|].
  destruct (f a) eqn:E; simpl; [|exact IH].
  intros [<-|H]; auto.
Qed.

Lemma substring0_chars n s c :
  In c (list_ascii_of_string (String.substring 0 n s)) ->
  In c (list_ascii_of_string s).
Proof.
  revert s. induction n as [|n IH]; intros [|a s]; simpl; try tauto.
  intros [<-|H]; [now left|right; auto].
Qed.

Lemma substring0_length n s : (String.length (String.substring 0 n s) <= n)%nat.
Proof.
  revert s. induction n as [|n IH]; intros [|a s]; simpl; try lia.
  specialize (IH s). lia.
Qed.

Lemma mapString_chars f s c :
  In c (list_ascii_of_string (mapString f s)) ->
  exists a, In a (list_ascii_of_string s) /\ c = f a.
Proof.
  induction s as [|a s IH]; simpl; [tauto|].
  intros [<-|H]; [eauto|]. destruct (IH H) as [b [Hb ->]]. eauto.
Qed.

Lemma upperChar_ascii c : isAsciiChar (upperChar c) = isAsciiChar c.
Proof. destruct c as [[] [] [] [] [] [] [] []]; reflexivity. Qed.

Lemma trimStart_chars s c :
  In c (list_ascii_of_string (trimStart s)) -> In c (list_ascii_of_string s).
Proof.
  induction s as [|a s IH]; simpl; [tauto|].
  destruct (isWhiteSpace a); simpl; auto.
Qed.

Lemma trimEnd_chars s c :
  In c (list_ascii_of_string (trimEnd s)) -> In c (list_ascii_of_string s).
Proof.
  induction s as [|a s IH]; simpl; [tauto|].
  destruct (trimEnd s) as [|b r].
  - destruct (isWhiteSpace a); simpl; tauto.
  - simpl. intros [<-|H]; [now left|right; apply IH; exact H].
Qed.

Lemma filterString_sub f s c :
  In c (list_ascii_of_string (filterString f s)) -> In c (list_ascii_of_string s).
Proof.
  induction s as [|a s IH]; simpl; [tauto|].
  destruct (f a); simpl; [intros [<-|H]; auto|auto].
Qed.

(** X3: for a name of ASCII characters, the sanitized name holds none of
    the characters <, >, double quote and single quote, has at most 100
    characters, is in upper case, and is ASCII text again. *)
Theorem sanitized_name_is_safe :
  forall name : string,
    asciiText name ->
    (forall c, In c (list_ascii_of_string (sanitizePersonnelName name)) ->
               isMarkupChar c = false)
    /\ (String.length (sanitizePersonnelName name) <= 100)%nat
    /\ toUpperCase (sanitizePersonnelName name) = sanitizePersonnelName name
    /\ asciiText (sanitizePersonnelName name).
Proof.
  intros name Hascii. unfold sanitizePersonnelName.
  destruct (name =? "")%string.
  - split; [intros c []|split; [simpl; lia|split; reflexivity]].
  - split; [|split; [|split]].
    + intros c Hc. apply mapString_chars in Hc as [a [Ha ->]].
      rewrite upperChar_markup.
      apply substring0_chars, filterString_chars in Ha.
      unfold isMarkupChar. now apply negb_true_iff in Ha.
    + unfold toUpperCase. rewrite mapString_length. apply substring0_length.
    + apply toUpperCase_idem.
    + unfold asciiText in *. apply forallb_forall. intros c Hc.
      apply mapString_chars in Hc as [a [Ha ->]]. rewrite upperChar_ascii.
      apply substring0_chars, filterString_sub in Ha. unfold trim in Ha.
      apply trimEnd_chars, trimStart_chars in Ha.
      rewrite forallb_forall in Hascii. now apply Hascii.
Qed.

Lemma sanitized_name_is_safe_witness :
  (String.length (sanitizePersonnelName " tan <wei> ") <= 100)%nat
  /\ toUpperCase (sanitizePersonnelName " tan <wei> ")
     = sanitizePersonnelName " tan <wei> "
  /\ asciiText (sanitizePersonnelName " tan <wei> ").
Proof.
  exact (proj2 (sanitized_name_is_safe " tan <wei> " eq_refl)).
Defined.

(** *** validatePlatoon, applied twice *)

(** X4: validatePlatoon is idempotent and never returns the empty string;
    its result is a valid platoon or Unassigned. *)
Theorem validatePlatoon_idempotent :
  forall platoon : string,
    validatePlatoon (validatePlatoon platoon) = validatePlatoon platoon
    /\ validatePlatoon platoon <> ""
    /\ (isValidPlatoon (validatePlatoon platoon) = true
        \/ validatePlatoon platoon = "Unassigned").
Proof.
  intro platoon.
  pose proof (validatePlatoon_in_list platoon) as H.
  unfold validPlatoons in H. simpl in H.
  repeat (destruct H as [<-|H];
          [split; [reflexivity|split; [discriminate|]];
           first [left; reflexivity | right; reflexivity]|]).
  contradiction.
Qed.

(** *** ORD dates after the post-pass *)

Lemma validate_ordDate js env j p w :
  ordDateRaw p ->
  ordDateChecked (fst (validateAndCleanPersonnelRecord js env j p w)).
Proof.
  unfold ordDateRaw, ordDateChecked, validateAndCleanPersonnelRecord.
  intro Hraw.
  destruct (isValidPlatoon (Person.platoon p)); simp_person;
    destruct (arrayIncludes MEDICAL_STATUS_OPTIONS (Person.medicalStatus p));
    simp_person;
    (destruct (Person.ordDate p) as [|t|s] eqn:Eo; [| |contradiction];
     [ simpl; simp_person; now rewrite Eo
     | unfold validateDateInput; simpl;
       destruct (t <? minDate) eqn:Et; simpl; simp_person;
       [ destruct (Person.category p); simpl; trivial
       | rewrite Eo; apply Z.ltb_ge in Et; exact Et ] ]).
Qed.

Lemma mergeRow_ordDateRaw maps now cp rank name row pm pm' :
  Forall ordDateRaw (SMap.values pm) ->
  mergeRow maps now cp rank name row pm = Ok pm' ->
  Forall ordDateRaw (SMap.values pm').
Proof.
  revert now cp rank name row pm pm'. apply mergeRow_Forall.
  - intros. exact I.
  - intros cp rank pes service cat p Hp. unfold ordDateRaw.
    destruct (updateAdmin_rest cp rank pes service cat p) as (_ & _ & _ & -> & _).
    exact Hp.
  - intros key p Hp. unfold ordDateRaw, joinDates in *.
    destruct (Person.category p); [|exact Hp].
    destruct (SMap.get key (ordDateMap maps)) as [[?|]|];
      destruct (SMap.get key (y1WindowMap maps));
      destruct (SMap.get key (y2WindowMap maps));
      try break_if; simpl; trivial.
  - intros row p p' Hp Ha. apply assignResults_admin in Ha.
    unfold adminOf in Ha. injection Ha as _ _ _ _ _ _ _ E _ _ _ _ _.
    unfold ordDateRaw. now rewrite E.
Qed.

(** X5: after the ingestion no record carries an ORD date before
    2020-01-01: the ORD date is null, or a Date on or after that day, or,
    for an NSF record only, the string that replaced a rejected date. *)
Theorem ordDate_is_checked :
  forall (js : Engine) (env : Env) (wb : Workbook),
    Forall ordDateChecked (Outcome.data (processExcelFile js env wb)).
Proof.
  apply (processExcelFile_Forall ordDateRaw ordDateChecked).
  - intro maps. apply mergeRow_ordDateRaw.
  - intros. now apply validate_ordDate.
Qed.

(** *** Rows above the first data row *)

Lemma firstIndex_skip (f : list cell -> bool) pre l i :
  forallb (fun r => negb (f r)) pre = true ->
  firstIndex f (pre ++ l)%list i = firstIndex f l (i + length pre).
Proof.
  revert i. induction pre as [|r pre IH]; simpl; intros i H.
  - now rewrite Nat.add_0_r.
  - apply andb_prop in H as [Hr H]. apply negb_true_iff in Hr. rewrite Hr.
    rewrite IH by exact H. f_equal. lia.
Qed.

Lemma dataStartRow_prefix pre r rest :
  (length pre < 10)%nat ->
  forallb (fun r => negb (looksLikeData r)) pre = true ->
  looksLikeData r = true ->
  dataStartRow (pre ++ r :: rest)%list = length pre.
Proof.
  intros Hlen Hpre Hr. unfold dataStartRow.
  rewrite firstn_app.
  rewrite (firstn_all2 (n := 10) pre) by lia.
  destruct (10 - length pre)%nat as [|k] eqn:Ek; [lia|].
  simpl firstn. rewrite firstIndex_skip by exact Hpre.
  simpl. now rewrite Hr.
Qed.

Lemma skipn_prefix {A} (pre l : list A) : skipn (length pre) (pre ++ l)%list = l.
Proof. induction pre; simpl; auto. Qed.

(** X6: the rows above the first row that looks like data are never read.
    Two primary sheets that differ only in such rows, the same number of
    them and fewer than ten, give the same result: a section header that
    stands directly above the first personnel row has no effect. *)
Theorem rows_above_first_data_row_are_ignored :
  forall (js : Engine) (env : Env) (pre pre' : list (list cell))
         (r : list cell) (rest : list (list cell)) (others : Workbook),
    length pre = length pre' ->
    (length pre < 10)%nat ->
    forallb (fun r => negb (looksLikeData r)) pre = true ->
    forallb (fun r => negb (looksLikeData r)) pre' = true ->
    looksLikeData r = true ->
    processExcelFile js env ((primary, (pre ++ r :: rest)%list) :: others)
    = processExcelFile js env ((primary, (pre' ++ r :: rest)%list) :: others).
Proof.
  intros js env pre pre' r rest others Hlen Hlt Hpre Hpre' Hr.
  unfold processExcelFile, processExcelFile_try.
  change (findSheet "all in one view" ((primary, (pre ++ r :: rest)%list) :: others))
    with (Some (pre ++ r :: rest)%list).
  change (findSheet "all in one view" ((primary, (pre' ++ r :: rest)%list) :: others))
    with (Some (pre' ++ r :: rest)%list).
  change (findSheet "voc" ((primary, (pre ++ r :: rest)%list) :: others))
    with (findSheet "voc" others).
  change (findSheet "voc" ((primary, (pre' ++ r :: rest)%list) :: others))
    with (findSheet "voc" others).
  cbv beta iota zeta.
  rewrite (dataStartRow_prefix pre r rest Hlt Hpre Hr).
  rewrite (dataStartRow_prefix pre' r rest) by (auto; lia).
  rewrite (skipn_prefix pre), (skipn_prefix pre'), Hlen.
  reflexivity.
Qed.

Lemma rows_above_first_data_row_are_ignored_witness :
  processExcelFile isoEngine (envWith 0)
    [(primary, [[Str "PLATOON 2"]; rowNSF])]
  = processExcelFile isoEngine (envWith 0) [(primary, [[]; rowNSF])].
Proof.
  exact (rows_above_first_data_row_are_ignored isoEngine (envWith 0)
           [[Str "PLATOON 2"]] [[]] rowNSF [] [] eq_refl
           ltac:(simpl; lia) eq_refl eq_refl eq_refl).
Defined.

(** *** Administrative fields *)

Lemma optEqb_eq a b : optEqb a b = true -> a = b.
Proof.
  destruct a, b; simpl; try discriminate; auto.
  intro H. apply String.eqb_eq in H. now subst.
Qed.

Lemma Category_eqb_eq a b : Category_eqb a b = true -> a = b.
Proof. destruct a, b; simpl; congruence. Qed.

Ltac bool_hyps :=
  repeat match goal with
  | H : (_ && _) = true |- _ => apply andb_true_iff in H; destruct H
  | H : (_ && _) = false |- _ => apply andb_false_iff in H; destruct H
  | H : negb _ = true |- _ => apply negb_true_iff in H
  | H : negb _ = false |- _ => apply negb_false_iff in H
  end.

Ltac eq_hyps :=
  repeat match goal with
  | H : (_ =? _)%string = true |- _ => apply String.eqb_eq in H
  | H : optEqb _ _ = true |- _ => apply optEqb_eq in H
  | H : Category_eqb _ _ = true |- _ => apply Category_eqb_eq in H
  end.

Lemma updateAdmin_fields cp rank pes service cat p :
  let p' := updateAdmin cp rank pes service cat p in
  Person.platoon p' = (if (cp =? "")%string then Person.platoon p else cp)
  /\ Person.rank p' = (if (rank =? "")%string then Person.rank p else rank)
  /\ Person.pes p' = (if nonEmpty pes then pes else Person.pes p)
  /\ Person.category p' = (if nonEmpty service then cat else Person.category p).
Proof.
  destruct p. unfold updateAdmin. cbv zeta.
  repeat match goal with
  | |- context [if ?a && ?b then _ else _] => destruct (a && b) eqn:?
  end;
  cbn [Person.set_platoon Person.set_rank Person.set_pes Person.set_category
       Person.platoon Person.rank Person.pes Person.category] in *;
  bool_hyps;
  repeat match goal with
  | H : ?x = true |- context [if ?x then _ else _] => rewrite H
  | H : ?x = false |- context [if ?x then _ else _] => rewrite H
  end;
  repeat break_if; eq_hyps; repeat split; congruence.
Qed.

Lemma joinDates_rank_pes maps key p :
  Person.rank (joinDates maps key p) = Person.rank p
  /\ Person.pes (joinDates maps key p) = Person.pes p.
Proof.
  unfold joinDates. cbv zeta.
  destruct (Person.category p); [|split; reflexivity].
  destruct (SMap.get key (ordDateMap maps));
    destruct (SMap.get key (y1WindowMap maps));
    destruct (SMap.get key (y2WindowMap maps));
    try break_if; simpl; split; reflexivity.
Qed.

(** X7: a later row of a name that is already in the map overwrites the
    administrative fields it carries and nothing else of them: the platoon
    follows the current section header when there is one, the rank, PES and
    category follow the row's non-empty cells, while the [unit] mirror, the
    name and the time stamp stay as they were at creation. *)
Theorem merge_last_row_wins_on_admin_fields :
  forall (maps : DateMaps) (now : Z) (cp rank name : string) (row : list cell)
         (pm pm' : SMap.t Person.t) (old : Person.t),
    SMap.get (sanitizePersonnelName name) pm = Some old ->
    mergeRow maps now cp rank name row pm = Ok pm' ->
    exists p',
      SMap.get (sanitizePersonnelName name) pm' = Some p'
      /\ Person.platoon p' = (if (cp =? "")%string then Person.platoon old else cp)
      /\ Person.rank p' = (if (rank =? "")%string then Person.rank old else rank)
      /\ Person.pes p'
         = (if nonEmpty (text (at_ row 3)) then text (at_ row 3) else Person.pes old)
      /\ Person.category p'
         = (if nonEmpty (text (at_ row 4)) then categoryOf (text (at_ row 4))
            else Person.category old)
      /\ Person.unit p' = Person.unit old
      /\ Person.name p' = Person.name old
      /\ Person.lastUpdated p' = Person.lastUpdated old.
Proof.
  intros maps now cp rank name row pm pm' old Hold H.
  apply mergeRow_Ok in H as (p' & Ha & ->). rewrite Hold in Ha.
  exists p'. split; [apply get_set_same|].
  apply assignResults_admin in Ha. unfold adminOf in Ha.
  injection Ha as En Ec Ep Eu Er Epes El _ _ _ _ _ _.
  set (key := sanitizePersonnelName name) in *.
  set (u := updateAdmin cp rank (text (at_ row 3)) (text (at_ row 4))
              (categoryOf (text (at_ row 4))) old) in *.
  destruct (joinDates_rest maps key u) as (Jn & Jc & Jp & Ju & _ & Jl).
  destruct (joinDates_rank_pes maps key u) as (Jr & Jpes).
  destruct (updateAdmin_fields cp rank (text (at_ row 3)) (text (at_ row 4))
              (categoryOf (text (at_ row 4))) old) as (Up & Ur & Upes & Uc).
  destruct (updateAdmin_rest cp rank (text (at_ row 3)) (text (at_ row 4))
              (categoryOf (text (at_ row 4))) old) as (Un & Uu & _ & _ & Ul).
  fold u in Up, Ur, Upes, Uc, Un, Uu, Ul.
  repeat split; congruence.
Qed.

Lemma merge_last_row_wins_on_admin_fields_witness :
  exists p',
    SMap.get "TAN WEI"
      [("TAN WEI", Person.set_rank "CPL" (Person.set_platoon "Platoon 2" goldRecord))]
    = Some p'
    /\ Person.platoon p' = "Platoon 2"
    /\ Person.rank p' = "CPL"
    /\ Person.pes p' = Some "A1"
    /\ Person.category p' = Regular
    /\ Person.unit p' = "Unassigned"
    /\ Person.name p' = "TAN WEI"
    /\ Person.lastUpdated p' = 0.
Proof.
  exact (merge_last_row_wins_on_admin_fields noDates 1763078400000 "Platoon 2"
           "CPL" "TAN WEI" rowREG_plain [("TAN WEI", goldRecord)]
           [("TAN WEI", Person.set_rank "CPL" (Person.set_platoon "Platoon 2" goldRecord))]
           goldRecord eq_refl eq_refl).
Defined.

(** *** The Y2 window and the ORD date *)

Lemma vocRow_y2_ord js maps row :
  y2WindowMap maps = ordDateMap maps ->
  y2WindowMap (vocRow js maps row) = ordDateMap (vocRow js maps row).
Proof.
  intro H. unfold vocRow. cbv zeta.
  destruct (nonEmpty (text (at_ row 2))); [|exact H].
  simpl. destruct (truthy (at_ row 6)); congruence.
Qed.

Lemma vocDates_y2_ord js vocData :
  y2WindowMap (vocDates js vocData) = ordDateMap (vocDates js vocData).
Proof.
  unfold vocDates.
  generalize (skipn (dataStartRow vocData) vocData) as rows.
  assert (H : y2WindowMap noDates = ordDateMap noDates) by reflexivity.
  revert H. generalize noDates as maps. intros maps H rows. revert maps H.
  induction rows as [|row rows IH]; simpl; intros maps H; [exact H|].
  apply IH. now apply vocRow_y2_ord.
Qed.

Lemma datesOf_y2_ord js wb :
  y2WindowMap (datesOf js wb) = ordDateMap (datesOf js wb).
Proof.
  unfold datesOf. destruct (findSheet "voc" wb); [apply vocDates_y2_ord|reflexivity].
Qed.

Lemma updateAdmin_y2Window cp rank pes service cat p :
  Person.y2WindowEndDate (updateAdmin cp rank pes service cat p)
  = Person.y2WindowEndDate p.
Proof. unfold updateAdmin. repeat break_if; reflexivity. Qed.

Lemma mergeRow_y2_ord maps now cp rank name row pm pm' :
  y2WindowMap maps = ordDateMap maps ->
  Forall (fun p => Person.y2WindowEndDate p = Person.ordDate p) (SMap.values pm) ->
  mergeRow maps now cp rank name row pm = Ok pm' ->
  Forall (fun p => Person.y2WindowEndDate p = Person.ordDate p) (SMap.values pm').
Proof.
  intro Hmaps. revert now cp rank name row pm pm'. apply mergeRow_Forall.
  - reflexivity.
  - intros cp rank pes service cat p Hp.
    rewrite updateAdmin_y2Window.
    destruct (updateAdmin_rest cp rank pes service cat p) as (_ & _ & _ & -> & _).
    exact Hp.
  - intros key p Hp. unfold joinDates. cbv zeta.
    destruct (Person.category p); [|exact Hp].
    rewrite Hmaps.
    destruct (SMap.get key (ordDateMap maps));
      destruct (SMap.get key (y1WindowMap maps));
      simp_person; cbn [Person.set_y1WindowEndDate Person.set_y2WindowEndDate
                        Person.y2WindowEndDate Person.ordDate];
      try reflexivity;
      try break_if; cbn [Person.set_y1WindowEndDate Person.set_y2WindowEndDate
                         Person.y2WindowEndDate Person.ordDate];
      auto.
  - intros row p p' Hp Ha. apply assignResults_admin in Ha.
    unfold adminOf in Ha. injection Ha as _ _ _ _ _ _ _ Eo _ _ _ _ Ey.
    congruence.
Qed.

Lemma validate_y2Window js env j p w :
  ordDateRaw p ->
  Person.y2WindowEndDate p = Person.ordDate p ->
  y2WindowMirrorsOrd (fst (validateAndCleanPersonnelRecord js env j p w)).
Proof.
  unfold ordDateRaw, y2WindowMirrorsOrd, validateAndCleanPersonnelRecord.
  intros Hraw Hy.
  destruct (isValidPlatoon (Person.platoon p)); simp_person;
    destruct (arrayIncludes MEDICAL_STATUS_OPTIONS (Person.medicalStatus p));
    simp_person;
    (destruct (Person.ordDate p) as [|t|s] eqn:Eo; [| |contradiction];
     [ simpl; simp_person; left; congruence
     | unfold validateDateInput; simpl;
       destruct (t <? minDate) eqn:Et; simpl; simp_person;
       [ right; rewrite Hy; simpl; rewrite Z.leb_antisym, Et; split;
         [reflexivity|destruct (Person.category p); exact I]
       | left; congruence ] ]).
Qed.

(** X8: the ORD date and the Y2 window end are both read from column G of
    the VOC sheet, so the Y2 window end of every returned record is its ORD
    date; the one exception is a record whose ORD date the post-pass
    rejected, whose window still holds the rejected date. *)
Theorem y2_window_is_the_ord_date :
  forall (js : Engine) (env : Env) (wb : Workbook),
    Forall y2WindowMirrorsOrd (Outcome.data (processExcelFile js env wb)).
Proof.
  intros js env wb.
  destruct (processExcelFile_cases js env wb)
    as [[_ ->]|[(rawData & e & _ & _ & ->)|(rawData & st & _ & Hrows & ->)]];
    simpl; try constructor.
  apply (postPass_Forall
           (fun p => ordDateRaw p
                     /\ Person.y2WindowEndDate p = Person.ordDate p)).
  - intros j p w [Hr Hy]. now apply validate_y2Window.
  - apply Forall_and.
    + eapply (processRows_invariant
                (fun pm => Forall ordDateRaw (SMap.values pm)));
        [| |exact Hrows]; [|constructor].
      intros now cp rank name row pm pm'. apply mergeRow_ordDateRaw.
    + eapply (processRows_invariant
                (fun pm => Forall (fun p => Person.y2WindowEndDate p
                                            = Person.ordDate p)
                                  (SMap.values pm)));
        [| |exact Hrows]; [|constructor].
      intros now cp rank name row pm pm'.
      apply mergeRow_y2_ord, datesOf_y2_ord.
Qed.

(** *** parseDate on two-digit years *)

Lemma twoDigits_inv s :
  twoDigits s ->
  exists a b, s = String a (String b "") /\ isDigit a = true /\ isDigit b = true.
Proof.
  unfold twoDigits, digitsBetween, allDigits.
  destruct s as [|a [|b [|c r]]]; simpl; intro H;
    try discriminate; try (rewrite andb_false_r in H; discriminate).
  - rewrite !andb_true_r in H. apply andb_prop in H as [Ha Hb].
    exists a, b. auto.
Qed.

Lemma digit_neq d sep : isDigit d = true -> isDigit sep = false -> (d =? sep)%char = false.
Proof. intros Hd Hs. apply Ascii.eqb_neq. congruence. Qed.

Lemma digits2 a b lo hi :
  isDigit a = true -> isDigit b = true ->
  (lo <=? 2)%nat = true -> (2 <=? hi)%nat = true ->
  digitsBetween lo hi (String a (String b "")) = true.
Proof.
  intros Ha Hb Hlo Hhi. unfold digitsBetween, allDigits.
  cbn [list_ascii_of_string forallb String.length]. now rewrite Ha, Hb, Hlo, Hhi.
Qed.

Lemma matchThree_two sep a1 a2 b1 b2 c1 c2 :
  isDigit sep = false ->
  isDigit a1 = true -> isDigit a2 = true -> isDigit b1 = true ->
  isDigit b2 = true -> isDigit c1 = true -> isDigit c2 = true ->
  matchThree sep 1 2 1 2 2 4
    (String a1 (String a2 (String sep
       (String b1 (String b2 (String sep (String c1 (String c2 ""))))))))
  = Some (String a1 (String a2 ""), String b1 (String b2 ""),
          String c1 (String c2 "")).
Proof.
  intros Hs H1 H2 H3 H4 H5 H6. unfold matchThree. simpl split.
  rewrite (digit_neq a1 sep), (digit_neq a2 sep), (digit_neq b1 sep),
    (digit_neq b2 sep), (digit_neq c1 sep), (digit_neq c2 sep) by assumption.
  rewrite !Ascii.eqb_refl.
  rewrite !digits2 by (assumption || reflexivity). reflexivity.
Qed.

Lemma split_one sep s :
  forallb (fun c => negb (c =? sep)%char) (list_ascii_of_string s) = true ->
  split sep s = [s].
Proof.
  induction s as [|c r IH]; simpl; intro H; [reflexivity|].
  apply andb_prop in H as [Hc Hr]. apply negb_true_iff in Hc.
  now rewrite Hc, IH.
Qed.

Lemma matchThree_one sep l1 h1 l2 h2 l3 h3 s :
  forallb (fun c => negb (c =? sep)%char) (list_ascii_of_string s) = true ->
  matchThree sep l1 h1 l2 h2 l3 h3 s = None.
Proof. intro H. unfold matchThree. now rewrite split_one. Qed.

Lemma trim_noSpace s :
  forallb (fun c => negb (isWhiteSpace c)) (list_ascii_of_string s) = true ->
  trim s = s.
Proof.
  intro H. unfold trim.
  assert (Hs : trimStart s = s).
  { destruct s as [|c r]; [reflexivity|]. simpl in *.
    apply andb_prop in H as [Hc _]. apply negb_true_iff in Hc. now rewrite Hc. }
  rewrite Hs. clear Hs.
  induction s as [|c r IH]; [reflexivity|]. simpl in *.
  apply andb_prop in H as [Hc Hr]. apply negb_true_iff in Hc.
  rewrite (IH Hr), Hc. now destruct r.
Qed.

Ltac digits_goal :=
  simpl forallb;
  repeat match goal with
         | H : isDigit ?c = true |- context [isWhiteSpace ?c] =>
             rewrite (digit_not_space c H)
         | H : isDigit ?c = true |- context [(?c =? ?sep)%char] =>
             rewrite (digit_neq c sep H eq_refl)
         end;
  reflexivity.

(** X9: the century that parseDate gives to a two-digit year depends on
    the separator. For two-digit day, month and year, the dashed and the
    slashed forms are read as the ISO date 20YY-MM-DD whatever YY is, the
    compact form DDMMYY as 20YY-MM-DD below 50 and 19YY-MM-DD from 50 on
    (whenever the engine accepts that ISO date). *)
Theorem parseDate_two_digit_year :
  forall (js : Engine) (dd mm yy : string) (t : Z),
    twoDigits dd -> twoDigits mm -> twoDigits yy ->
    (DateParse js ("20" ++ yy ++ "-" ++ mm ++ "-" ++ dd) = Some t ->
     parseDate js (Str (dd ++ "-" ++ mm ++ "-" ++ yy)) = Some t
     /\ parseDate js (Str (dd ++ "/" ++ mm ++ "/" ++ yy)) = Some t)
    /\ (DateParse js ((if digitsValue yy <? 50 then "20" else "19")
                      ++ yy ++ "-" ++ mm ++ "-" ++ dd) = Some t ->
        parseDate js (Str (dd ++ mm ++ yy)) = Some t).
Proof.
  intros js dd mm yy t Hd Hm Hy.
  apply twoDigits_inv in Hd as (d1 & d2 & -> & Hd1 & Hd2).
  apply twoDigits_inv in Hm as (m1 & m2 & -> & Hm1 & Hm2).
  apply twoDigits_inv in Hy as (y1 & y2 & -> & Hy1 & Hy2).
  split; [intro Hp; split|intro Hp].
  - unfold parseDate.
    change (negb (truthy (Str _)) || negb (isString (Str _))) with false.
    cbv iota. cbn [toString append].
    rewrite trim_noSpace by digits_goal.
    change (String d1 _ =? "")%string with false. cbv iota.
    rewrite (matchThree_two "-") by (assumption || reflexivity).
    cbn [dayMonthYear String.length Nat.eqb padStart2 append] in *.
    rewrite Hp. reflexivity.
  - unfold parseDate.
    change (negb (truthy (Str _)) || negb (isString (Str _))) with false.
    cbv iota. cbn [toString append].
    rewrite trim_noSpace by digits_goal.
    change (String d1 _ =? "")%string with false. cbv iota.
    rewrite (matchThree_one "-") by digits_goal.
    rewrite (matchThree_two "/") by (assumption || reflexivity).
    cbn [dayMonthYear orElse String.length Nat.eqb padStart2 append] in *.
    rewrite Hp. reflexivity.
  - unfold parseDate.
    change (negb (truthy (Str _)) || negb (isString (Str _))) with false.
    cbv iota. cbn [toString append].
    rewrite trim_noSpace by digits_goal.
    change (String d1 _ =? "")%string with false. cbv iota.
    rewrite !(matchThree_one "-") by digits_goal.
    rewrite (matchThree_one "/") by digits_goal.
    cbn [dayMonthYear orElse].
    assert (H6 : digitsBetween 6 6
                   (String d1 (String d2 (String m1 (String m2
                      (String y1 (String y2 "")))))) = true).
    { unfold digitsBetween, allDigits. simpl.
      now rewrite Hd1, Hd2, Hm1, Hm2, Hy1, Hy2. }
    rewrite H6. cbn [String.substring].
    destruct (digitsValue (String y1 (String y2 "")) <? 50);
      cbn [append] in *; rewrite Hp; reflexivity.
Qed.

Lemma parseDate_two_digit_year_witness :
  (parseDate isoEngine (Str "01-01-75") = Some 3313526400000
   /\ parseDate isoEngine (Str "01/01/75") = Some 3313526400000)
  /\ parseDate isoEngine (Str "010175") = Some 157766400000.
Proof.
  split.
  - exact (proj1 (parseDate_two_digit_year isoEngine "01" "01" "75"
                    3313526400000 eq_refl eq_refl eq_refl) eq_refl).
  - exact (proj2 (parseDate_two_digit_year isoEngine "01" "01" "75"
                    157766400000 eq_refl eq_refl eq_refl) eq_refl).
Defined.

(** *** The dashboard summary *)

Lemma filterM_y2 prop (g : Y2.t -> bool) l :
  filterM (fun p => b <- y2Of prop p ;; Ok (g b)) l
  = if forallb hasY2 l
    then Ok (filter (fun p => match Person.y2 p with
                              | Some b => g b | None => false end) l)
    else Throw (readError prop).
Proof.
  induction l as [|a rest IH]; [reflexivity|].
  cbn [filterM forallb filter]. unfold y2Of at 1, hasY2 at 1.
  destruct (Person.y2 a); simpl; [|reflexivity].
  rewrite IH. destruct (forallb hasY2 rest); simpl; [|reflexivity].
  now destruct (g t).
Qed.

Lemma filterM_y1 prop (g : Y1.t -> bool) l :
  filterM (fun p => b <- y1Of prop p ;; Ok (g b)) l
  = if forallb hasY1 l
    then Ok (filter (fun p => match Person.y1 p with
                              | Some b => g b | None => false end) l)
    else Throw (readError prop).
Proof.
  induction l as [|a rest IH]; [reflexivity|].
  cbn [filterM forallb filter]. unfold y1Of at 1, hasY1 at 1.
  destruct (Person.y1 a); simpl; [|reflexivity].
  rewrite IH. destruct (forallb hasY1 rest); simpl; [|reflexivity].
  now destruct (g t).
Qed.

Lemma forallb_andb {A} (f g : A -> bool) l :
  forallb (fun a => f a && g a) l = forallb f l && forallb g l.
Proof.
  induction l as [|a l IH]; simpl; [reflexivity|]. rewrite IH.
  destruct (f a), (g a), (forallb f l), (forallb g l); reflexivity.
Qed.

Lemma summaryRow_cases cat l :
  let catPersonnel := filter (fun p => Category_eqb (Person.category p) cat) l in
  (forallb hasY1Y2 catPersonnel = true /\ exists row, summaryRow cat l = Ok row)
  \/ (forallb hasY1Y2 catPersonnel = false
      /\ summaryRow cat l = Throw (readError "ippt")).
Proof.
  intro c. unfold hasY1Y2. rewrite forallb_andb.
  unfold summaryRow. fold c.
  rewrite !filterM_y2, filterM_y1.
  destruct (forallb hasY2 c); simpl; [|right; split; reflexivity].
  destruct (forallb hasY1 c); simpl; [left; split; eauto|right; split; reflexivity].
Qed.

Lemma forallb_by_category (f : Person.t -> bool) l :
  forallb f l
  = forallb f (filter (fun p => Category_eqb (Person.category p) NSF) l)
    && forallb f (filter (fun p => Category_eqb (Person.category p) Regular) l).
Proof.
  induction l as [|a l IH]; [reflexivity|]. simpl. rewrite IH.
  destruct (Person.category a); simpl;
    destruct (f a); simpl; try reflexivity.
  now rewrite andb_false_r.
Qed.

Lemma generateCategorySummary_cases l :
  (forallb hasY1Y2 l = true /\ exists rows, generateCategorySummary l = Ok rows)
  \/ (forallb hasY1Y2 l = false
      /\ generateCategorySummary l = Throw (readError "ippt")).
Proof.
  rewrite (forallb_by_category hasY1Y2 l). unfold generateCategorySummary.
  destruct (summaryRow_cases NSF l) as [[-> [r1 ->]]|[-> ->]]; simpl;
    [|right; split; reflexivity].
  destruct (summaryRow_cases Regular l) as [[-> [r2 ->]]|[-> ->]]; simpl;
    [left; split; eauto|right; split; reflexivity].
Qed.

(** X10: generateCategorySummary reads the y1 and y2 blocks of every
    record without a guard. It returns its two rows exactly when every
    record has both blocks; otherwise it throws the TypeError of reading
    ippt of undefined. *)
Theorem generateCategorySummary_needs_both_blocks :
  forall (activePersonnel : list Person.t),
    ((exists rows, generateCategorySummary activePersonnel = Ok rows)
     <-> forallb hasY1Y2 activePersonnel = true)
    /\ (generateCategorySummary activePersonnel = Throw (readError "ippt")
        <-> forallb hasY1Y2 activePersonnel = false).
Proof.
  intro l.
  destruct (generateCategorySummary_cases l) as [[H [rows E]]|[H E]];
    rewrite H, E; split; split; intro X;
    try reflexivity; try discriminate; eauto.
  destruct X as [rows' X]. discriminate.
Qed.

Lemma validate_isORD js env j p w :
  Person.isORD (fst (validateAndCleanPersonnelRecord js env j p w))
  = Person.isORD p.
Proof.
  unfold validateAndCleanPersonnelRecord.
  destruct (isValidPlatoon (Person.platoon p)); simp_person;
    destruct (arrayIncludes MEDICAL_STATUS_OPTIONS (Person.medicalStatus p));
    simp_person; break_if; reflexivity.
Qed.

Lemma isORD_always_false js env wb :
  Forall (fun p => Person.isORD p = false)
         (Outcome.data (processExcelFile js env wb)).
Proof.
  apply (processExcelFile_Forall (fun p => Person.isORD p = false)).
  - intro maps. apply mergeRow_Forall.
    + reflexivity.
    + intros cp rank pes service cat p Hp. unfold updateAdmin.
      repeat break_if; exact Hp.
    + intros key p Hp. unfold joinDates.
      destruct (Person.category p); [|exact Hp].
      destruct (SMap.get key (ordDateMap maps));
        destruct (SMap.get key (y1WindowMap maps));
        destruct (SMap.get key (y2WindowMap maps));
        try break_if; exact Hp.
    + intros row p p' Hp Ha. apply assignResults_admin in Ha.
      unfold adminOf in Ha. injection Ha as _ _ _ _ _ _ _ _ E _ _ _ _.
      congruence.
  - intros js' env' j p w Hp. now rewrite validate_isORD.
Qed.

Lemma filter_all {A} (f : A -> bool) l :
  Forall (fun a => f a = true) l -> filter f l = l.
Proof.
  induction 1 as [|a l Ha _ IH]; simpl; [reflexivity|]. now rewrite Ha, IH.
Qed.

Lemma missing_block_iff_work_year l :
  Forall (fun p => oneShape p = true) l ->
  forallb hasY1Y2 l = false
  <-> exists p, In p l /\ Person.workYear p <> None.
Proof.
  induction 1 as [|p l Hp _ IH]; simpl.
  - split; [discriminate|intros (p & [] & _)].
  - unfold oneShape in Hp. unfold hasY1Y2 at 1, hasY1, hasY2.
    destruct (Person.y1 p) eqn:E1, (Person.y2 p) eqn:E2,
      (Person.workYear p) eqn:E3; try discriminate; simpl.
    + rewrite IH. split.
      * intros (q & Hq & Hw). exists q. auto.
      * intros (q & [<-|Hq] & Hw); [congruence|eauto].
    + split; [|reflexivity]. intros _. exists p. split; [now left|congruence].
Qed.

(** X11: the dashboard summary of an ingestion result throws exactly when
    one of the returned records has the work-year block, that is, was
    created from a row marked Regular: such a record has no y2 block for
    the summary to read. *)
Theorem dashboard_summary_throws_on_work_year_records :
  forall (js : Engine) (env : Env) (wb : Workbook),
    mainDashboardSummary (Outcome.data (processExcelFile js env wb))
    = Throw (readError "ippt")
    <-> exists p, In p (Outcome.data (processExcelFile js env wb))
                  /\ Person.workYear p <> None.
Proof.
  intros js env wb. unfold mainDashboardSummary.
  rewrite filter_all.
  2:{ eapply Forall_impl; [|apply isORD_always_false].
      intros p Hp. simpl in Hp. now rewrite Hp. }
  rewrite <- (missing_block_iff_work_year _ (blocks_never_mixed js env wb)).
  destruct (generateCategorySummary_cases
              (Outcome.data (processExcelFile js env wb)))
    as [[H [rows E]]|[H E]]; rewrite H, E; split; intro X;
    try reflexivity; discriminate.
Qed.

(** *** fixExistingPlatoonNames *)

Lemma getRandomElement_In {A} (r : Q) (l : list A) :
  (0 <= r)%Q -> (r < 1)%Q -> l <> [] ->
  exists a, getRandomElement r l = Some a /\ In a l.
Proof.
  intros H0 H1 Hl. unfold getRandomElement. cbv zeta.
  set (n := Z.of_nat (length l)).
  assert (Hn : 0 < n) by (destruct l; [congruence|subst n; simpl; lia]).
  assert (Hlo : 0 <= Qfloor (r * inject_Z n)).
  { change 0 with (Qfloor 0). apply Qfloor_resp_le.
    apply Qmult_le_0_compat; [exact H0|].
    change 0%Q with (inject_Z 0). rewrite <- Zle_Qle. lia. }
  assert (Hhi : Qfloor (r * inject_Z n) < n).
  { rewrite Zlt_Qlt. eapply Qle_lt_trans; [apply Qfloor_le|].
    rewrite <- (Qmult_1_l (inject_Z n)) at 2.
    apply Qmult_lt_compat_r; [|exact H1].
    change 0%Q with (inject_Z 0). rewrite <- Zlt_Qlt. exact Hn. }
  destruct (Qfloor (r * inject_Z n) <? 0) eqn:E; [apply Z.ltb_lt in E; lia|].
  destruct (nth_error l (Z.to_nat (Qfloor (r * inject_Z n)))) as [a|] eqn:En.
  - exists a. split; [reflexivity|]. eapply nth_error_In; exact En.
  - apply nth_error_None in En. subst n. lia.
Qed.

Lemma fixedPlatoon_valid r p :
  (0 <= r)%Q -> (r < 1)%Q ->
  exists platoon, fixedPlatoon r p = Some platoon
                  /\ isValidPlatoon platoon = true.
Proof.
  intros H0 H1. unfold fixedPlatoon. destruct (Person.category p).
  - destruct (getRandomElement_In r nsfPlatoons H0 H1 ltac:(discriminate))
      as (a & -> & Ha).
    exists a. split; [reflexivity|].
    simpl in Ha. destruct Ha as [<-|[<-|[<-|[]]]]; reflexivity.
  - exists "COY HQ". split; reflexivity.
Qed.

Lemma needsFix_invalid p :
  needsFix p = negb (isValidPlatoon (Person.platoon p)).
Proof.
  unfold needsFix.
  destruct (isValidPlatoon (Person.platoon p)) eqn:E;
    [|now rewrite orb_true_r].
  unfold isValidPlatoon, arrayIncludes in E. apply existsb_exists in E.
  destruct E as (x & Hx & E). apply String.eqb_eq in E. rewrite <- E.
  simpl in Hx.
  repeat (destruct Hx as [<-|Hx]; [reflexivity|]). contradiction.
Qed.

Lemma fixLoop_spec random :
  unitDraws random ->
  forall l j n,
    exists l',
      fixLoop random j l n
      = Some (l', (n + length (filter needsFix l))%nat)
      /\ Forall2 fixedFrom l l'.
Proof.
  intros Hr l. induction l as [|p l IH]; intros j n.
  - exists []. split; [simpl; f_equal; f_equal; lia|constructor].
  - cbn [fixLoop filter]. pose proof (needsFix_invalid p) as Hn.
    destruct (needsFix p) eqn:E.
    + destruct (Hr j) as [H0 H1].
      destruct (fixedPlatoon_valid (random j) p H0 H1) as (pl & Hpl & Hv).
      rewrite Hpl.
      destruct (IH (S j) (S n)) as (l' & -> & HF).
      eexists. split.
      * f_equal. f_equal. simpl. lia.
      * constructor; [|exact HF]. unfold fixedFrom.
        symmetry in Hn. apply negb_true_iff in Hn. rewrite Hn.
        simpl. repeat split; try assumption.
        intro Hc. unfold fixedPlatoon in Hpl. rewrite Hc in Hpl. congruence.
    + destruct (IH (S j) n) as (l' & -> & HF).
      eexists. split.
      * reflexivity.
      * constructor; [|exact HF]. unfold fixedFrom.
        symmetry in Hn. apply negb_false_iff in Hn. now rewrite Hn.
Qed.

Lemma Forall2_fixedFrom_valid l l' :
  Forall2 fixedFrom l l' ->
  Forall (fun p => isValidPlatoon (Person.platoon p) = true) l'.
Proof.
  induction 1 as [|p p' l l' H _ IH]; constructor; [|exact IH].
  unfold fixedFrom in H.
  destruct (isValidPlatoon (Person.platoon p)) eqn:E; [now subst|tauto].
Qed.

(** X12: with draws of Math.random in [0, 1), fixExistingPlatoonNames
    leaves every record with a platoon of VALID_PLATOONS. A record whose
    platoon was valid is untouched; any other gets a valid platoon (COY HQ
    for a Regular) and its unit mirror set to it, name and category kept.
    fixedCount is the number of records whose platoon was not valid. *)
Theorem fixExistingPlatoonNames_postcondition :
  forall (random : nat -> Q) (personnelData : list Person.t),
    unitDraws random ->
    exists fixed result,
      fixExistingPlatoonNames random personnelData = Some (fixed, result)
      /\ Forall (fun p => isValidPlatoon (Person.platoon p) = true) fixed
      /\ Forall2 fixedFrom personnelData fixed
      /\ fixedCount result
         = length (filter (fun p => negb (isValidPlatoon (Person.platoon p)))
                          personnelData)
      /\ totalPersonnel result = length personnelData.
Proof.
  intros random l Hr. unfold fixExistingPlatoonNames.
  destruct (fixLoop_spec random Hr l 0%nat 0%nat) as (l' & -> & HF).
  eexists. eexists. split; [reflexivity|].
  split; [eapply Forall2_fixedFrom_valid; exact HF|].
  split; [exact HF|]. split; [|reflexivity]. simpl.
  f_equal. apply filter_ext. apply needsFix_invalid.
Qed.

Lemma fixExistingPlatoonNames_postcondition_witness :
  exists fixed result,
    fixExistingPlatoonNames (fun _ => 1 # 2) [goldRecord] = Some (fixed, result)
    /\ Forall (fun p => isValidPlatoon (Person.platoon p) = true) fixed
    /\ Forall2 fixedFrom [goldRecord] fixed
    /\ fixedCount result
       = length (filter (fun p => negb (isValidPlatoon (Person.platoon p)))
                        [goldRecord])
    /\ totalPersonnel result = length [goldRecord].
Proof.
  apply (fixExistingPlatoonNames_postcondition (fun _ => 1 # 2) [goldRecord]).
  intro j. split; [discriminate|reflexivity].
Defined.

Lemma fixLoop_valid random l :
  Forall (fun p => isValidPlatoon (Person.platoon p) = true) l ->
  forall j n, fixLoop random j l n = Some (l, n).
Proof.
  induction 1 as [|p l Hp _ IH]; intros j n; [reflexivity|].
  cbn [fixLoop]. rewrite needsFix_invalid, Hp. simpl. now rewrite IH.
Qed.

(** X13: on the records that the ingestion returns the fix changes
    nothing, whatever the draws: their platoons are valid already, so
    fixedCount is 0 and no unit mirror is brought in sync. *)
Theorem fixExistingPlatoonNames_after_ingestion :
  forall (random : nat -> Q) (js : Engine) (env : Env) (wb : Workbook),
    fixExistingPlatoonNames random (Outcome.data (processExcelFile js env wb))
    = Some (Outcome.data (processExcelFile js env wb),
            {| fixedCount := 0;
               totalPersonnel :=
                 length (Outcome.data (processExcelFile js env wb)) |}).
Proof.
  intros random js env wb. unfold fixExistingPlatoonNames.
  now rewrite (fixLoop_valid random _ (platoon_always_valid js env wb)).
Qed.

(** *** Search *)

Lemma lower_upper c : lowerChar (upperChar c) = lowerChar c.
Proof. destruct c as [[] [] [] [] [] [] [] []]; reflexivity. Qed.

Lemma toLowerCase_toUpperCase s : toLowerCase (toUpperCase s) = toLowerCase s.
Proof.
  unfold toLowerCase, toUpperCase.
  induction s as [|c s IH]; simpl; [reflexivity|]. now rewrite lower_upper, IH.
Qed.

Lemma prefix_app sub s post :
  String.prefix sub s = true -> String.prefix sub (s ++ post) = true.
Proof.
  revert s. induction sub as [|c sub IH]; intros s H;
    [destruct (s ++ post); reflexivity|].
  destruct s as [|d s]; simpl in *; [discriminate|].
  destruct (ascii_dec c d); [auto|discriminate].
Qed.

Lemma includes_app_l s sub post :
  includes s sub = true -> includes (s ++ post) sub = true.
Proof.
  induction s as [|c s IH]; intro H.
  - simpl in H. rewrite orb_false_r in H. destruct sub; [|discriminate].
    destruct post; reflexivity.
  - change (String.prefix sub (String c s) || includes s sub = true) in H.
    change (String.prefix sub (String c s ++ post) || includes (s ++ post) sub
            = true).
    apply orb_prop in H as [H|H].
    + now rewrite (prefix_app _ _ post H).
    + rewrite (IH H). apply orb_true_r.
Qed.

Lemma includes_app_r pre s sub :
  includes s sub = true -> includes (pre ++ s) sub = true.
Proof.
  intro H. induction pre as [|c pre IH]; [exact H|].
  simpl. rewrite IH. apply orb_true_r.
Qed.

Lemma includes_middle pre s post sub :
  includes s sub = true -> includes (pre ++ s ++ post) sub = true.
Proof. intro H. now apply includes_app_r, includes_app_l. Qed.

(** X14: on ASCII text (the search term and the four searchable fields
    of the record) the search is blind to the case of the term, and a term
    found in the name, the platoon, the unit or the medical status of the
    record, whatever the case, matches that record. *)
Theorem matchesSearchTerm_fields :
  forall (person : Person.t) (searchTerm : string),
    asciiText searchTerm ->
    asciiRecord person ->
    matchesSearchTerm person (toUpperCase searchTerm)
    = matchesSearchTerm person searchTerm
    /\ (forall field,
          In field [Person.name person; Person.platoon person;
                    Person.unit person; Person.medicalStatus person] ->
          includes (toLowerCase field) (toLowerCase searchTerm) = true ->
          matchesSearchTerm person searchTerm = true).
Proof.
  intros p t _ _. split.
  - unfold matchesSearchTerm. rewrite toLowerCase_toUpperCase.
    destruct t; reflexivity.
  - intros field Hin Hinc. unfold matchesSearchTerm.
    destruct (t =? "")%string; [reflexivity|]. cbv zeta.
    unfold toLowerCase in *. rewrite !mapString_append.
    simpl in Hin. destruct Hin as [<-|[<-|[<-|[<-|[]]]]].
    + now apply includes_app_l.
    + now apply includes_app_r, includes_app_r, includes_app_l.
    + now do 4 apply includes_app_r; apply includes_app_l.
    + now do 6 apply includes_app_r.
Qed.

Lemma matchesSearchTerm_fields_witness :
  matchesSearchTerm goldRecord "tan" = true.
Proof.
  exact (proj2 (matchesSearchTerm_fields goldRecord "tan" eq_refl
                  (conj eq_refl (conj eq_refl (conj eq_refl eq_refl))))
           "TAN WEI" (or_introl eq_refl) eq_refl).
Defined.

(** *** Status *)

(** X15: the status shown for a record is computed from the y1 and y2
    blocks only. A returned record that has the work-year block, whatever
    results the import stored in it, is shown as Y2 Not started when its
    category is Regular and as Y1 In progress otherwise. *)
Theorem status_ignores_work_year_results :
  forall (js : Engine) (env : Env) (wb : Workbook) (p : Person.t),
    In p (Outcome.data (processExcelFile js env wb)) ->
    Person.workYear p <> None ->
    getPersonStatus p
    = if Category_eqb (Person.category p) Regular
      then ("Y2 Not started", "status-silver")
      else ("Y1 In progress", "status-exempt").
Proof.
  intros js env wb p Hin Hw.
  pose proof (blocks_never_mixed js env wb) as Hshape.
  rewrite Forall_forall in Hshape. specialize (Hshape p Hin).
  unfold oneShape in Hshape. unfold getPersonStatus.
  destruct (Person.y1 p), (Person.y2 p), (Person.workYear p);
    try discriminate; try congruence.
  simpl. now destruct (Category_eqb (Person.category p) Regular).
Qed.

Lemma status_ignores_work_year_results_witness :
  getPersonStatus
    (hd goldRecord
        (Outcome.data (processExcelFile isoEngine (envWith 0)
                         [(primary, [rowREG_result])])))
  = ("Y2 Not started", "status-silver").
Proof.
  exact (status_ignores_work_year_results isoEngine (envWith 0)
           [(primary, [rowREG_result])] _ (or_introl eq_refl)
           ltac:(vm_compute; discriminate)).
Defined.

(** *** Export into the original workbook, then import *)

Lemma findSheet_updateSheet target update wb :
  findSheet target (updateSheet target update wb)
  = option_map update (findSheet target wb).
Proof.
  unfold findSheet. induction wb as [|[name data] wb IH]; [reflexivity|].
  cbn [updateSheet find fst].
  destruct (toLowerCase (trim name) =? target)%string eqn:E.
  - cbn [find fst]. rewrite E. reflexivity.
  - cbn [find fst]. rewrite E. exact IH.
Qed.

Lemma findSheet_updateSheet_other target target' update wb :
  target <> target' ->
  findSheet target (updateSheet target' update wb) = findSheet target wb.
Proof.
  intro Hne. unfold findSheet.
  induction wb as [|[name data] wb IH]; [reflexivity|].
  cbn [updateSheet find fst].
  destruct (toLowerCase (trim name) =? target')%string eqn:E.
  - cbn [find fst]. apply String.eqb_eq in E.
    assert (E' : (toLowerCase (trim name) =? target)%string = false)
      by (apply String.eqb_neq; congruence).
    now rewrite E'.
  - cbn [find fst].
    destruct (toLowerCase (trim name) =? target)%string; [reflexivity|exact IH].
Qed.

Lemma findSheet_modifiedWorkbook renderDate personnelData wb :
  findSheet "all in one view" (modifiedWorkbook renderDate personnelData wb)
  = option_map (updatedRows renderDate personnelData)
               (findSheet "all in one view" wb).
Proof.
  unfold modifiedWorkbook, updateAssessmentSheets, updateAllInOneViewSheet.
  cbn [fold_left assessmentName].
  rewrite !findSheet_updateSheet_other by discriminate.
  apply findSheet_updateSheet.
Qed.

Lemma at_setAt_other i v row j :
  i <> j -> at_ (setAt i v row) j = at_ row j.
Proof.
  unfold at_. revert row j.
  induction i as [|i IH]; intros [|c row] [|j] H; simpl;
    try congruence; try reflexivity.
  - now destruct j.
  - rewrite IH by congruence. now destruct j.
  - apply IH. congruence.
Qed.

Lemma at_blank width j :
  at_ (repeat (Str "") width) j = Str "" \/ at_ (repeat (Str "") width) j = Undefined.
Proof.
  unfold at_. revert j. induction width as [|w IH]; intros [|j]; simpl; auto.
Qed.

Lemma setColumn_other column v row j :
  match column with Some i => (i =? j)%nat | None => false end = false ->
  at_ (setColumn column v row) j = at_ row j.
Proof.
  destruct column as [i|]; simpl; [|reflexivity].
  intro H. apply Nat.eqb_neq in H. now apply at_setAt_other.
Qed.

Lemma exportRow_column renderDate columnMap width person j :
  unmapped j columnMap = true ->
  nonEmpty (text (at_ (exportRow renderDate columnMap width person) j)) = false.
Proof.
  unfold unmapped. intro H. apply negb_true_iff in H. simpl in H.
  repeat (apply orb_false_elim in H as [? H]).
  unfold exportRow. cbv zeta.
  rewrite !setColumn_other by assumption.
  destruct (at_blank width j) as [-> | ->]; reflexivity.
Qed.

Lemma exportRow_no_rank renderDate columnMap width person :
  unmapped 1 columnMap = true ->
  hasRankAndName (exportRow renderDate columnMap width person) = false
  /\ looksLikeData (exportRow renderDate columnMap width person) = false.
Proof.
  intro H. pose proof (exportRow_column renderDate _ width person _ H) as E.
  unfold hasRankAndName, looksLikeData. cbv zeta. rewrite E.
  split; [reflexivity|]. now rewrite andb_false_r.
Qed.

Lemma firstIndex_none (f : list cell -> bool) l i :
  forallb (fun r => negb (f r)) l = true -> firstIndex f l i = None.
Proof.
  revert i. induction l as [|r l IH]; simpl; intros i H; [reflexivity|].
  apply andb_prop in H as [Hr H]. apply negb_true_iff in Hr.
  rewrite Hr. now apply IH.
Qed.

Lemma forallb_firstn {A} (f : A -> bool) n l :
  forallb f l = true -> forallb f (firstn n l) = true.
Proof.
  revert l. induction n as [|n IH]; intros [|a l]; simpl; auto.
  intro H. apply andb_prop in H as [-> H]. now apply IH.
Qed.

(** X16: the personnel rows that downloadModifiedExcel writes into the
    primary sheet are not read back. When the second column of the header
    row is none of the mapped columns (name, platoon, PES, ORD, medical),
    an import of the modified workbook takes every record from a row at or
    above the header row; with the header among the first four rows and no
    data-like row at or above it, the import returns no record at all. *)
Theorem exported_rows_are_not_read_back :
  forall (js : Engine) (env : Env) (renderDate : Z -> string) (wb : Workbook)
         (personnelData : list Person.t) (data : list (list cell))
         (headerRowIndex : nat),
    findSheet "all in one view" wb = Some data ->
    firstIndex mentionsName data 0 = Some headerRowIndex ->
    unmapped 1 (mapHeaders (nth headerRowIndex data []) 0 noColumns) = true ->
    let wb' := modifiedWorkbook renderDate personnelData wb in
    (forall p,
        In p (Outcome.data (processExcelFile js env wb')) ->
        exists row,
          In row (firstn (S headerRowIndex) data)
          /\ hasRankAndName row = true
          /\ Person.name p = rowKey row)
    /\ ((headerRowIndex < 4)%nat ->
        forallb (fun r => negb (looksLikeData r))
                (firstn (S headerRowIndex) data) = true ->
        Outcome.data (processExcelFile js env wb') = []).
Proof.
  intros js env renderDate wb pd data h Hs Hh Hu wb'.
  assert (Hlen : (length (firstn (S h) data) <= S h)%nat)
    by (rewrite length_firstn; lia).
  assert (Hs' : findSheet "all in one view" wb'
                = Some (firstn (S h) data
                        ++ map (exportRow renderDate
                                  (mapHeaders (nth h data []) 0 noColumns)
                                  (length (nth h data []))) pd)%list).
  { unfold wb'. rewrite findSheet_modifiedWorkbook, Hs. simpl.
    unfold updatedRows. now rewrite Hh. }
  remember (firstn (S h) data) as kept eqn:Hk0. clear Hk0.
  set (written := map (exportRow renderDate
                         (mapHeaders (nth h data []) 0 noColumns)
                         (length (nth h data []))) pd) in *.
  assert (Hw : forall row, In row written ->
                 hasRankAndName row = false /\ looksLikeData row = false).
  { intros row Hr. apply in_map_iff in Hr as (p & <- & _).
    now apply exportRow_no_rank. }
  split.
  - intros p Hp.
    destruct (records_from_data_rows js env wb' p Hp)
      as (rawData & row & Hr & Hin & Hd & Hk).
    rewrite Hs' in Hr. injection Hr as <-.
    apply In_skipn in Hin. apply in_app_iff in Hin as [Hin|Hin].
    + exists row. auto.
    + destruct (Hw row Hin) as [E _]. congruence.
  - intros Hlt Hkept.
    destruct (Outcome.data (processExcelFile js env wb')) as [|p rest] eqn:E;
      [reflexivity|exfalso].
    destruct (records_from_data_rows js env wb' p) as
        (rawData & row & Hr & Hin & Hd & Hk); [rewrite E; now left|].
    rewrite Hs' in Hr. injection Hr as <-.
    assert (Hstart : dataStartRow (kept ++ written)%list = 4%nat).
    { unfold dataStartRow. rewrite firstIndex_none; [reflexivity|].
      apply forallb_firstn. rewrite forallb_app, Hkept. simpl.
      apply forallb_forall. intros r Hr. now rewrite (proj2 (Hw r Hr)). }
    rewrite Hstart, skipn_app in Hin.
    rewrite (skipn_all2 kept) in Hin by lia.
    simpl in Hin. apply In_skipn in Hin.
    destruct (Hw row Hin) as [E' _]. congruence.
Qed.

Lemma exported_rows_are_not_read_back_witness :
  Outcome.data
    (processExcelFile isoEngine (envWith 0)
       (modifiedWorkbook (fun _ => "")
          (Outcome.data
             (processExcelFile isoEngine (envWith 0)
                [(primary, [[Str "S/N"; Str "Rank"; Str "Name"; Str "PES"];
                            rowNSF])]))
          [(primary, [[Str "S/N"; Str "Rank"; Str "Name"; Str "PES"]; rowNSF])]))
  = [].
Proof.
  exact (proj2 (exported_rows_are_not_read_back isoEngine (envWith 0)
                  (fun _ => "")
                  [(primary, [[Str "S/N"; Str "Rank"; Str "Name"; Str "PES"];
                              rowNSF])]
                  _ _ 0%nat eq_refl eq_refl eq_refl)
           ltac:(simpl; lia) eq_refl).
Defined.

(** *** Name keys and letter case *)

Section CaseMap.
Variable f : ascii -> ascii.
Hypothesis f_space : forall c, isWhiteSpace (f c) = isWhiteSpace c.
Hypothesis f_markup : forall c, isMarkupChar (f c) = isMarkupChar c.
Hypothesis f_upper : forall c, upperChar (f c) = upperChar c.

Lemma trimStart_map s : trimStart (mapString f s) = mapString f (trimStart s).
Proof.
  induction s as [|c s IH]; simpl; [reflexivity|].
  rewrite f_space. now destruct (isWhiteSpace c).
Qed.

Lemma trimEnd_map s : trimEnd (mapString f s) = mapString f (trimEnd s).
Proof.
  induction s as [|c s IH]; simpl; [reflexivity|].
  rewrite IH. destruct (trimEnd s); simpl; [|reflexivity].
  rewrite f_space. now destruct (isWhiteSpace c).
Qed.

Lemma filterMarkup_map s :
  filterString (fun c => negb (isMarkupChar c)) (mapString f s)
  = mapString f (filterString (fun c => negb (isMarkupChar c)) s).
Proof.
  induction s as [|c s IH]; simpl; [reflexivity|].
  rewrite f_markup, IH. now destruct (isMarkupChar c).
Qed.

Lemma substring0_map n s :
  String.substring 0 n (mapString f s) = mapString f (String.substring 0 n s).
Proof.
  revert s. induction n as [|n IH]; intros [|c s]; simpl; try reflexivity.
  now rewrite IH.
Qed.

Lemma toUpperCase_map s : toUpperCase (mapString f s) = toUpperCase s.
Proof.
  unfold toUpperCase. induction s as [|c s IH]; simpl; [reflexivity|].
  now rewrite f_upper, IH.
Qed.

Lemma sanitize_map s :
  sanitizePersonnelName (mapString f s) = sanitizePersonnelName s.
Proof.
  unfold sanitizePersonnelName, trim, substring0.
  destruct s as [|c s]; [reflexivity|].
  change (mapString f (String c s) =? "")%string with false.
  change (String c s =? "")%string with false. cbv iota.
  change (fun c0 : ascii =>
            negb ((c0 =? "<")%char || (c0 =? ">")%char
                  || (c0 =? dquote)%char || (c0 =? squote)%char))
    with (fun c0 => negb (isMarkupChar c0)).
  now rewrite trimStart_map, trimEnd_map, filterMarkup_map, substring0_map,
    toUpperCase_map.
Qed.

End CaseMap.

Lemma lower_space c : isWhiteSpace (lowerChar c) = isWhiteSpace c.
Proof. destruct c as [[] [] [] [] [] [] [] []]; reflexivity. Qed.

Lemma lower_markup c : isMarkupChar (lowerChar c) = isMarkupChar c.
Proof. destruct c as [[] [] [] [] [] [] [] []]; reflexivity. Qed.

Lemma upper_lower c : upperChar (lowerChar c) = upperChar c.
Proof. destruct c as [[] [] [] [] [] [] [] []]; reflexivity. Qed.

Lemma upper_space_eq c : isWhiteSpace (upperChar c) = isWhiteSpace c.
Proof. destruct c as [[] [] [] [] [] [] [] []]; reflexivity. Qed.

(** X17: for a name of ASCII characters, the key under which the name is
    stored does not depend on the case of its letters: the name, its
    lower-case form and its upper-case form have the same key, so rows and
    VOC entries that spell one such name in different cases meet in one
    record. *)
Theorem name_key_ignores_case :
  forall name : string,
    asciiText name ->
    sanitizePersonnelName (toLowerCase name) = sanitizePersonnelName name
    /\ sanitizePersonnelName (toUpperCase name) = sanitizePersonnelName name.
Proof.
  intros name _. split.
  - apply (sanitize_map lowerChar lower_space lower_markup upper_lower).
  - apply (sanitize_map upperChar upper_space_eq upperChar_markup upperChar_idem).
Qed.

Lemma name_key_ignores_case_witness :
  sanitizePersonnelName (toLowerCase "Tan Wei") = sanitizePersonnelName "Tan Wei"
  /\ sanitizePersonnelName (toUpperCase "Tan Wei") = sanitizePersonnelName "Tan Wei".
Proof. exact (name_key_ignores_case "Tan Wei" eq_refl). Defined.

(** *** The two scans for the first data row *)

Lemma firstIndex_bounds (f : list cell -> bool) l i k :
  firstIndex f l i = Some k -> (i <= k < i + length l)%nat.
Proof.
  revert i. induction l as [|r l IH]; simpl; intros i H; [discriminate|].
  destruct (f r).
  - injection H as <-. lia.
  - apply IH in H. lia.
Qed.

Lemma firstIndex_split (f : list cell -> bool) n l i :
  firstIndex f l i
  = match firstIndex f (firstn n l) i with
    | Some k => Some k
    | None => firstIndex f (skipn n l) (i + n)
    end.
Proof.
  revert l i. induction n as [|n IH]; intros l i.
  - simpl. now rewrite Nat.add_0_r.
  - destruct l as [|r l]; simpl; [reflexivity|].
    destruct (f r); [reflexivity|].
    rewrite (IH l (S i)). now replace (S i + n)%nat with (i + S n)%nat by lia.
Qed.

(** X18: findDataStartRow, the scan of the legacy sheet reader, starts
    at the fourth row where the scan of processExcelFile starts at the
    first. Its result lies between 3 and 9, and the two scans agree
    exactly when the scan of processExcelFile finds no data in the first
    three rows. *)
Theorem findDataStartRow_vs_inline_scan :
  forall rawData : list (list cell),
    (3 <= findDataStartRow rawData <= 9)%nat
    /\ (findDataStartRow rawData = dataStartRow rawData
        <-> (3 <= dataStartRow rawData)%nat).
Proof.
  intro rawData. unfold findDataStartRow, dataStartRow.
  rewrite (firstIndex_split looksLikeData 3 (firstn 10 rawData) 0).
  simpl (0 + 3)%nat.
  assert (Hlen : (length (skipn 3 (firstn 10 rawData)) <= 7)%nat).
  { rewrite length_skipn, length_firstn. lia. }
  destruct (firstIndex looksLikeData (skipn 3 (firstn 10 rawData)) 3)
    as [k|] eqn:Ek.
  - apply firstIndex_bounds in Ek.
    destruct (firstIndex looksLikeData (firstn 3 (firstn 10 rawData)) 0)
      as [k'|] eqn:Ek'.
    + apply firstIndex_bounds in Ek'.
      assert ((length (firstn 3 (firstn 10 rawData)) <= 3)%nat)
        by (rewrite length_firstn; lia).
      lia.
    + lia.
  - destruct (firstIndex looksLikeData (firstn 3 (firstn 10 rawData)) 0)
      as [k'|] eqn:Ek'.
    + apply firstIndex_bounds in Ek'.
      assert ((length (firstn 3 (firstn 10 rawData)) <= 3)%nat)
        by (rewrite length_firstn; lia).
      lia.
    + lia.
Qed.

(** *** The shape of the result *)

(** X19: what processExcelFile returns is one of two things. On success
    the error list is empty and recordCount is the number of records. On
    failure there is no record, a count of 0, exactly one error message
    and no warning: the warnings collected before the exception are
    dropped with the records. *)
Theorem outcome_is_all_or_nothing :
  forall (js : Engine) (env : Env) (wb : Workbook),
    let r := processExcelFile js env wb in
    (Outcome.success r = true
     /\ Outcome.errors r = []
     /\ Outcome.recordCount r = length (Outcome.data r))
    \/ (Outcome.success r = false
        /\ Outcome.data r = []
        /\ Outcome.recordCount r = 0%nat
        /\ Outcome.warnings r = []
        /\ length (Outcome.errors r) = 1%nat).
Proof.
  intros js env wb r. subst r.
  destruct (processExcelFile_cases js env wb)
    as [[_ ->]|[(rawData & e & _ & _ & ->)|(rawData & st & _ & _ & ->)]].
  - right. repeat split.
  - right. repeat split.
  - left. repeat split.
Qed.

(** *** Assessment dates *)

Lemma blockDates_blocks p q : blocksOf p = blocksOf q -> blockDates p = blockDates q.
Proof. unfold blocksOf, blockDates. now intros [= -> -> ->]. Qed.

Lemma writeY1_dates prop set v p p' :
  (forall s b, y1Dates (set s b) = y1Dates b) ->
  writeY1 prop set v p = Ok p' -> blockDates p' = blockDates p.
Proof.
  intro Hset. unfold writeY1. destruct (storable v); [|now intros [= <-]].
  destruct (Person.y1 p) eqn:E; [|discriminate].
  intros [= <-]. unfold blockDates.
  cbn [Person.y1 Person.y2 Person.workYear Person.set_y1 Person.set_y2
       Person.set_workYear].
  now rewrite E, Hset.
Qed.

Lemma writeY2_dates prop set v p p' :
  (forall s b, y2Dates (set s b) = y2Dates b) ->
  writeY2 prop set v p = Ok p' -> blockDates p' = blockDates p.
Proof.
  intro Hset. unfold writeY2. destruct (storable v); [|now intros [= <-]].
  destruct (Person.y2 p) eqn:E; [|discriminate].
  intros [= <-]. unfold blockDates.
  cbn [Person.y1 Person.y2 Person.workYear Person.set_y1 Person.set_y2
       Person.set_workYear].
  now rewrite E, Hset.
Qed.

Lemma writeWorkYear_dates prop set v p p' :
  (forall s b, workYearDates (set s b) = workYearDates b) ->
  writeWorkYear prop set v p = Ok p' -> blockDates p' = blockDates p.
Proof.
  intro Hset. unfold writeWorkYear. destruct (storable v); [|now intros [= <-]].
  destruct (Person.workYear p) eqn:E; [|discriminate].
  intros [= <-]. unfold blockDates.
  cbn [Person.y1 Person.y2 Person.workYear Person.set_y1 Person.set_y2
       Person.set_workYear].
  now rewrite E, Hset.
Qed.

Lemma assignResults_dates row p p' :
  assignResults row p = Ok p' -> blockDates p' = blockDates p.
Proof.
  unfold assignResults. intro H.
  destruct (Person.category p); repeat invert_bind H;
    repeat match goal with
           | H : writeY1 _ _ _ _ = Ok _ |- _ =>
               apply writeY1_dates in H; [|reflexivity]
           | H : writeY2 _ _ _ _ = Ok _ |- _ =>
               apply writeY2_dates in H; [|reflexivity]
           | H : writeWorkYear _ _ _ _ = Ok _ |- _ =>
               apply writeWorkYear_dates in H; [|reflexivity]
           end;
    congruence.
Qed.

Lemma validate_blocks js env j p w :
  blocksOf (fst (validateAndCleanPersonnelRecord js env j p w)) = blocksOf p.
Proof.
  unfold validateAndCleanPersonnelRecord.
  destruct (isValidPlatoon (Person.platoon p)); simp_person;
    destruct (arrayIncludes MEDICAL_STATUS_OPTIONS (Person.medicalStatus p));
    simp_person; break_if; reflexivity.
Qed.

Lemma mergeRow_no_dates maps now cp rank name row pm pm' :
  Forall (fun p => Forall (fun d => d = DNull) (blockDates p)) (SMap.values pm) ->
  mergeRow maps now cp rank name row pm = Ok pm' ->
  Forall (fun p => Forall (fun d => d = DNull) (blockDates p)) (SMap.values pm').
Proof.
  revert now cp rank name row pm pm'. apply mergeRow_Forall.
  - intros now key cat cp rank pes.
    destruct cat; unfold blockDates; simpl; repeat constructor.
  - intros cp rank pes service cat p Hp.
    now rewrite (blockDates_blocks _ _ (updateAdmin_blocks _ _ _ _ _ _)).
  - intros key p Hp.
    now rewrite (blockDates_blocks _ _ (joinDates_blocks _ _ _)).
  - intros row p p' Hp H. now rewrite (assignResults_dates _ _ _ H).
Qed.

(** X20: the ingestion stores results and never a date of an assessment:
    in every record returned, every date slot of the y1, y2 and work-year
    blocks is null. *)
Theorem ingestion_stores_no_assessment_date :
  forall (js : Engine) (env : Env) (wb : Workbook),
    Forall (fun p => Forall (fun d => d = DNull) (blockDates p))
           (Outcome.data (processExcelFile js env wb)).
Proof.
  apply (processExcelFile_Forall
           (fun p => Forall (fun d => d = DNull) (blockDates p))).
  - intro maps. apply mergeRow_no_dates.
  - intros js env j p w Hp.
    now rewrite (blockDates_blocks _ _ (validate_blocks _ _ _ _ _)).
Qed.

(** X21: as a consequence every returned record that has a y2 block is
    flagged overdue, at any time and whatever results it holds, and a
    record with the work-year block never is. *)
Theorem ingested_records_overdue_by_shape :
  forall (js : Engine) (env : Env) (wb : Workbook)
         (js' : Engine) (clock : nat -> Z) (p : Person.t),
    In p (Outcome.data (processExcelFile js env wb)) ->
    isOverdue js' clock p = hasY2 p.
Proof.
  intros js env wb js' clock p Hin.
  assert (H : Forall (fun d => d = DNull) (blockDates p)).
  { revert p Hin. apply Forall_forall.
    apply (processExcelFile_Forall
             (fun p => Forall (fun d => d = DNull) (blockDates p))).
    - intro maps. apply mergeRow_no_dates.
    - intros js0 env0 j q w Hq.
      now rewrite (blockDates_blocks _ _ (validate_blocks _ _ _ _ _)). }
  unfold isOverdue, hasY2. unfold blockDates in H.
  destruct (Person.y2 p) as [b|]; [|reflexivity].
  apply Forall_app in H as [_ H]. apply Forall_app in H as [H _].
  inversion H as [|d l Hd _]; subst. unfold isDateOverdue. now rewrite Hd.
Qed.

Lemma ingested_records_overdue_by_shape_witness :
  isOverdue isoEngine (fun _ => 0)
    (hd goldRecord (Outcome.data (processExcelFile isoEngine (envWith 0) wbOne)))
  = true.
Proof.
  exact (ingested_records_overdue_by_shape isoEngine (envWith 0) wbOne
           isoEngine (fun _ => 0) _ (or_introl eq_refl)).
Defined.

(** *** The assessment sheets after an ingestion *)

Lemma sanitize_upper s :
  toUpperCase (sanitizePersonnelName s) = sanitizePersonnelName s.
Proof.
  unfold sanitizePersonnelName. destruct (s =? "")%string; [reflexivity|].
  apply toUpperCase_idem.
Qed.

Lemma ingested_names_upper js env wb p :
  In p (Outcome.data (processExcelFile js env wb)) ->
  toUpperCase (Person.name p) = Person.name p.
Proof.
  intro Hp.
  destruct (records_from_data_rows js env wb p Hp) as (_ & row & _ & _ & _ & ->).
  apply sanitize_upper.
Qed.

Lemma find_none {A} (f : A -> bool) l :
  (forall a, In a l -> f a = false) -> find f l = None.
Proof.
  induction l as [|a l IH]; simpl; intro H; [reflexivity|].
  rewrite (H a) by now left. apply IH. intros b Hb. apply H. now right.
Qed.

Lemma map_fixed {A} (f : A -> A) l : (forall a, In a l -> f a = a) -> map f l = l.
Proof.
  induction l as [|a l IH]; simpl; intro H; [reflexivity|].
  rewrite (H a) by now left. f_equal. apply IH. intros b Hb. apply H. now right.
Qed.

Lemma updateAssessmentSheet_unknown_names renderDate ty personnelData data :
  (forall n, In n (lookedUpNames data) ->
             ~ In n (map Person.name personnelData)) ->
  updateAssessmentSheet renderDate ty personnelData data = data.
Proof.
  unfold updateAssessmentSheet, lookedUpNames.
  destruct (firstIndex mentionsName data 0) as [h|]; [|reflexivity].
  cbv zeta.
  destruct (findCell isNameHeader (nth h data []) 0) as [c|]; [|reflexivity].
  intro H. rewrite map_fixed; [apply firstn_skipn|].
  intros row Hrow. unfold updateAssessmentRow.
  destruct (truthy (at_ row c)) eqn:Et; [|reflexivity]. cbv zeta. simpl negb.
  cbv iota. rewrite find_none; [reflexivity|].
  intros p Hp. apply String.eqb_neq. intro E.
  apply (H (trim (toString (at_ row c)))).
  - apply in_map_iff. exists row. split; [reflexivity|].
    apply filter_In. auto.
  - rewrite <- E. now apply in_map.
Qed.

(** X22: the rows of an assessment sheet are matched to the records by
    comparing the name cell with the stored name, which the ingestion has
    put in upper case. After an ingestion, a sheet in which no name that is
    looked up is in upper case is left exactly as it was. *)
Theorem assessment_sheet_lookup_is_case_sensitive :
  forall (js : Engine) (env : Env) (wb : Workbook) (renderDate : Z -> string)
         (assessmentType : AssessmentType) (data : list (list cell)),
    Forall (fun n => toUpperCase n <> n) (lookedUpNames data) ->
    updateAssessmentSheet renderDate assessmentType
      (Outcome.data (processExcelFile js env wb)) data
    = data.
Proof.
  intros js env wb renderDate ty data H.
  apply updateAssessmentSheet_unknown_names.
  intros n Hn Hin. rewrite Forall_forall in H. apply (H n Hn).
  apply in_map_iff in Hin as (p & <- & Hp).
  eapply ingested_names_upper; eauto.
Qed.

Lemma assessment_sheet_lookup_is_case_sensitive_witness :
  updateAssessmentSheet (fun _ => "") IpptSheet
    (Outcome.data (processExcelFile isoEngine (envWith 0) wbOne))
    [[Str "Name"; Str "Y1 Result"]; [Str "Tan Wei"; Str ""]]
  = [[Str "Name"; Str "Y1 Result"]; [Str "Tan Wei"; Str ""]].
Proof.
  apply (assessment_sheet_lookup_is_case_sensitive isoEngine (envWith 0) wbOne
           (fun _ => "") IpptSheet).
  repeat constructor. discriminate.
Defined.
